(** * Kanban organiser and barcode scanner: a shallow embedding

    The development follows the kanban screen ([KanbanScreen] and its
    [DraggableProduct] cards) and the scanner screen ([ScannerScreen]).

    Conventions of the embedding.
    - Screen coordinates, scroll offsets and widths are JavaScript numbers;
      they are modelled as exact rationals ([Q]).  Rounding of IEEE doubles
      is not modelled.
    - [Date.now()] and timer deadlines are integers of milliseconds ([Z]).
    - React state ([useState]) and refs ([useRef]) of a component are the
      fields of one record; a handler is a function from the record to the
      record.  Reanimated shared values are fields as well, and
      [withSpring v] is modelled by the value [v] the spring settles on.
    - Calls that a handler makes and does not wait for (alerts,
      [scrollTo]) are appended to a list of effects kept with the state,
      and [setTimeout] adds a pending timer to it.
    - An [async] handler is run up to its first [await]: its result is
      the state at that point, the request it waits for, and a
      continuation that takes the answer and the state as it is when the
      handler resumes. *)

From Stdlib Require Import ZArith QArith Qabs Qround Qminmax Lia Lqa.
From Stdlib Require Import List Bool String Ascii Permutation Sorted.
From Stdlib Require Import DecimalString.
Import ListNotations.

Local Open Scope Z_scope.

(** ** JavaScript primitives used by the screens *)

Module Js.

(** [a < b] and [a <= b] on numbers. *)
Definition ltb (a b : Q) : bool := negb (Qle_bool b a).
Definition leb (a b : Q) : bool := Qle_bool a b.

(** [Math.floor]. *)
Definition floor (x : Q) : Z := Qfloor x.

(** Truthiness of an optional string: [undefined], [null] and the empty
    string are falsy. *)
Definition truthy (s : option string) : bool :=
  match s with
  | Some (String _ _) => true
  | _ => false
  end.

(** [s || d] for an optional string [s]. *)
Definition orElse (s : option string) (d : string) : string :=
  match s with
  | Some (String c r) => String c r
  | _ => d
  end.

Definition isWhite (c : ascii) : bool :=
  let n := nat_of_ascii c in
  ((9 <=? n) && (n <=? 13))%nat || (n =? 32)%nat.

Fixpoint trimStart (s : string) : string :=
  match s with
  | String c r => if isWhite c then trimStart r else s
  | EmptyString => EmptyString
  end.

Fixpoint trimEnd (s : string) : string :=
  match s with
  | EmptyString => EmptyString
  | String c r =>
      match trimEnd r with
      | EmptyString => if isWhite c then EmptyString else String c EmptyString
      | r' => String c r'
      end
  end.

(** [String.prototype.trim], on the ASCII white space characters. *)
Definition trim (s : string) : string := trimEnd (trimStart s).

Definition lowerChar (c : ascii) : ascii :=
  let n := nat_of_ascii c in
  if ((65 <=? n) && (n <=? 90))%nat then ascii_of_nat (n + 32) else c.

(** [String.prototype.toLowerCase], on the ASCII letters. *)
Fixpoint toLowerCase (s : string) : string :=
  match s with
  | EmptyString => EmptyString
  | String c r => String (lowerChar c) (toLowerCase r)
  end.

(** [String.prototype.includes]. *)
Fixpoint includes (s sub : string) : bool :=
  String.prefix sub s
  || match s with
     | EmptyString => false
     | String _ r => includes r sub
     end.

(** [Number.prototype.toString] of an integer. *)
Definition toString (n : Z) : string := NilZero.string_of_int (Z.to_int n).

(** [String.prototype.localeCompare]: negative, zero or positive.  The
    strings compared are barcodes, on which collation order is the order
    of the character codes. *)
Definition localeCompare (a b : string) : Z :=
  match String.compare a b with
  | Lt => -1
  | Eq => 0
  | Gt => 1
  end.

(** [Array.prototype.sort] with a comparator: a stable sort.  [insert]
    puts [x], which stood before every element of [l], in front of the
    first element that the comparator does not order strictly before it. *)
Section Sort.
Context {A : Type} (cmp : A -> A -> Z).

Fixpoint insert (x : A) (l : list A) : list A :=
  match l with
  | [] => [x]
  | y :: l' => if cmp x y <=? 0 then x :: y :: l' else y :: insert x l'
  end.

Fixpoint sort (l : list A) : list A :=
  match l with
  | [] => []
  | x :: l' => insert x (sort l')
  end.
End Sort.

(** [Array.prototype.includes] on strings. *)
Definition arrayIncludes (l : list string) (s : string) : bool :=
  existsb (String.eqb s) l.

End Js.

(** ** Data model *)

(** [SavedProduct] of the API module.  [createdAt] is the epoch time in
    milliseconds that [new Date(createdAt).getTime()] yields, [None] when
    the field is missing or empty. *)
Record SavedProduct := {
  _id : option string;
  material : Z;
  barcode : string;
  description : string;
  category : option string;
  createdAt : option Z
}.

Definition Uncategorized : string := "Uncategorized".

(** [p.category || 'Uncategorized'] *)
Definition categoryOf (p : SavedProduct) : string :=
  Js.orElse (category p) Uncategorized.

(** [{ ...p, category: c }] *)
Definition withCategory (p : SavedProduct) (c : string) : SavedProduct :=
  {| _id := _id p; material := material p; barcode := barcode p;
     description := description p; category := Some c;
     createdAt := createdAt p |}.

(** [Dimensions.get('window')] *)
Class Window := { SCREEN_WIDTH : Q; SCREEN_HEIGHT : Q }.

Module Theme.
Definition spacing_sm : Q := 8.
Definition spacing_md : Q := 16.

Section Device.
Context `{Window}.
Definition isSmallDevice : bool := Js.ltb SCREEN_WIDTH 375.
Definition isTablet : bool := Js.leb 768 SCREEN_WIDTH.
End Device.
End Theme.

(** ** The kanban screen *)

Module Kanban.

Inductive Direction := ScrollLeft | ScrollRight.

(** Callbacks handed to [setTimeout]: the one of
    [scrollBasedOnScreenPosition], which lowers [isScrollingRef], and the
    one of [handleDragOverColumn], which looks at the pointer again. *)
Inductive Callback :=
| ResetScrolling
| RecheckEdge (currentIndex : Z).

Record Timer := { timerId : nat; due : Z; callback : Callback }.

(** Calls that leave the component and are not awaited. *)
Inductive Effect :=
| ScrollTo (x : Q)
| Alert (title message : string).

(** The [useState] values of [KanbanScreen]. *)
Record State := {
  products : list SavedProduct;
  categories : list string;
  loading : bool;
  refreshing : bool;
  updating : option string;
  dragTargetCategory : option string;
  draggedProduct : option SavedProduct;
  dragPosition : option (Q * Q);
  draggedProductTargetCategory : option string;
  searchQuery : string;
  selectedCategory : option string
}.

(** The [useRef] values of [KanbanScreen]; [boardScrollRef] records
    whether the board's scroll view is mounted, [scrollTimeoutRef] holds
    a timer id. *)
Record Refs := {
  boardScrollRef : bool;
  scrollTimeoutRef : option nat;
  currentScrollXRef : Q;
  isScrollingRef : bool;
  lastScrollDirectionRef : option Direction;
  lastScrollTimeRef : Z;
  currentDragXRef : Q;
  lastScrolledToIndexRef : Z
}.

(** The screen: state, refs, the timers that are pending, and the
    effects performed so far (latest last). *)
Record Board := {
  state : State;
  refs : Refs;
  timers : list Timer;
  nextTimerId : nat;
  effects : list Effect
}.

(** *** Field updates *)

Definition withState (f : State -> State) (b : Board) : Board :=
  {| state := f (state b); refs := refs b; timers := timers b;
     nextTimerId := nextTimerId b; effects := effects b |}.

Definition withRefs (f : Refs -> Refs) (b : Board) : Board :=
  {| state := state b; refs := f (refs b); timers := timers b;
     nextTimerId := nextTimerId b; effects := effects b |}.

Definition perform (e : Effect) (b : Board) : Board :=
  {| state := state b; refs := refs b; timers := timers b;
     nextTimerId := nextTimerId b; effects := effects b ++ [e] |}.

Definition setProducts (v : list SavedProduct) : Board -> Board :=
  withState (fun s =>
    {| products := v; categories := categories s; loading := loading s;
       refreshing := refreshing s; updating := updating s;
       dragTargetCategory := dragTargetCategory s;
       draggedProduct := draggedProduct s; dragPosition := dragPosition s;
       draggedProductTargetCategory := draggedProductTargetCategory s;
       searchQuery := searchQuery s; selectedCategory := selectedCategory s |}).

Definition setCategories (v : list string) : Board -> Board :=
  withState (fun s =>
    {| products := products s; categories := v; loading := loading s;
       refreshing := refreshing s; updating := updating s;
       dragTargetCategory := dragTargetCategory s;
       draggedProduct := draggedProduct s; dragPosition := dragPosition s;
       draggedProductTargetCategory := draggedProductTargetCategory s;
       searchQuery := searchQuery s; selectedCategory := selectedCategory s |}).

Definition setLoading (v : bool) : Board -> Board :=
  withState (fun s =>
    {| products := products s; categories := categories s; loading := v;
       refreshing := refreshing s; updating := updating s;
       dragTargetCategory := dragTargetCategory s;
       draggedProduct := draggedProduct s; dragPosition := dragPosition s;
       draggedProductTargetCategory := draggedProductTargetCategory s;
       searchQuery := searchQuery s; selectedCategory := selectedCategory s |}).

Definition setRefreshing (v : bool) : Board -> Board :=
  withState (fun s =>
    {| products := products s; categories := categories s;
       loading := loading s; refreshing := v; updating := updating s;
       dragTargetCategory := dragTargetCategory s;
       draggedProduct := draggedProduct s; dragPosition := dragPosition s;
       draggedProductTargetCategory := draggedProductTargetCategory s;
       searchQuery := searchQuery s; selectedCategory := selectedCategory s |}).

Definition setUpdating (v : option string) : Board -> Board :=
  withState (fun s =>
    {| products := products s; categories := categories s;
       loading := loading s; refreshing := refreshing s; updating := v;
       dragTargetCategory := dragTargetCategory s;
       draggedProduct := draggedProduct s; dragPosition := dragPosition s;
       draggedProductTargetCategory := draggedProductTargetCategory s;
       searchQuery := searchQuery s; selectedCategory := selectedCategory s |}).

Definition setDragTargetCategory (v : option string) : Board -> Board :=
  withState (fun s =>
    {| products := products s; categories := categories s;
       loading := loading s; refreshing := refreshing s;
       updating := updating s; dragTargetCategory := v;
       draggedProduct := draggedProduct s; dragPosition := dragPosition s;
       draggedProductTargetCategory := draggedProductTargetCategory s;
       searchQuery := searchQuery s; selectedCategory := selectedCategory s |}).

Definition setDraggedProduct (v : option SavedProduct) : Board -> Board :=
  withState (fun s =>
    {| products := products s; categories := categories s;
       loading := loading s; refreshing := refreshing s;
       updating := updating s; dragTargetCategory := dragTargetCategory s;
       draggedProduct := v; dragPosition := dragPosition s;
       draggedProductTargetCategory := draggedProductTargetCategory s;
       searchQuery := searchQuery s; selectedCategory := selectedCategory s |}).

Definition setDragPosition (v : option (Q * Q)) : Board -> Board :=
  withState (fun s =>
    {| products := products s; categories := categories s;
       loading := loading s; refreshing := refreshing s;
       updating := updating s; dragTargetCategory := dragTargetCategory s;
       draggedProduct := draggedProduct s; dragPosition := v;
       draggedProductTargetCategory := draggedProductTargetCategory s;
       searchQuery := searchQuery s; selectedCategory := selectedCategory s |}).

Definition setDraggedProductTargetCategory (v : option string)
  : Board -> Board :=
  withState (fun s =>
    {| products := products s; categories := categories s;
       loading := loading s; refreshing := refreshing s;
       updating := updating s; dragTargetCategory := dragTargetCategory s;
       draggedProduct := draggedProduct s; dragPosition := dragPosition s;
       draggedProductTargetCategory := v;
       searchQuery := searchQuery s; selectedCategory := selectedCategory s |}).

Definition setScrollTimeoutRef (v : option nat) : Board -> Board :=
  withRefs (fun r =>
    {| boardScrollRef := boardScrollRef r; scrollTimeoutRef := v;
       currentScrollXRef := currentScrollXRef r;
       isScrollingRef := isScrollingRef r;
       lastScrollDirectionRef := lastScrollDirectionRef r;
       lastScrollTimeRef := lastScrollTimeRef r;
       currentDragXRef := currentDragXRef r;
       lastScrolledToIndexRef := lastScrolledToIndexRef r |}).

Definition setCurrentScrollXRef (v : Q) : Board -> Board :=
  withRefs (fun r =>
    {| boardScrollRef := boardScrollRef r;
       scrollTimeoutRef := scrollTimeoutRef r; currentScrollXRef := v;
       isScrollingRef := isScrollingRef r;
       lastScrollDirectionRef := lastScrollDirectionRef r;
       lastScrollTimeRef := lastScrollTimeRef r;
       currentDragXRef := currentDragXRef r;
       lastScrolledToIndexRef := lastScrolledToIndexRef r |}).

Definition setIsScrollingRef (v : bool) : Board -> Board :=
  withRefs (fun r =>
    {| boardScrollRef := boardScrollRef r;
       scrollTimeoutRef := scrollTimeoutRef r;
       currentScrollXRef := currentScrollXRef r; isScrollingRef := v;
       lastScrollDirectionRef := lastScrollDirectionRef r;
       lastScrollTimeRef := lastScrollTimeRef r;
       currentDragXRef := currentDragXRef r;
       lastScrolledToIndexRef := lastScrolledToIndexRef r |}).

Definition setLastScrollDirectionRef (v : option Direction)
  : Board -> Board :=
  withRefs (fun r =>
    {| boardScrollRef := boardScrollRef r;
       scrollTimeoutRef := scrollTimeoutRef r;
       currentScrollXRef := currentScrollXRef r;
       isScrollingRef := isScrollingRef r; lastScrollDirectionRef := v;
       lastScrollTimeRef := lastScrollTimeRef r;
       currentDragXRef := currentDragXRef r;
       lastScrolledToIndexRef := lastScrolledToIndexRef r |}).

Definition setLastScrollTimeRef (v : Z) : Board -> Board :=
  withRefs (fun r =>
    {| boardScrollRef := boardScrollRef r;
       scrollTimeoutRef := scrollTimeoutRef r;
       currentScrollXRef := currentScrollXRef r;
       isScrollingRef := isScrollingRef r;
       lastScrollDirectionRef := lastScrollDirectionRef r;
       lastScrollTimeRef := v; currentDragXRef := currentDragXRef r;
       lastScrolledToIndexRef := lastScrolledToIndexRef r |}).

Definition setCurrentDragXRef (v : Q) : Board -> Board :=
  withRefs (fun r =>
    {| boardScrollRef := boardScrollRef r;
       scrollTimeoutRef := scrollTimeoutRef r;
       currentScrollXRef := currentScrollXRef r;
       isScrollingRef := isScrollingRef r;
       lastScrollDirectionRef := lastScrollDirectionRef r;
       lastScrollTimeRef := lastScrollTimeRef r; currentDragXRef := v;
       lastScrolledToIndexRef := lastScrolledToIndexRef r |}).

Definition setLastScrolledToIndexRef (v : Z) : Board -> Board :=
  withRefs (fun r =>
    {| boardScrollRef := boardScrollRef r;
       scrollTimeoutRef := scrollTimeoutRef r;
       currentScrollXRef := currentScrollXRef r;
       isScrollingRef := isScrollingRef r;
       lastScrollDirectionRef := lastScrollDirectionRef r;
       lastScrollTimeRef := lastScrollTimeRef r;
       currentDragXRef := currentDragXRef r; lastScrolledToIndexRef := v |}).

(** [setTimeout(cb, delay)] called at time [now]; the id of the new
    timer is [nextTimerId] of the board before the call. *)
Definition setTimeout (now delay : Z) (cb : Callback) (b : Board) : Board :=
  {| state := state b; refs := refs b;
     timers := timers b
               ++ [{| timerId := nextTimerId b; due := now + delay;
                      callback := cb |}];
     nextTimerId := S (nextTimerId b); effects := effects b |}.

(** [clearTimeout(id)]; clearing a timer that has fired does nothing. *)
Definition clearTimeout (id : nat) (b : Board) : Board :=
  {| state := state b; refs := refs b;
     timers := filter (fun t => negb (Nat.eqb (timerId t) id)) (timers b);
     nextTimerId := nextTimerId b; effects := effects b |}.

(** [if (scrollTimeoutRef.current) { clearTimeout(...); ... = null }] *)
Definition clearScrollTimeout (b : Board) : Board :=
  match scrollTimeoutRef (refs b) with
  | Some id => setScrollTimeoutRef None (clearTimeout id b)
  | None => b
  end.

Section Screen.
Context `{Window}.

Definition COLUMN_WIDTH : Q :=
  if Theme.isSmallDevice then 260
  else if Theme.isTablet then 320 else 300.

(** [COLUMN_WIDTH + spacing.sm * 2], [spacing.md], [SCREEN_WIDTH / 2] *)
Definition columnSpacing : Q := COLUMN_WIDTH + Theme.spacing_sm * 2.
Definition boardPadding : Q := Theme.spacing_md.
Definition screenCenter : Q := SCREEN_WIDTH / 2.

(** *** Filters *)

Definition filterProductsBySearch (productList : list SavedProduct)
    (query : string) : list SavedProduct :=
  match Js.trim query with
  | EmptyString => productList
  | _ =>
      let lowerQuery := Js.trim (Js.toLowerCase query) in
      filter (fun p =>
        let materialMatch :=
          Js.includes (Js.toLowerCase (Js.toString (material p))) lowerQuery in
        let barcodeMatch :=
          Js.includes (Js.toLowerCase (barcode p)) lowerQuery in
        let descriptionMatch :=
          Js.includes (Js.toLowerCase (description p)) lowerQuery in
        materialMatch || barcodeMatch || descriptionMatch) productList
  end.

Definition getFilteredProducts (b : Board) : list SavedProduct :=
  let filteredProducts := products (state b) in
  let filteredProducts :=
    match selectedCategory (state b) with
    | Some (String c r) =>
        filter (fun p => String.eqb (categoryOf p) (String c r))
               filteredProducts
    | _ => filteredProducts
    end in
  match Js.trim (searchQuery (state b)) with
  | EmptyString => filteredProducts
  | _ => filterProductsBySearch filteredProducts (searchQuery (state b))
  end.

Definition getFilteredCategories (b : Board) : list string :=
  match Js.trim (searchQuery (state b)),
        Js.truthy (selectedCategory (state b)) with
  | EmptyString, false => categories (state b)
  | _, _ =>
      let categoriesWithProducts := map categoryOf (getFilteredProducts b) in
      filter (fun cat => existsb (String.eqb cat) categoriesWithProducts)
             (categories (state b))
  end.

(** The comparator handed to [sort] by [getProductsByCategory]. *)
Definition compareProducts (a b : SavedProduct) : Z :=
  match createdAt a, createdAt b with
  | Some ta, Some tb => tb - ta
  | _, _ => Js.localeCompare (barcode a) (barcode b)
  end.

Definition getProductsByCategory (b : Board) (cat : string)
  : list SavedProduct :=
  Js.sort compareProducts
    (filter (fun p => String.eqb (categoryOf p) cat)
            (getFilteredProducts b)).

(** *** Scrolling the board *)

Definition visibleCount (b : Board) : Z :=
  Z.of_nat (List.length (getFilteredCategories b)).

Definition scrollToCategory (categoryIndex : Z) (b : Board) : Board :=
  if negb (boardScrollRef (refs b)) || (categoryIndex <? 0)
     || (categoryIndex >=? visibleCount b)
  then b
  else
    let columnStart := (boardPadding + inject_Z categoryIndex * columnSpacing)%Q in
    let columnCenter := (columnStart + Theme.spacing_sm + COLUMN_WIDTH / 2)%Q in
    let targetX := (columnCenter - screenCenter)%Q in
    setCurrentScrollXRef (Qmax 0 targetX)
      (perform (ScrollTo (Qmax 0 targetX)) b).

(** The offset at which [scrollToCategory] puts the board to centre
    column [i]. *)
Definition centredOffset (i : Z) : Q :=
  Qmax 0 (boardPadding + inject_Z i * columnSpacing + Theme.spacing_sm
          + COLUMN_WIDTH / 2 - screenCenter)%Q.

Definition getCenteredCategoryIndex (b : Board) : Z :=
  let scrollX := currentScrollXRef (refs b) in
  let screenCenterInContent := (scrollX + screenCenter)%Q in
  let relativeCenterX := (screenCenterInContent - boardPadding)%Q in
  let centeredIndex := Js.floor (relativeCenterX / columnSpacing)%Q in
  Z.max 0 (Z.min centeredIndex (visibleCount b - 1)).

Definition edgeThreshold : Q := SCREEN_WIDTH * (1 # 10).
Definition nearRightEdge (x : Q) : bool :=
  Js.ltb (SCREEN_WIDTH - edgeThreshold)%Q x.
Definition nearLeftEdge (x : Q) : bool := Js.ltb x edgeThreshold.

(** The guards of [scrollBasedOnScreenPosition], in the order of the
    source: [Some (targetCategoryIndex, scrollDirection)] when the call
    goes on to [scrollToCategory], [None] when it returns before. *)
Definition scrollTrigger (now : Z) (absoluteX : Q) (b : Board)
  : option (Z * Direction) :=
  if negb (boardScrollRef (refs b)) || isScrollingRef (refs b) then None
  else
    let isNearRightEdge := nearRightEdge absoluteX in
    let isNearLeftEdge := nearLeftEdge absoluteX in
    if negb isNearRightEdge && negb isNearLeftEdge then None
    else
      let centeredCategoryIndex := getCenteredCategoryIndex b in
      let step :=
        if isNearRightEdge then
          let nextIndex := centeredCategoryIndex + 1 in
          if nextIndex >=? visibleCount b then None
          else Some (nextIndex, ScrollRight)
        else if isNearLeftEdge then
          let prevIndex := centeredCategoryIndex - 1 in
          if prevIndex <? 0 then None else Some (prevIndex, ScrollLeft)
        else None in
      match step with
      | None => None
      | Some (targetCategoryIndex, scrollDirection) =>
          if targetCategoryIndex =? centeredCategoryIndex then None
          else if (lastScrolledToIndexRef (refs b) =? targetCategoryIndex)
                  && isScrollingRef (refs b) then None
          else
            let timeSinceLastScroll := now - lastScrollTimeRef (refs b) in
            let minScrollInterval := 500 in
            if timeSinceLastScroll >=? minScrollInterval
            then Some (targetCategoryIndex, scrollDirection)
            else None
      end.

(** [now] is the value of [Date.now()] in the call. *)
Definition scrollBasedOnScreenPosition (now : Z) (absoluteX : Q)
    (currentCategoryIndex : Z) (b : Board) : Board :=
  match scrollTrigger now absoluteX b with
  | None => b
  | Some (targetCategoryIndex, scrollDirection) =>
      let b := setIsScrollingRef true b in
      let b := setLastScrollDirectionRef (Some scrollDirection) b in
      let b := setLastScrollTimeRef now b in
      let b := setLastScrolledToIndexRef targetCategoryIndex b in
      let b := scrollToCategory targetCategoryIndex b in
      setTimeout now 500 ResetScrolling b
  end.

(** *** Which column is under the pointer *)

Definition centerTolerance : Q := SCREEN_WIDTH * (15 # 100).
Definition tolerance : Q := COLUMN_WIDTH * (1 # 2).

Definition columnStartOnScreen (scrollX : Q) (i : Z) : Q :=
  boardPadding + inject_Z i * columnSpacing - scrollX.
Definition columnEndOnScreen (scrollX : Q) (i : Z) : Q :=
  columnStartOnScreen scrollX i + columnSpacing.
Definition columnCenterOnScreen (scrollX : Q) (i : Z) : Q :=
  columnStartOnScreen scrollX i + columnSpacing / 2.

(** The "quick bounds check" of the loop. *)
Definition inWidenedSpan (scrollX absoluteX : Q) (i : Z) : bool :=
  Js.leb (columnStartOnScreen scrollX i - tolerance)%Q absoluteX
  && Js.leb absoluteX (columnEndOnScreen scrollX i + tolerance)%Q.

(** The three variables of the loop of [handleDragOverColumn];
    [minDistance = None] stands for [Infinity]. *)
Record Scan := {
  closestColumnIndex : Z;
  minDistance : option Q;
  cardIsOverColumnCenter : bool
}.

Definition scanStart : Scan :=
  {| closestColumnIndex := -1; minDistance := None;
     cardIsOverColumnCenter := false |}.

(** [for (let i = ...; i < filteredCats.length; i++)], with [n] the
    number of indices that remain. *)
Fixpoint scanColumns (scrollX absoluteX : Q) (n : nat) (i : Z) (s : Scan)
  : Scan :=
  match n with
  | O => s
  | S n' =>
      if inWidenedSpan scrollX absoluteX i then
        {| closestColumnIndex := i; minDistance := minDistance s;
           cardIsOverColumnCenter :=
             Js.leb (Qabs (absoluteX - columnCenterOnScreen scrollX i)%Q)
                    centerTolerance |}
      else
        let s :=
          if closestColumnIndex s =? -1 then
            let distance := Qabs (absoluteX - columnCenterOnScreen scrollX i)%Q in
            let smaller :=
              match minDistance s with
              | None => true
              | Some m => Js.ltb distance m
              end in
            if smaller then
              {| closestColumnIndex := i; minDistance := Some distance;
                 cardIsOverColumnCenter := cardIsOverColumnCenter s |}
            else s
          else s in
        scanColumns scrollX absoluteX n' (i + 1) s
  end.

Definition scanBoard (absoluteX : Q) (b : Board) : Scan :=
  scanColumns (currentScrollXRef (refs b)) absoluteX
    (List.length (getFilteredCategories b)) 0 scanStart.

(** The column index the loop settles on. *)
Definition columnUnderPointer (absoluteX : Q) (b : Board) : Z :=
  closestColumnIndex (scanBoard absoluteX b).

(** [a[i]] for an index within the array. *)
Definition at_ (l : list string) (i : Z) : string :=
  nth (Z.to_nat i) l EmptyString.

Definition handleDragOverColumn (now : Z) (absoluteX : Q)
    (currentIndex : Z) (b : Board) : Board * option string :=
  let scan := scanBoard absoluteX b in
  let isNearEdge := nearRightEdge absoluteX || nearLeftEdge absoluteX in
  let b :=
    if cardIsOverColumnCenter scan && negb isNearEdge then
      let b :=
        if negb (isScrollingRef (refs b)) then
          setLastScrolledToIndexRef (-1)
            (setLastScrollTimeRef 0 (setLastScrollDirectionRef None b))
        else b in
      clearScrollTimeout b
    else b in
  let b :=
    if isNearEdge && negb (isScrollingRef (refs b)) then
      let b := scrollBasedOnScreenPosition now absoluteX currentIndex b in
      let b :=
        match scrollTimeoutRef (refs b) with
        | Some id => clearTimeout id b
        | None => b
        end in
      setScrollTimeoutRef (Some (nextTimerId b))
        (setTimeout now 550 (RecheckEdge currentIndex) b)
    else clearScrollTimeout b in
  let filteredCatsForDrag := getFilteredCategories b in
  let none :=
    (setDraggedProductTargetCategory None (setDragTargetCategory None b),
     None) in
  if (closestColumnIndex scan <? 0)
     || (closestColumnIndex scan >=? Z.of_nat (List.length filteredCatsForDrag))
  then none
  else
    let targetCategory := at_ filteredCatsForDrag (closestColumnIndex scan) in
    let currentCategory :=
      if (currentIndex >=? 0)
         && (currentIndex <? Z.of_nat (List.length filteredCatsForDrag))
      then Some (at_ filteredCatsForDrag currentIndex) else None in
    if Js.truthy (Some targetCategory) && Js.truthy currentCategory
       && negb (String.eqb targetCategory
                  (Js.orElse currentCategory EmptyString))
    then
      (setDraggedProductTargetCategory (Some targetCategory)
         (setDragTargetCategory (Some targetCategory) b),
       Some targetCategory)
    else none.

(** *** Timers firing *)

(** The body of a callback, run at time [now]. *)
Definition runCallback (now : Z) (cb : Callback) (b : Board) : Board :=
  match cb with
  | ResetScrolling => setIsScrollingRef false b
  | RecheckEdge currentIndex =>
      if negb (isScrollingRef (refs b)) then
        let latestDragX := currentDragXRef (refs b) in
        if nearRightEdge latestDragX || nearLeftEdge latestDragX
        then scrollBasedOnScreenPosition now latestDragX currentIndex b
        else b
      else b
  end.

Definition findTimer (id : nat) (b : Board) : option Timer :=
  find (fun t => Nat.eqb (timerId t) id) (timers b).

(** The timer [id] fires at time [now]: it must be pending and due. *)
Definition fireTimer (now : Z) (id : nat) (b : Board) : option Board :=
  match findTimer id b with
  | Some t =>
      if due t <=? now
      then Some (runCallback now (callback t) (clearTimeout id b))
      else None
  | None => None
  end.

(** *** Drag callbacks given to the cards *)

Definition handleDragEnd (b : Board) : Board :=
  let b := setDragTargetCategory None b in
  let b := setDraggedProduct None b in
  let b := setDragPosition None b in
  let b := setDraggedProductTargetCategory None b in
  let b := setLastScrollDirectionRef None b in
  let b := setIsScrollingRef false b in
  let b := setLastScrollTimeRef 0 b in
  let b := setLastScrolledToIndexRef (-1) b in
  let b := setCurrentDragXRef 0 b in
  clearScrollTimeout b.

Definition handleDragStart (product : SavedProduct) (position : Q * Q)
    (b : Board) : Board :=
  setDragPosition (Some position) (setDraggedProduct (Some product) b).

Definition handleDragUpdate (position : Q * Q) (b : Board) : Board :=
  setCurrentDragXRef (fst position) (setDragPosition (Some position) b).

Definition handleDragClear (b : Board) : Board :=
  let b := setDraggedProduct None b in
  let b := setDragPosition None b in
  setDraggedProductTargetCategory None b.

(** [onScroll] of the board's scroll view. *)
Definition onScroll (contentOffsetX : Q) (b : Board) : Board :=
  setCurrentScrollXRef contentOffsetX b.

(** *** Handlers that await the backend *)

(** Requests of the API module that the screen awaits. *)
Inductive Request :=
| GetAllCategories
| GetAllProducts
| UpdateProductCategory (productId newCategory : string)
| DeleteCategory (name : string).

Inductive Value :=
| VUnit
| VCategories (l : list string)
| VProducts (l : list SavedProduct).

(** What an awaited promise settles to: [Rejected] makes the [await]
    throw, with the [message] of the error when it has one. *)
Inductive Response :=
| Resolved (v : Value)
| Rejected (message : option string).

(** An [async] handler run up to the point where it stops: it has
    finished, or it is suspended at an [await] with a continuation that
    receives the response and the board as it is when the handler
    resumes, or it has opened a dialog whose destructive button runs
    [onPress]. *)
Inductive Async :=
| Done (b : Board)
| Await (r : Request) (b : Board) (k : Response -> Board -> Async)
| Confirm (title message : string) (b : Board) (onPress : Board -> Async).

(** The board at the point where the handler stops. *)
Definition boardOf (a : Async) : Board :=
  match a with
  | Done b => b
  | Await _ b _ => b
  | Confirm _ _ b _ => b
  end.

(** Runs a handler to its end against a backend [net] that answers
    every request at once, pressing the destructive button of a dialog
    when [press] is set.  The requests issued are collected in order. *)
Fixpoint complete (net : Request -> Response) (press : bool) (a : Async)
  : Board * list Request :=
  match a with
  | Done b => (b, [])
  | Await r b k =>
      let (b', rs) := complete net press (k (net r) b) in (b', r :: rs)
  | Confirm _ _ b onPress =>
      if press then complete net press (onPress b) else (b, [])
  end.

Definition sortCategories (fetchedCategories : list string) : list string :=
  if Js.arrayIncludes fetchedCategories Uncategorized then
    let otherCategories :=
      filter (fun cat => negb (String.eqb cat Uncategorized))
             fetchedCategories in
    Uncategorized :: otherCategories
  else Uncategorized :: fetchedCategories.

(** [await fetchCategories()] followed by [k]: the request, and what
    the handler does with the answer. *)
Definition afterCategories (k : Board -> Async) (resp : Response)
    (b : Board) : Async :=
match resp with
| Resolved (VCategories fetchedCategories) =>
    k (setCategories (sortCategories fetchedCategories) b)
| _ => k (setCategories [Uncategorized] b)
end.

Definition fetchCategories (k : Board -> Async) (b : Board) : Async :=
Await GetAllCategories b (afterCategories k).

(** [fetchProducts] up to its [await], and from it on. *)
Definition fetchProductsStart (showLoader : bool) (b : Board) : Board :=
  if showLoader then setLoading true b else setRefreshing true b.

Definition fetchProductsResume (resp : Response) (b : Board) : Board :=
  let b :=
    match resp with
    | Resolved (VProducts fetchedProducts) => setProducts fetchedProducts b
    | _ => perform (Alert "Error" "Failed to load products") b
    end in
  setRefreshing false (setLoading false b).

Definition fetchProducts (showLoader : bool) (k : Board -> Async)
    (b : Board) : Async :=
  Await GetAllProducts (fetchProductsStart showLoader b)
    (fun resp b => k (fetchProductsResume resp b)).

Definition sameId (a b : option string) : bool :=
  match a, b with
  | Some x, Some y => String.eqb x y
  | None, None => true
  | _, _ => false
  end.

(** [prev.map(p => p._id === product._id ? {...p, category} : p)] *)
Definition moveProduct (product : SavedProduct) (targetCategory : string)
    (prev : list SavedProduct) : list SavedProduct :=
  map (fun p => if sameId (_id p) (_id product)
                then withCategory p targetCategory else p) prev.

(** [handleProductDrop] from the answer to the PATCH on. *)
Definition afterPatch (product : SavedProduct) (targetCategory : string)
    (resp : Response) (b : Board) : Async :=
match resp with
| Resolved _ =>
    let b :=
      setProducts
        (moveProduct product targetCategory (products (state b))) b in
    fetchCategories (fun b => Done (setUpdating None (handleDragEnd b))) b
| Rejected _ =>
    let b :=
      perform (Alert "Error" "Failed to update product category") b in
    (* [fetchProducts(false)] is not awaited: it runs up to its
       request, the handler finishes, and the answer is handled when
       it comes *)
    let b := fetchProductsStart false b in
    let b := handleDragEnd b in
    let b := setUpdating None b in
    Await GetAllProducts b
      (fun resp b => Done (fetchProductsResume resp b))
end.

Definition handleProductDrop (product : SavedProduct)
    (newCategory : string) (b : Board) : Async :=
let currentCategory := categoryOf product in
let targetCategory := Js.orElse (Some newCategory) Uncategorized in
if String.eqb currentCategory targetCategory then Done (handleDragEnd b)
else
  match _id product with
  | Some (String c r) =>
      let b := setUpdating (Some (String c r)) b in
      Await (UpdateProductCategory (String c r) targetCategory) b
        (afterPatch product targetCategory)
  | _ =>
      let b := setUpdating None b in
      let b := perform (Alert "Error" "Product ID is missing") b in
      let b := handleDragEnd b in
      Done (setUpdating None b)
  end.

Definition quote : string := String "034"%char EmptyString.

(** The message of the dialog that refuses to delete a category. *)
Definition cannotDeleteMessage (count : nat) (cat : string) : string :=
  ("Move all " ++ Js.toString (Z.of_nat count) ++ " product(s) from "
     ++ quote ++ cat ++ quote
     ++ " to another category before deleting.")%string.

Definition handleDeleteCategory (cat : string) (b : Board) : Async :=
  if String.eqb cat Uncategorized then
    Done (perform (Alert "Error" "Cannot delete Uncategorized category") b)
  else
    let productsInCategory := getProductsByCategory b cat in
    if (0 <? List.length productsInCategory)%nat then
      Done (perform
              (Alert "Cannot Delete"
                 (cannotDeleteMessage (List.length productsInCategory) cat))
              b)
    else
      Confirm "Delete Category"
        ("Are you sure you want to delete " ++ quote ++ cat ++ quote ++ "?")
        b
        (fun b =>
           Await (DeleteCategory cat) b (fun resp b =>
             match resp with
             | Resolved _ => fetchCategories Done b
             | Rejected message =>
                 Done (perform
                         (Alert "Error"
                            (match message with
                             | Some m => m
                             | None => "Failed to delete category"%string
                             end)) b)
             end)).

(** *** A draggable card *)

(** Shared values and state of one [DraggableProduct].  [reactionPrev]
    is the value that the first function of [useAnimatedReaction]
    returned the last time it ran. *)
Record Card := {
  translateX : Q;
  translateY : Q;
  scale : Q;
  opacity : Q;
  isDragging : bool;
  targetCategoryRef : option string;
  dragEnabled : bool;
  dragAbsoluteX : Q;
  frameCounter : Z;
  dragging : bool;
  targetCategory : option string;
  readyToDrag : bool;
  reactionPrev : option Q
}.

Definition mountedCard : Card :=
  {| translateX := 0; translateY := 0; scale := 1; opacity := 1;
     isDragging := false; targetCategoryRef := None;
     dragEnabled := false; dragAbsoluteX := 0; frameCounter := 0;
     dragging := false; targetCategory := None; readyToDrag := false;
     reactionPrev := None |}.

(** The event of a pan callback. *)
Record PanEvent := {
  translationX : Q;
  translationY : Q;
  absoluteX : Q;
  absoluteY : Q
}.

(** A card on its board; the handlers of the card reach the board
    through the callbacks it was rendered with
    ([onDragOverColumn = handleDragOverColumn], [onDrop =
    handleProductDrop], and so on).  [panActive] and [longPressActive]
    tell whether the gesture handlers are in their active state, and
    [inflight] holds the handlers suspended at an [await], oldest
    first. *)
Record Session := {
  card : Card;
  board : Board;
  panActive : bool;
  longPressActive : bool;
  inflight : list (Request * (Response -> Board -> Async))
}.

Definition withCard (c : Card) (s : Session) : Session :=
  {| card := c; board := board s; panActive := panActive s;
     longPressActive := longPressActive s; inflight := inflight s |}.

Definition withBoard (b : Board) (s : Session) : Session :=
  {| card := card s; board := b; panActive := panActive s;
     longPressActive := longPressActive s; inflight := inflight s |}.

(** The board goes on from where an [async] handler stopped; a handler
    suspended at an [await] joins [inflight]. *)
Definition started (a : Async) (s : Session) : Session :=
  {| card := card s; board := boardOf a; panActive := panActive s;
     longPressActive := longPressActive s;
     inflight := inflight s
                 ++ match a with
                    | Await r _ k => [(r, k)]
                    | _ => []
                    end |}.

Section OneCard.
(** The props [product] and [categoryIndex] of the card. *)
Variable product : SavedProduct.
Variable categoryIndex : Z.

Definition sameCategory (a b : option string) : bool :=
  match a, b with
  | Some x, Some y => String.eqb x y
  | None, None => true
  | _, _ => false
  end.

(** [updating === product._id], with [updating] a string or [null]
    and [_id] a string or [undefined]. *)
Definition isUpdating (s : Session) : bool :=
  match updating (state (board s)), _id product with
  | Some u, Some i => String.eqb u i
  | _, _ => false
  end.

Definition handleDragOver (now : Z) (x : Q) (s : Session) : Session :=
  let (b, newCategory) :=
    handleDragOverColumn now x categoryIndex (board s) in
  let c := card s in
  let prevCategory := targetCategoryRef c in
  let c :=
    {| translateX := translateX c; translateY := translateY c;
       scale := scale c; opacity := opacity c;
       isDragging := isDragging c; targetCategoryRef := newCategory;
       dragEnabled := dragEnabled c; dragAbsoluteX := dragAbsoluteX c;
       frameCounter := frameCounter c; dragging := dragging c;
       targetCategory :=
         if negb (sameCategory prevCategory newCategory)
         then newCategory else targetCategory c;
       readyToDrag := readyToDrag c; reactionPrev := reactionPrev c |} in
  withCard c (withBoard b s).

Definition handleDrop (s : Session) : Session :=
  let s :=
    match targetCategoryRef (card s) with
    | Some (String ch r) =>
        started (handleProductDrop product (String ch r) (board s)) s
    | _ => withBoard (handleDragEnd (board s)) s
    end in
  let c := card s in
  withCard
    {| translateX := translateX c; translateY := translateY c;
       scale := scale c; opacity := opacity c;
       isDragging := isDragging c; targetCategoryRef := None;
       dragEnabled := dragEnabled c; dragAbsoluteX := dragAbsoluteX c;
       frameCounter := frameCounter c; dragging := dragging c;
       targetCategory := None;
       readyToDrag := readyToDrag c; reactionPrev := reactionPrev c |} s.

(** [useAnimatedReaction]: the prepared value, and the reaction that
    runs when it differs from the one prepared before. *)
Definition prepared (c : Card) : option Q :=
  if negb (isDragging c) || negb (dragEnabled c) then None
  else Some (dragAbsoluteX c).

Definition samePrepared (a b : option Q) : bool :=
  match a, b with
  | Some x, Some y => Qeq_bool x y
  | None, None => true
  | _, _ => false
  end.

Definition reaction (now : Z) (s : Session) : Session :=
let c := card s in
let p := prepared c in
if samePrepared p (reactionPrev c) then s
else
  match p with
  | None =>
      withCard
        {| translateX := translateX c; translateY := translateY c;
           scale := scale c; opacity := opacity c;
           isDragging := isDragging c;
           targetCategoryRef := targetCategoryRef c;
           dragEnabled := dragEnabled c; dragAbsoluteX := dragAbsoluteX c;
           frameCounter := frameCounter c;
           dragging := dragging c; targetCategory := targetCategory c;
           readyToDrag := readyToDrag c; reactionPrev := None |} s
  | Some x =>
      let count := frameCounter c + 1 in
      let c :=
        {| translateX := translateX c; translateY := translateY c;
           scale := scale c; opacity := opacity c;
           isDragging := isDragging c;
           targetCategoryRef := targetCategoryRef c;
           dragEnabled := dragEnabled c; dragAbsoluteX := dragAbsoluteX c;
           frameCounter := if count >=? 3 then 0 else count;
           dragging := dragging c; targetCategory := targetCategory c;
           readyToDrag := readyToDrag c; reactionPrev := Some x |} in
      if count >=? 3 then handleDragOver now x (withCard c s)
      else withCard c s
  end.

Definition longPressOnStart (s : Session) : Session :=
  let c := card s in
  withCard
    {| translateX := translateX c; translateY := translateY c;
       scale := 115 # 100; opacity := opacity c;
       isDragging := isDragging c;
       targetCategoryRef := targetCategoryRef c;
       dragEnabled := true; dragAbsoluteX := dragAbsoluteX c;
       frameCounter := frameCounter c; dragging := dragging c;
       targetCategory := targetCategory c;
       readyToDrag := true; reactionPrev := reactionPrev c |} s.

Definition longPressOnEnd (s : Session) : Session :=
  let c := card s in
  if negb (isDragging c) then
    withCard
      {| translateX := translateX c; translateY := translateY c;
         scale := 1; opacity := opacity c;
         isDragging := isDragging c;
         targetCategoryRef := targetCategoryRef c;
         dragEnabled := false; dragAbsoluteX := dragAbsoluteX c;
         frameCounter := frameCounter c; dragging := dragging c;
         targetCategory := targetCategory c;
         readyToDrag := false; reactionPrev := reactionPrev c |} s
  else s.

Definition panOnStart (now : Z) (e : PanEvent) (s : Session) : Session :=
  let c := card s in
  if negb (dragEnabled c) then s
  else
    let s :=
      withCard
        {| translateX := translateX c; translateY := translateY c;
           scale := 12 # 10; opacity := 0;
           isDragging := true;
           targetCategoryRef := targetCategoryRef c;
           dragEnabled := dragEnabled c; dragAbsoluteX := absoluteX e;
           frameCounter := 0; dragging := true;
           targetCategory := targetCategory c;
           readyToDrag := readyToDrag c;
           reactionPrev := reactionPrev c |} s in
    let s :=
      withBoard
        (handleDragStart product (absoluteX e, absoluteY e) (board s)) s in
    let s := handleDragOver now (absoluteX e) s in
    withBoard (handleDragUpdate (absoluteX e, absoluteY e) (board s)) s.

Definition panOnUpdate (e : PanEvent) (s : Session) : Session :=
  let c := card s in
  if negb (isDragging c) || negb (dragEnabled c) then s
  else
    let s :=
      withCard
        {| translateX := translationX e; translateY := translationY e;
           scale := scale c; opacity := opacity c;
           isDragging := isDragging c;
           targetCategoryRef := targetCategoryRef c;
           dragEnabled := dragEnabled c; dragAbsoluteX := absoluteX e;
           frameCounter := frameCounter c; dragging := dragging c;
           targetCategory := targetCategory c;
           readyToDrag := readyToDrag c;
           reactionPrev := reactionPrev c |} s in
    withBoard (handleDragUpdate (absoluteX e, absoluteY e) (board s)) s.

(** What [onEnd] and [onFinalize] of the pan both do to the card
    before they call the board. *)
Definition released (c : Card) : Card :=
  {| translateX := 0; translateY := 0; scale := 1; opacity := 1;
     isDragging := false; targetCategoryRef := targetCategoryRef c;
     dragEnabled := false; dragAbsoluteX := dragAbsoluteX c;
     frameCounter := frameCounter c; dragging := false;
     targetCategory := targetCategory c; readyToDrag := false;
     reactionPrev := reactionPrev c |}.

Definition panOnEnd (s : Session) : Session :=
  if negb (isDragging (card s)) then s
  else
    let s := withCard (released (card s)) s in
    let s := withBoard (handleDragClear (board s)) s in
    handleDrop s.

Definition panOnFinalize (s : Session) : Session :=
  if isDragging (card s) then
    let s := withCard (released (card s)) s in
    withBoard (handleDragClear (board s)) s
  else s.

(** **** What the gesture system and the runtime deliver

    A gesture handler calls [onStart] when it becomes active.  When
    an active handler finishes, whether the finger was lifted or the
    gesture was cancelled, it calls [onEnd] and then [onFinalize];
    a handler that never became active calls [onFinalize] alone.
    Handlers are disabled while the card is updating. *)
Inductive Event :=
| LongPressStart
| LongPressEnd
| PanStart (e : PanEvent)
| PanUpdate (e : PanEvent)
| PanEnd
| PanFail
| TimerFires (id : nat)
| Scrolled (contentOffsetX : Q)
| Settles (resp : Response).

Definition setPanActive (v : bool) (s : Session) : Session :=
  {| card := card s; board := board s; panActive := v;
     longPressActive := longPressActive s; inflight := inflight s |}.

Definition setLongPressActive (v : bool) (s : Session) : Session :=
  {| card := card s; board := board s; panActive := panActive s;
     longPressActive := v; inflight := inflight s |}.

(** The event [ev] happens at time [now]; [None] when it cannot
    happen in [s]. *)
Definition step (now : Z) (ev : Event) (s : Session) : option Session :=
  match ev with
  | LongPressStart =>
      if negb (isUpdating s) && negb (longPressActive s)
      then Some (reaction now (longPressOnStart (setLongPressActive true s)))
      else None
  | LongPressEnd =>
      if longPressActive s
      then Some (reaction now (longPressOnEnd (setLongPressActive false s)))
      else None
  | PanStart e =>
      if negb (isUpdating s) && negb (panActive s)
      then Some (reaction now (panOnStart now e (setPanActive true s)))
      else None
  | PanUpdate e =>
      if panActive s then Some (reaction now (panOnUpdate e s)) else None
  | PanEnd =>
      if panActive s
      then Some (reaction now
                   (panOnFinalize (panOnEnd (setPanActive false s))))
      else None
  | PanFail =>
      if negb (panActive s)
      then Some (reaction now (panOnFinalize s)) else None
  | TimerFires id =>
      match fireTimer now id (board s) with
      | Some b => Some (withBoard b s)
      | None => None
      end
  | Scrolled x => Some (withBoard (onScroll x (board s)) s)
  | Settles resp =>
      match inflight s with
      | (_, k) :: rest =>
          Some (started (k resp (board s))
                  {| card := card s; board := board s;
                     panActive := panActive s;
                     longPressActive := longPressActive s;
                     inflight := rest |})
      | [] => None
      end
  end.

(** A sequence of timed events from [s]. *)
Fixpoint run (evs : list (Z * Event)) (s : Session) : option Session :=
  match evs with
  | [] => Some s
  | (now, ev) :: evs' =>
      match step now ev s with
      | Some s' => run evs' s'
      | None => None
      end
  end.

(** **** The state of a drag session

    What the board shows of a drag, and what is left of a session on the
    card and on the board once it is cleared. *)
Definition clearedDrag (b : Board) : Prop :=
draggedProduct (state b) = None
/\ dragPosition (state b) = None
/\ draggedProductTargetCategory (state b) = None.

Definition neutral (c : Card) : Prop :=
translateX c = 0%Q /\ translateY c = 0%Q /\ scale c = 1%Q /\ opacity c = 1%Q.

Definition sessionCleared (s : Session) : Prop :=
isDragging (card s) = false
/\ dragging (card s) = false
/\ dragEnabled (card s) = false
/\ readyToDrag (card s) = false
/\ targetCategoryRef (card s) = None
/\ targetCategory (card s) = None
/\ neutral (card s)
/\ clearedDrag (board s).

(** A card that has just been mounted on a board that shows no drag. *)
Definition mounted (s : Session) : Prop :=
card s = mountedCard
/\ panActive s = false
/\ longPressActive s = false
/\ inflight s = []
/\ clearedDrag (board s).

(** A session since [s0] that no hold has armed. *)
Definition unarmed (s0 s : Session) : Prop :=
card s = mountedCard
/\ longPressActive s = false
/\ inflight s = []
/\ state (board s) = state (board s0).

(** A suspended handler keeps a board that shows no drag that way,
    whenever it resumes and however often it suspends again. *)
Fixpoint Keeps (a : Async) : Prop :=
match a with
| Done _ => True
| Await _ _ k =>
    forall resp b,
      (clearedDrag b -> clearedDrag (boardOf (k resp b))) /\ Keeps (k resp b)
| Confirm _ _ _ onPress =>
    forall b, (clearedDrag b -> clearedDrag (boardOf (onPress b)))
              /\ Keeps (onPress b)
end.

(** What every state of a session satisfies: a card that is dragging has
    its pan active; a card that is not dragging is in place, opaque,
    without a target, on a board that shows no drag; a card that is
    neither dragging nor held has its scale at 1 and is not armed; and
    the suspended handlers keep a board without a drag that way. *)
Definition Settled (s : Session) : Prop :=
(isDragging (card s) = true -> panActive s = true)
/\ (isDragging (card s) = false ->
    translateX (card s) = 0%Q /\ translateY (card s) = 0%Q
    /\ opacity (card s) = 1%Q /\ dragging (card s) = false
    /\ targetCategoryRef (card s) = None /\ targetCategory (card s) = None
    /\ clearedDrag (board s))
/\ (isDragging (card s) = false -> longPressActive s = false ->
    scale (card s) = 1%Q /\ dragEnabled (card s) = false
    /\ readyToDrag (card s) = false)
/\ Forall (fun rk => Keeps (Await (fst rk) (board s) (snd rk))) (inflight s).

End OneCard.

(** *** One drag seen from the board

    While a card is dragged the board receives pointer updates
    ([handleDragOverColumn], [handleDragUpdate]), scroll events of the
    board and the timers it has set. *)
Inductive DragEvent :=
| PointerOver (absoluteX : Q) (currentIndex : Z)
| PointerMoved (position : Q * Q)
| BoardScrolled (contentOffsetX : Q)
| Timeout (id : nat).

Definition dragStep (now : Z) (ev : DragEvent) (b : Board) : option Board :=
  match ev with
  | PointerOver x currentIndex =>
      Some (fst (handleDragOverColumn now x currentIndex b))
  | PointerMoved position => Some (handleDragUpdate position b)
  | BoardScrolled x => Some (onScroll x b)
  | Timeout id => fireTimer now id b
  end.

(** The effects that [after] performed beyond those of [before]. *)
Definition newEffects (before after : Board) : list Effect :=
  skipn (List.length (effects before)) (effects after).

(** Runs timed events, the clock never going back, and appends the
    effects of each event to [log] with the time of the event. *)
Fixpoint dragRun (evs : list (Z * DragEvent)) (clock : Z) (b : Board)
    (log : list (Z * Effect)) : option (Board * list (Z * Effect)) :=
  match evs with
  | [] => Some (b, log)
  | (now, ev) :: evs' =>
      if now <? clock then None
      else
        match dragStep now ev b with
        | Some b' =>
            dragRun evs' now b'
              (log ++ map (pair now) (newEffects b b'))
        | None => None
        end
  end.

Definition isReset (t : Timer) : bool :=
  match callback t with
  | ResetScrolling => true
  | RecheckEdge _ => false
  end.

(** No scroll is under way: the flag is down and no timer is left
    that would lower it. *)
Definition quiet (b : Board) : Prop :=
  isScrollingRef (refs b) = false /\ existsb isReset (timers b) = false.

(** *** Reading a drag

    [Calm b b'] holds of a part of a handler that performs no effect,
    leaves the scrolling flag alone and adds no timer that lowers it.
    [Fired now b b'] holds of a part that scrolls once at time [now]:
    the flag was down and is raised, and the only timer added that
    lowers it is due 500ms later. *)
Definition Calm (b b' : Board) : Prop :=
  effects b' = effects b
  /\ isScrollingRef (refs b') = isScrollingRef (refs b)
  /\ forall tm, In tm (timers b') -> isReset tm = true -> In tm (timers b).

Definition Fired (now : Z) (x : Q) (b b' : Board) : Prop :=
  effects b' = effects b ++ [ScrollTo x]
  /\ isScrollingRef (refs b) = false
  /\ isScrollingRef (refs b') = true
  /\ exists new,
       due new = now + 500
       /\ forall tm, In tm (timers b') -> isReset tm = true ->
                     In tm (timers b) \/ tm = new.

(** Scrolls in a timed log are at least 500ms apart. *)
Definition Separated (log : list (Z * Effect)) : Prop :=
  forall i j t1 x1 t2 x2,
    (i < j)%nat ->
    nth_error log i = Some (t1, ScrollTo x1) ->
    nth_error log j = Some (t2, ScrollTo x2) ->
    t1 + 500 <= t2.

(** What a run keeps true: the log lies in the past and is separated;
    while the flag is down no timer is left to lower it and every
    scroll is at least 500ms old; a timer that lowers the flag is due
    no sooner than 500ms after every scroll; and there is at most one
    such timer. *)
Definition Cooling (clock : Z) (b : Board) (log : list (Z * Effect))
  : Prop :=
  (forall t e, In (t, e) log -> t <= clock)
  /\ (isScrollingRef (refs b) = false ->
      (forall tm, In tm (timers b) -> isReset tm = false)
      /\ forall t x, In (t, ScrollTo x) log -> t + 500 <= clock)
  /\ (forall tm, In tm (timers b) -> isReset tm = true ->
      forall t x, In (t, ScrollTo x) log -> t + 500 <= due tm)
  /\ (forall t1 t2, In t1 (timers b) -> In t2 (timers b) ->
      isReset t1 = true -> isReset t2 = true -> timerId t1 = timerId t2)
  /\ Separated log.

(** *** The column of a category, as the specification words it *)

(** A product passes the search when the query is blank or is found, in
    lower case, in the material, the barcode or the description. *)
Definition matchesSearch (query : string) (p : SavedProduct) : bool :=
match Js.trim query with
| EmptyString => true
| _ =>
    let q := Js.trim (Js.toLowerCase query) in
    Js.includes (Js.toLowerCase (Js.toString (material p))) q
    || Js.includes (Js.toLowerCase (barcode p)) q
    || Js.includes (Js.toLowerCase (description p)) q
end.

(** A product passes the category filter when no category is selected
    or its category, "Uncategorized" when empty or missing, is the
    selected one. *)
Definition matchesSelected (selected : option string) (p : SavedProduct)
  : bool :=
match selected with
| Some (String c r) => String.eqb (categoryOf p) (String c r)
| _ => true
end.

Definition passesFilters (b : Board) (p : SavedProduct) : bool :=
matchesSelected (selectedCategory (state b)) p
&& matchesSearch (searchQuery (state b)) p.

(** The products that belong in the column [cat], in the order of the
    product list. *)
Definition columnProducts (b : Board) (cat : string) : list SavedProduct :=
filter (fun p => String.eqb (categoryOf p) cat && passesFilters b p)
       (products (state b)).

(** The time of creation of a product that has one. *)
Definition timeOf (p : SavedProduct) : Z :=
match createdAt p with
| Some t => t
| None => 0
end.

Definition hasCreatedAt (p : SavedProduct) : Prop := createdAt p <> None.

End Screen.
End Kanban.

(** ** The scanner screen *)

Module Scanner.

(** The [useState] values of [ScannerScreen] that the scan handlers
    touch, and the alerts shown so far (title and message, latest last). *)
Record State := {
  scanned : bool;
  product : option SavedProduct;
  loading : bool;
  saving : bool;
  checking : bool;
  isExistingProduct : bool;
  manualBarcode : string;
  showManualInput : bool;
  alerts : list (string * string)
}.

(** What an awaited call of the API module does. *)
Inductive Outcome (A : Type) :=
| Resolves (a : A)
| Throws (message : option string).
Arguments Resolves {A} a.
Arguments Throws {A} message.

(** A scan handler run up to the point where it stops: finished, or
    suspended at the [await] of [getProductByBarcode] (the backend
    check, which resolves to [null] when the product is unknown),
    [fetchProductByBarcode] (the catalog) or [saveProductToDatabase]. *)
Inductive Async :=
| Done (s : State)
| AwaitCheck (code : string) (s : State)
    (k : Outcome (option SavedProduct) -> State -> Async)
| AwaitFetch (code : string) (s : State)
    (k : Outcome SavedProduct -> State -> Async)
| AwaitSave (p : SavedProduct) (cat : string) (s : State)
    (k : Outcome SavedProduct -> State -> Async).

Definition stateOf (a : Async) : State :=
  match a with
  | Done s => s
  | AwaitCheck _ s _ => s
  | AwaitFetch _ s _ => s
  | AwaitSave _ _ s _ => s
  end.

(** The backend and the catalog as functions that answer at once. *)
Record Services := {
  getProductByBarcode : string -> Outcome (option SavedProduct);
  fetchProductByBarcode : string -> Outcome SavedProduct;
  saveProductToDatabase : SavedProduct -> string -> Outcome SavedProduct
}.

Inductive Call :=
| Check (code : string)
| Fetch (code : string)
| Save (p : SavedProduct) (cat : string).

(** Runs a handler to its end and collects the calls it made. *)
Fixpoint complete (sv : Services) (a : Async) : State * list Call :=
  match a with
  | Done s => (s, [])
  | AwaitCheck code s k =>
      let (s', cs) := complete sv (k (getProductByBarcode sv code) s) in
      (s', Check code :: cs)
  | AwaitFetch code s k =>
      let (s', cs) := complete sv (k (fetchProductByBarcode sv code) s) in
      (s', Fetch code :: cs)
  | AwaitSave p cat s k =>
      let (s', cs) := complete sv (k (saveProductToDatabase sv p cat) s) in
      (s', Save p cat :: cs)
  end.

(** The setters that the handlers call together. *)
Definition begin (scans : bool) (s : State) : State :=
  {| scanned := if scans then true else scanned s; product := None;
     loading := false; saving := false; checking := true;
     isExistingProduct := false; manualBarcode := manualBarcode s;
     showManualInput := showManualInput s; alerts := alerts s |}.

Definition setFlags (l sv c : bool) (s : State) : State :=
  {| scanned := scanned s; product := product s; loading := l;
     saving := sv; checking := c;
     isExistingProduct := isExistingProduct s;
     manualBarcode := manualBarcode s;
     showManualInput := showManualInput s; alerts := alerts s |}.

Definition setResult (p : SavedProduct) (existing : bool) (s : State)
  : State :=
  {| scanned := scanned s; product := Some p; loading := loading s;
     saving := saving s; checking := checking s;
     isExistingProduct := existing; manualBarcode := manualBarcode s;
     showManualInput := showManualInput s; alerts := alerts s |}.

Definition closeManualInput (s : State) : State :=
  {| scanned := scanned s; product := product s; loading := loading s;
     saving := saving s; checking := checking s;
     isExistingProduct := isExistingProduct s;
     manualBarcode := EmptyString; showManualInput := false;
     alerts := alerts s |}.

Definition alert (title message : string) (s : State) : State :=
  {| scanned := scanned s; product := product s; loading := loading s;
     saving := saving s; checking := checking s;
     isExistingProduct := isExistingProduct s;
     manualBarcode := manualBarcode s;
     showManualInput := showManualInput s;
     alerts := alerts s ++ [(title, message)] |}.

(** The [finally] block of both handlers. *)
Definition finally (s : State) : State := setFlags false false false s.

Definition saveWarning : string :=
  "Product fetched but could not be saved to database. Please check your connection.".

Definition errorMessage (message : option string) : string :=
  match message with
  | Some m => m
  | None => "Failed to fetch product"%string
  end.

Definition isDigit (c : ascii) : bool :=
  let n := nat_of_ascii c in ((48 <=? n) && (n <=? 57))%nat.

Fixpoint allDigits (s : string) : bool :=
  match s with
  | EmptyString => true
  | String c r => isDigit c && allDigits r
  end.

(** [/^\d+$/.test(data)] *)
Definition isBarcode (data : string) : bool :=
  match data with
  | EmptyString => false
  | _ => allDigits data
  end.

(** The two handlers differ from the catalog fetch on only in that the
    manual one closes the manual input with the result; [manual] tells
    which of the two runs.  [afterSave], [afterFetch] and [afterCheck]
    are the handler from the answer of the save, of the catalog and of
    the backend check on. *)
Definition afterSave (manual : bool) (externalProduct : SavedProduct)
    (o : Outcome SavedProduct) (s : State) : Async :=
match o with
| Resolves savedProduct =>
    let s := setResult savedProduct false s in
    let s := if manual then closeManualInput s else s in
    Done (finally s)
| Throws _ =>
    let s := setResult (withCategory externalProduct Uncategorized) false s in
    let s := if manual then closeManualInput s else s in
    Done (finally (alert "Warning" saveWarning s))
end.

Definition afterFetch (manual : bool) (o : Outcome SavedProduct) (s : State)
  : Async :=
match o with
| Resolves externalProduct =>
    let s := setFlags false true (checking s) s in
    AwaitSave externalProduct Uncategorized s (afterSave manual externalProduct)
| Throws message => Done (finally (alert "Error" (errorMessage message) s))
end.

Definition fetchAndSave (manual : bool) (code : string) (s : State) : Async :=
let s := setFlags true (saving s) false s in
AwaitFetch code s (afterFetch manual).

Definition afterCheck (manual : bool) (code : string)
    (o : Outcome (option SavedProduct)) (s : State) : Async :=
match o with
| Resolves (Some existingProduct) =>
    let s := setFlags (loading s) (saving s) false s in
    let s := setResult existingProduct true s in
    let s := if manual then closeManualInput s else s in
    Done (finally s)
| _ => fetchAndSave manual code s
end.

Definition handleBarCodeScanned (data : string) (s : State) : Async :=
if scanned s || loading s || saving s || checking s then Done s
else if negb (isBarcode data) then Done s
else AwaitCheck data (begin true s) (afterCheck false data).

Definition handleManualSubmit (s : State) : Async :=
match Js.trim (manualBarcode s) with
| EmptyString => Done (alert "Error" "Please enter a barcode" s)
| code => AwaitCheck code (begin false s) (afterCheck true code)
end.

(** The product card is rendered when
    [product && !loading && !checking]. *)
Definition displayed (s : State) : option SavedProduct :=
  if negb (loading s) && negb (checking s) then product s else None.

End Scanner.

(** ** Devices and boards used in the examples *)

Module Sample.
Import Kanban.

Definition phone : Window := {| SCREEN_WIDTH := 390; SCREEN_HEIGHT := 844 |}.
Definition tablet : Window := {| SCREEN_WIDTH := 1024; SCREEN_HEIGHT := 768 |}.

Definition Snacks : string := "Snacks".

Definition freshRefs : Refs :=
  {| boardScrollRef := true; scrollTimeoutRef := None;
     currentScrollXRef := 0; isScrollingRef := false;
     lastScrollDirectionRef := None; lastScrollTimeRef := 0;
     currentDragXRef := 0; lastScrolledToIndexRef := -1 |}.

(** A board with the columns "Uncategorized" and "Snacks", scrolled to
    the start, that holds the products [ps] and searches for [query]. *)
Definition boardWith (ps : list SavedProduct) (query : string) : Board :=
  {| state :=
       {| products := ps; categories := [Uncategorized; Snacks];
          loading := false; refreshing := false; updating := None;
          dragTargetCategory := None; draggedProduct := None;
          dragPosition := None; draggedProductTargetCategory := None;
          searchQuery := query; selectedCategory := None |};
     refs := freshRefs; timers := []; nextTimerId := 0; effects := [] |}.

Definition twoColumns : Board := boardWith [] EmptyString.

Definition snack (id code : string) (created : option Z) : SavedProduct :=
  {| _id := Some id; material := 1; barcode := code;
     description := "crisps"; category := Some Snacks;
     createdAt := created |}.

Definition loose (id code : string) : SavedProduct :=
  {| _id := Some id; material := 2; barcode := code;
     description := "tea"; category := None; createdAt := Some 5 |}.

(** A drag on the phone: the pointer reaches the right edge at 1000ms,
    the timer that lowers the scrolling flag fires at 1500ms, and the
    pointer is at the left edge by then. *)
Definition edgeToEdge : list (Z * DragEvent) :=
  [(1000, PointerOver 380 0); (1500, Timeout 0%nat);
   (1500, PointerOver 10 0)].

(** Two snacks created at the same time, the one with the greater
    barcode first in the product list. *)
Definition sameTime : list SavedProduct :=
[snack "a" "222" (Some 100); snack "b" "111" (Some 100)].

(** A product without a category, alone on the board. *)
Definition tea : SavedProduct := loose "p1" "8901012116340".
Definition teaBoard : Board := boardWith [tea] EmptyString.

(** A backend that answers nothing but errors. *)
Definition offline (r : Request) : Response := Rejected None.

(** A scanner that has scanned nothing, and a catalog entry. *)
Definition idleScanner : Scanner.State :=
{| Scanner.scanned := false; Scanner.product := None;
   Scanner.loading := false; Scanner.saving := false;
   Scanner.checking := false; Scanner.isExistingProduct := false;
   Scanner.manualBarcode := "8901012116340";
   Scanner.showManualInput := true; Scanner.alerts := [] |}.

Definition catalogTea : SavedProduct :=
{| _id := None; material := 2; barcode := "8901012116340";
   description := "tea"; category := None; createdAt := None |}.

(** The card of [tea] at rest on [teaBoard], and a drag of it on the
    tablet from the first column to "Snacks": hold, pan to the right,
    release, and the answers of the backend to the PATCH and to the
    request for the categories. *)
Definition restingCard : Session :=
{| card := mountedCard; board := teaBoard; panActive := false;
   longPressActive := false; inflight := [] |}.

Definition pointerAt (x : Q) : PanEvent :=
{| translationX := x - 100; translationY := 0; absoluteX := x;
   absoluteY := 400 |}.

Definition dragToSnacks : list (Z * Event) :=
[(0, LongPressStart); (10, PanStart (pointerAt 100));
 (20, PanUpdate (pointerAt 300)); (30, PanUpdate (pointerAt 500));
 (40, PanUpdate (pointerAt 600)); (50, PanUpdate (pointerAt 610));
 (60, PanUpdate (pointerAt 620)); (70, PanEnd); (70, LongPressEnd);
 (200, Settles (Resolved VUnit));
 (300, Settles (Resolved (VCategories [Uncategorized; Snacks])))].

(** A swipe over the card without a hold. *)
Definition swipe : list (Z * Event) :=
[(0, PanStart (pointerAt 100)); (10, PanUpdate (pointerAt 300));
 (20, PanUpdate (pointerAt 600)); (30, PanEnd)].

(** The card of [tea] in a drag: two new positions have been counted
    since the board was last asked, and the pointer is at [x]; the card
    aims at [target]. *)
Definition inDrag (x : Q) (target : option string) : Session :=
{| card :=
     {| translateX := x - 100; translateY := 0; scale := 12 # 10;
        opacity := 0; isDragging := true; targetCategoryRef := target;
        dragEnabled := true; dragAbsoluteX := x; frameCounter := 2;
        dragging := true; targetCategory := target; readyToDrag := true;
        reactionPrev := Some 100%Q |};
   board := teaBoard; panActive := true; longPressActive := true;
   inflight := [] |}.

(** Services of the scanner with a backend that is down: the check and
    the save throw, the catalog knows [catalogTea]. *)
Definition catalogOnly : Scanner.Services :=
{| Scanner.getProductByBarcode := fun _ => Scanner.Throws None;
   Scanner.fetchProductByBarcode := fun _ => Scanner.Resolves catalogTea;
   Scanner.saveProductToDatabase := fun _ _ => Scanner.Throws None |}.

(** Two snacks on the board, and the board searched for "111". *)
Definition twoSnacks : list SavedProduct :=
[snack "a" "111" (Some 1); snack "b" "222" (Some 2)].
Definition searched : Board := boardWith twoSnacks "111".

(** A product without an id, and backends for a drop of [tea] on
    "Snacks": one that accepts the PATCH and lists the categories, one
    that refuses the PATCH and lists the products. *)
Definition noId : SavedProduct :=
{| _id := None; material := 3; barcode := "333"; description := "jam";
   category := None; createdAt := None |}.

Definition accepting (r : Request) : Response :=
match r with
| GetAllCategories => Resolved (VCategories [Snacks; "Drinks"%string])
| GetAllProducts => Resolved (VProducts [tea])
| _ => Resolved VUnit
end.

Definition refusing (r : Request) : Response :=
match r with
| UpdateProductCategory _ _ => Rejected None
| DeleteCategory _ => Rejected (Some "Category is in use"%string)
| GetAllProducts => Resolved (VProducts [tea])
| GetAllCategories => Resolved (VCategories [Snacks])
end.
End Sample.


(** ** Responsive sizes *)

(** The responsive utilities of the theme, and the size of the scan
    frame that the scanner screen derives from them. *)
Module Responsive.
Section Device.
Context `{Window}.

Definition isMediumDevice : bool :=
  Js.leb 375 SCREEN_WIDTH && Js.ltb SCREEN_WIDTH 414.
Definition isLargeDevice : bool := Js.leb 414 SCREEN_WIDTH.

Definition responsiveWidth (percentage : Q) : Q :=
  (SCREEN_WIDTH * percentage) / 100.

Definition responsiveHeight (percentage : Q) : Q :=
  (SCREEN_HEIGHT * percentage) / 100.

Definition responsiveFontSize (size : Q) : Q :=
  let scale := (SCREEN_WIDTH / 375)%Q in
  let newSize := (size * scale)%Q in
  if Theme.isSmallDevice
  then Qmax (newSize * (9 # 10))%Q (size * (85 # 100))%Q
  else if isLargeDevice
  then Qmin (newSize * (11 # 10))%Q (size * (115 # 100))%Q
  else newSize.

Definition getScanFrameSize : Q :=
  if Theme.isSmallDevice then Qmin (SCREEN_WIDTH * (75 # 100))%Q 260
  else if Theme.isTablet then Qmin (SCREEN_WIDTH * (1 # 2))%Q 400
  else Qmin (SCREEN_WIDTH * (8 # 10))%Q 320.

End Device.
End Responsive.

(** ** More of the kanban screen *)

Module Columns.
Import Kanban.

(** [Array.prototype.indexOf] on strings: the first index, or [-1]. *)
Fixpoint indexOf (l : list string) (s : string) : Z :=
match l with
| [] => -1
| x :: l' =>
    if String.eqb x s then 0
    else match indexOf l' s with
         | -1 => -1
         | i => i + 1
         end
end.

(** The [categoryIndex] that [renderCategoryColumn] gives to the cards
    of the column [cat]: [filteredCategories.indexOf(category)]. *)
Definition categoryIndexOf (b : Board) (cat : string) : Z :=
indexOf (getFilteredCategories b) cat.

(** The columns that the board renders, each with its products:
    [getFilteredCategories().map(renderCategoryColumn)]. *)
Definition renderedColumns (b : Board) : list (string * list SavedProduct) :=
map (fun cat => (cat, getProductsByCategory b cat)) (getFilteredCategories b).

End Columns.

(** The dialog that adds a category. *)
Module AddCategory.
Import Kanban.

(** The state of the dialog: [newCategoryName] and [showAddCategory]. *)
Record Form := { newCategoryName : string; showAddCategory : bool }.

(** [handleAddCategory] run up to the point where it stops: finished,
    or suspended at [createCategory(name)] or at the fetch of the
    categories that follows it. *)
Inductive Async :=
| Done (f : Form) (b : Board)
| AwaitCreate (name : string) (f : Form) (b : Board)
    (k : Response -> Form -> Board -> Async)
| AwaitCategories (f : Form) (b : Board)
    (k : Response -> Form -> Board -> Async).

Definition closed : Form :=
{| newCategoryName := EmptyString; showAddCategory := false |}.

(** From the answer to the fetch of the categories on: the board takes
    the categories as [fetchCategories] sets them, and the dialog is
    emptied and closed. *)
Definition afterRefresh (resp : Response) (f : Form) (b : Board) : Async :=
Done closed (boardOf (afterCategories Kanban.Done resp b)).

Definition afterCreate (resp : Response) (f : Form) (b : Board) : Async :=
match resp with
| Resolved _ => AwaitCategories f b afterRefresh
| Rejected message =>
    Done f (perform
              (Alert "Error"
                 (match message with
                  | Some m => m
                  | None => "Failed to create category"%string
                  end)) b)
end.

Definition handleAddCategory (f : Form) (b : Board) : Async :=
match Js.trim (newCategoryName f) with
| EmptyString =>
    Done f (perform (Alert "Error" "Category name cannot be empty") b)
| name =>
    if Js.arrayIncludes (categories (state b)) name then
      Done f (perform (Alert "Error" "Category already exists") b)
    else AwaitCreate name f b afterCreate
end.

(** Runs the handler to its end against a backend that answers at once
    and collects the names it asked to create. *)
Fixpoint complete (create : string -> Response) (fetch : Response)
    (a : Async) : Form * Board * list string :=
match a with
| Done f b => (f, b, [])
| AwaitCreate name f b k =>
    let '(f', b', names) := complete create fetch (k (create name) f b) in
    (f', b', name :: names)
| AwaitCategories f b k => complete create fetch (k fetch f b)
end.

End AddCategory.

(** ** More of the scanner screen *)

Module ScannerActions.
Import Scanner.

(** [handleScanAgain] *)
Definition handleScanAgain (s : State) : State :=
{| scanned := false; product := None; loading := loading s;
   saving := saving s; checking := checking s; isExistingProduct := false;
   manualBarcode := manualBarcode s; showManualInput := showManualInput s;
   alerts := alerts s |}.

(** The button of the error alert of the scanner:
    [onPress: () => setScanned(false)]. *)
Definition dismissError (s : State) : State :=
{| scanned := false; product := product s; loading := loading s;
   saving := saving s; checking := checking s;
   isExistingProduct := isExistingProduct s;
   manualBarcode := manualBarcode s; showManualInput := showManualInput s;
   alerts := alerts s |}.

(** The badge over the product card. *)
Inductive Badge := AlreadyInDatabase | Saved.

Definition badge (s : State) : option Badge :=
match displayed s with
| Some _ => Some (if isExistingProduct s then AlreadyInDatabase else Saved)
| None => None
end.

End ScannerActions.

(** * Properties *)

Import Kanban.

(** ** Comparisons of numbers *)

Lemma leb_le (a b : Q) : Js.leb a b = true <-> (a <= b)%Q.
Proof. unfold Js.leb. apply Qle_bool_iff. Qed.

Lemma ltb_lt (a b : Q) : Js.ltb a b = true <-> (a < b)%Q.
Proof.
  unfold Js.ltb. rewrite negb_true_iff. split.
  - intros E. apply Qnot_le_lt. intros L.
    apply Qle_bool_iff in L. congruence.
  - intros L. destruct (Qle_bool b a) eqn:E; [|reflexivity].
    apply Qle_bool_iff in E. exfalso. apply (Qlt_not_le _ _ L E).
Qed.

(** ** The column under the pointer *)

Section Resolver.
Context `{Window}.

(** The loop stops at the first index whose widened span holds the
    pointer, whatever it has tracked until then. *)
Lemma scanColumns_first_hit (scrollX X : Q) (n : nat) :
  forall (i : Z) (s : Scan) (k : nat),
    (k < n)%nat ->
    inWidenedSpan scrollX X (i + Z.of_nat k) = true ->
    (forall j, (j < k)%nat ->
               inWidenedSpan scrollX X (i + Z.of_nat j) = false) ->
    closestColumnIndex (scanColumns scrollX X n i s) = i + Z.of_nat k.
Proof.
  induction n as [|n IH]; intros i s k Hk Hhit Hmiss; [lia|].
  simpl. destruct k as [|k].
  - replace (i + Z.of_nat 0) with i in Hhit by lia.
    rewrite Hhit. simpl. lia.
  - assert (H0 : inWidenedSpan scrollX X i = false).
    { specialize (Hmiss 0%nat ltac:(lia)).
      now replace (i + Z.of_nat 0) with i in Hmiss by lia. }
    rewrite H0.
    rewrite (IH (i + 1) _ k); try lia.
    + now replace (i + 1 + Z.of_nat k) with (i + Z.of_nat (S k)) by lia.
    + intros j Hj. specialize (Hmiss (S j) ltac:(lia)).
      now replace (i + 1 + Z.of_nat j) with (i + Z.of_nat (S j)) by lia.
Qed.

(** Once a column has been tracked and no span holds the pointer, the
    loop keeps the tracked column: the fallback looks at a column only
    while [closestColumnIndex] is still [-1]. *)
Lemma scanColumns_keeps_tracked (scrollX X : Q) (n : nat) :
  forall (i : Z) (s : Scan),
    closestColumnIndex s <> -1 ->
    (forall j, (j < n)%nat ->
               inWidenedSpan scrollX X (i + Z.of_nat j) = false) ->
    scanColumns scrollX X n i s = s.
Proof.
  induction n as [|n IH]; intros i s Hs Hmiss; [reflexivity|].
  simpl.
  assert (H0 : inWidenedSpan scrollX X i = false).
  { specialize (Hmiss 0%nat ltac:(lia)).
    now replace (i + Z.of_nat 0) with i in Hmiss by lia. }
  rewrite H0.
  destruct (closestColumnIndex s =? -1) eqn:E; [lia|].
  apply IH; [assumption|].
  intros j Hj. specialize (Hmiss (S j) ltac:(lia)).
  now replace (i + 1 + Z.of_nat j) with (i + Z.of_nat (S j)) by lia.
Qed.

(** When no widened span holds the pointer the loop answers column 0 on
    every board that shows a column. *)
Lemma columnUnderPointer_fallback (b : Board) (X : Q) :
  0 < visibleCount b ->
  (forall j, 0 <= j < visibleCount b ->
             inWidenedSpan (currentScrollXRef (refs b)) X j = false) ->
  columnUnderPointer X b = 0.
Proof.
  unfold columnUnderPointer, scanBoard, visibleCount.
  destruct (List.length (getFilteredCategories b)) as [|n] eqn:E;
    intros Hpos Hmiss; [simpl in Hpos; lia|].
  cbn [scanColumns]. rewrite (Hmiss 0) by lia.
  cbn [scanStart closestColumnIndex minDistance Z.eqb Pos.eqb].
  rewrite scanColumns_keeps_tracked.
  - reflexivity.
  - cbn. lia.
  - intros j Hj. apply Hmiss. lia.
Qed.

(** C1, as amended.  When the pointer lies within the widened span of
    some visible column (the span of the column on screen, widened by
    half a column width on each side), the resolver answers the first
    such column: the index [i] whose widened span holds the pointer
    while no widened span of a lower index does. *)
Theorem columnUnderPointer_first_widened_span (b : Board) (X : Q) (i : Z) :
  0 <= i < visibleCount b ->
  inWidenedSpan (currentScrollXRef (refs b)) X i = true ->
  (forall j, 0 <= j < i ->
             inWidenedSpan (currentScrollXRef (refs b)) X j = false) ->
  columnUnderPointer X b = i.
Proof.
  intros Hi Hhit Hmiss.
  unfold columnUnderPointer, scanBoard. unfold visibleCount in Hi.
  rewrite (scanColumns_first_hit _ _ _ 0 scanStart (Z.to_nat i)).
  - lia.
  - lia.
  - now replace (0 + Z.of_nat (Z.to_nat i)) with i by lia.
  - intros j Hj. apply Hmiss. lia.
Qed.

(** The widened span in terms of the pointer position. *)
Lemma inWidenedSpan_iff (scrollX X : Q) (i : Z) :
  inWidenedSpan scrollX X i = true <->
  (columnStartOnScreen scrollX i - tolerance <= X
   /\ X <= columnEndOnScreen scrollX i + tolerance)%Q.
Proof.
  unfold inWidenedSpan. rewrite andb_true_iff, !leb_le. tauto.
Qed.

End Resolver.

(** The amended C1 on a phone: at offset 0 the pointer at 100 is within
    the widened span of column 0. *)
Lemma columnUnderPointer_first_widened_span_witness :
  0 <= 0 < visibleCount Sample.twoColumns
  /\ @inWidenedSpan Sample.phone 0 100 0 = true
  /\ @columnUnderPointer Sample.phone 100 Sample.twoColumns = 0.
Proof.
  split; [vm_compute; split; [discriminate | reflexivity]|].
  split; [vm_compute; reflexivity|].
  apply (@columnUnderPointer_first_widened_span Sample.phone
           Sample.twoColumns 100 0).
  - vm_compute. split; [discriminate | reflexivity].
  - vm_compute. reflexivity.
  - intros j Hj. lia.
Defined.

(** C1 as it is written fails twice.  On a phone 390 wide with two
    columns at offset 0, the pointer at 340 is within the widened span of
    column 1 (and within its plain span, which starts at 332), and the
    resolver answers column 0.  On a tablet 1024 wide with two columns,
    the pointer at 900 is outside both widened spans and nearer to the
    centre of column 1 than to that of column 0, and the resolver answers
    column 0. *)
Lemma columnUnderPointer_not_own_span :
  (@inWidenedSpan Sample.phone 0 340 1 = true
   /\ (@columnStartOnScreen Sample.phone 0 1 <= 340)%Q
   /\ (340 <= @columnEndOnScreen Sample.phone 0 1)%Q
   /\ @columnUnderPointer Sample.phone 340 Sample.twoColumns <> 1)
  /\ (@inWidenedSpan Sample.tablet 0 900 0 = false
      /\ @inWidenedSpan Sample.tablet 0 900 1 = false
      /\ (Qabs (900 - @columnCenterOnScreen Sample.tablet 0 1)
          < Qabs (900 - @columnCenterOnScreen Sample.tablet 0 0))%Q
      /\ @columnUnderPointer Sample.tablet 900 Sample.twoColumns <> 1).
Proof.
  repeat split; try (vm_compute; congruence).
Qed.

(** ** Auto-scroll: the target of a trigger *)

Section AutoScroll.
Context `{Window}.

(** The centred index is clamped: it is 0, or a positive index of the
    board. *)
Lemma getCenteredCategoryIndex_range (b : Board) :
  0 <= getCenteredCategoryIndex b
  /\ (getCenteredCategoryIndex b = 0
      \/ getCenteredCategoryIndex b <= visibleCount b - 1).
Proof. unfold getCenteredCategoryIndex. cbv zeta. lia. Qed.

Ltac split_guards :=
  repeat match goal with
         | |- context [if ?c then _ else _] => destruct c eqn:?
         end; try discriminate.

(** A trigger needs the scrolling flag down and the scroll view
    mounted. *)
Lemma scrollTrigger_not_scrolling (now : Z) (X : Q) (b : Board) t d :
  scrollTrigger now X b = Some (t, d) ->
  isScrollingRef (refs b) = false /\ boardScrollRef (refs b) = true.
Proof.
  unfold scrollTrigger.
  destruct (boardScrollRef (refs b)), (isScrollingRef (refs b));
    simpl; try discriminate. auto.
Qed.

(** What the guards of a trigger establish: the target is one to the
    right of the centred column and before the end of the board, or one
    to the left of it and not before the start. *)
Lemma scrollTrigger_guards (now : Z) (X : Q) (b : Board)
    (target : Z) (direction : Direction) :
  scrollTrigger now X b = Some (target, direction) ->
  (direction = ScrollRight
   /\ target = getCenteredCategoryIndex b + 1 /\ target < visibleCount b)
  \/ (direction = ScrollLeft
      /\ target = getCenteredCategoryIndex b - 1 /\ 0 <= target).
Proof.
  unfold scrollTrigger. cbv zeta.
  destruct (negb (boardScrollRef (refs b)) || isScrollingRef (refs b));
    [discriminate|].
  destruct (negb (nearRightEdge X) && negb (nearLeftEdge X));
    [discriminate|].
  destruct (nearRightEdge X).
  - destruct (getCenteredCategoryIndex b + 1 >=? visibleCount b) eqn:E;
      [discriminate|].
    rewrite Z.geb_leb in E. apply Z.leb_gt in E.
    split_guards. intros [= <- <-]. left. auto.
  - destruct (nearLeftEdge X); [|discriminate].
    destruct (getCenteredCategoryIndex b - 1 <? 0) eqn:E; [discriminate|].
    apply Z.ltb_ge in E.
    split_guards. intros [= <- <-]. right. auto.
Qed.

Lemma scrollTrigger_on_board (now : Z) (X : Q) (b : Board) t d :
  scrollTrigger now X b = Some (t, d) -> 0 <= t < visibleCount b.
Proof.
  intros E. pose proof (getCenteredCategoryIndex_range b) as [Hlo Hhi].
  destruct (scrollTrigger_guards _ _ _ _ _ E) as [(_ & -> & Hr)|(_ & -> & Hl)];
    lia.
Qed.

(** C5.  Whenever [scrollBasedOnScreenPosition] goes on to scroll, the
    column it scrolls to is the centred column plus one or minus one,
    and it is a column of the board: an index from 0 to the number of
    visible columns minus one. *)
Theorem scrollTrigger_adjacent (now : Z) (X : Q) (b : Board)
    (target : Z) (direction : Direction) :
  scrollTrigger now X b = Some (target, direction) ->
  (target = getCenteredCategoryIndex b + 1
   \/ target = getCenteredCategoryIndex b - 1)
  /\ 0 <= target <= visibleCount b - 1.
Proof.
  intros E.
  pose proof (getCenteredCategoryIndex_range b) as [Hlo Hhi].
  destruct (scrollTrigger_guards _ _ _ _ _ E) as [(_ & Ht & Hr)|(_ & Ht & Hl)].
  - split; [left; exact Ht|]. lia.
  - split; [right; exact Ht|]. lia.
Qed.

(** What [scrollBasedOnScreenPosition] does to the board: nothing
    without a trigger; with one, a single [scrollTo] that centres the
    target, the flag raised and a timer to lower it in 500ms. *)
Lemma scrollBasedOnScreenPosition_cases (now : Z) (X : Q) (idx : Z)
    (b : Board) :
  let b' := scrollBasedOnScreenPosition now X idx b in
  (scrollTrigger now X b = None /\ b' = b)
  \/ (exists t d,
        scrollTrigger now X b = Some (t, d)
        /\ effects b' = effects b ++ [ScrollTo (centredOffset t)]
        /\ isScrollingRef (refs b') = true
        /\ state b' = state b
        /\ currentDragXRef (refs b') = currentDragXRef (refs b)
        /\ scrollTimeoutRef (refs b') = scrollTimeoutRef (refs b)
        /\ boardScrollRef (refs b') = boardScrollRef (refs b)
        /\ nextTimerId b' = S (nextTimerId b)
        /\ timers b'
           = timers b ++ [{| timerId := nextTimerId b; due := now + 500;
                             callback := ResetScrolling |}]).
Proof.
  cbv zeta. unfold scrollBasedOnScreenPosition.
  destruct (scrollTrigger now X b) as [[t d]|] eqn:E; [right|left; auto].
  exists t, d. split; [reflexivity|].
  pose proof (scrollTrigger_on_board _ _ _ _ _ E) as Hr.
  pose proof (scrollTrigger_not_scrolling _ _ _ _ _ E) as [_ Hm].
  set (b1 := setLastScrolledToIndexRef t _).
  assert (Hv : visibleCount b1 = visibleCount b) by reflexivity.
  assert (Hb : boardScrollRef (refs b1) = boardScrollRef (refs b))
    by reflexivity.
  unfold scrollToCategory. rewrite Hv, Hb, Hm.
  destruct (t <? 0) eqn:E1; [apply Z.ltb_lt in E1; lia|].
  destruct (t >=? visibleCount b) eqn:E2;
    [rewrite Z.geb_leb in E2; apply Z.leb_le in E2; lia|].
  subst b1. cbn. repeat split; try reflexivity; assumption.
Qed.

End AutoScroll.

(** C5 on a phone: with two columns and the pointer at the right edge the
    board scrolls from column 0 to column 1. *)
Lemma scrollTrigger_adjacent_witness :
  @scrollTrigger Sample.phone 1000 380 Sample.twoColumns
  = Some (1, ScrollRight)
  /\ (1 = @getCenteredCategoryIndex Sample.phone Sample.twoColumns + 1
      \/ 1 = @getCenteredCategoryIndex Sample.phone Sample.twoColumns - 1)
  /\ 0 <= 1 <= visibleCount Sample.twoColumns - 1.
Proof.
  split; [vm_compute; reflexivity|].
  apply (@scrollTrigger_adjacent Sample.phone 1000 380 Sample.twoColumns
           1 ScrollRight).
  vm_compute. reflexivity.
Defined.

(** ** Auto-scroll: the cooldown *)

Section Cooldown.
Context `{Window}.

Lemma newEffects_app (b b' : Board) (l : list Effect) :
  effects b' = effects b ++ l -> newEffects b b' = l.
Proof.
  intros E. unfold newEffects. rewrite E, skipn_app, skipn_all, Nat.sub_diag.
  reflexivity.
Qed.

Lemma newEffects_same (b b' : Board) :
  effects b' = effects b -> newEffects b b' = [].
Proof.
  intros E. apply newEffects_app. now rewrite app_nil_r.
Qed.

Lemma Calm_refl b : Calm b b.
Proof. repeat split; auto. Qed.

Lemma Calm_trans b1 b2 b3 : Calm b1 b2 -> Calm b2 b3 -> Calm b1 b3.
Proof.
  intros (E1 & S1 & T1) (E2 & S2 & T2). repeat split; try congruence.
  intros tm Hin Hr. auto.
Qed.

Lemma Calm_withState f b : Calm b (withState f b).
Proof. repeat split; auto. Qed.

Lemma Calm_clearTimeout id b : Calm b (clearTimeout id b).
Proof.
  repeat split; auto. cbn. intros tm Hin _.
  apply filter_In in Hin. tauto.
Qed.

Lemma Calm_setScrollTimeoutRef v b : Calm b (setScrollTimeoutRef v b).
Proof. repeat split; auto. Qed.

Lemma Calm_clearScrollTimeout b : Calm b (clearScrollTimeout b).
Proof.
  unfold clearScrollTimeout. destruct (scrollTimeoutRef (refs b)).
  - eapply Calm_trans; [apply Calm_clearTimeout|].
    apply Calm_setScrollTimeoutRef.
  - apply Calm_refl.
Qed.

Lemma Calm_recheck now idx b :
  Calm b (setTimeout now 550 (RecheckEdge idx) b).
Proof.
  repeat split; auto. cbn. intros tm Hin Hr.
  apply in_app_or in Hin. destruct Hin as [Hin|[<-|[]]]; [assumption|].
  discriminate.
Qed.

Lemma Calm_forget b :
  Calm b (setLastScrolledToIndexRef (-1)
            (setLastScrollTimeRef 0 (setLastScrollDirectionRef None b))).
Proof. repeat split; auto. Qed.

Lemma Fired_then_Calm now x b1 b2 b3 :
  Fired now x b1 b2 -> Calm b2 b3 -> Fired now x b1 b3.
Proof.
  intros (E & S0 & S1 & new & Hd & Hn) (E' & S' & T').
  repeat split; try congruence.
  exists new. split; [assumption|]. intros tm Hin Hr. auto.
Qed.

Lemma Calm_then_Fired now x b1 b2 b3 :
  Calm b1 b2 -> Fired now x b2 b3 -> Fired now x b1 b3.
Proof.
  intros (E' & S' & T') (E & S0 & S1 & new & Hd & Hn).
  repeat split; try congruence.
  exists new. split; [assumption|]. intros tm Hin Hr.
  destruct (Hn tm Hin Hr); auto.
Qed.

(** [scrollBasedOnScreenPosition] is calm or fires. *)
Lemma scrollBasedOnScreenPosition_step now X idx b :
  Calm b (scrollBasedOnScreenPosition now X idx b)
  \/ exists x, Fired now x b (scrollBasedOnScreenPosition now X idx b).
Proof.
  destruct (scrollBasedOnScreenPosition_cases now X idx b)
    as [[_ ->]|(t & d & E & Hef & Hs & _ & _ & _ & _ & _ & Ht)].
  - left. apply Calm_refl.
  - right. exists (centredOffset t).
    destruct (scrollTrigger_not_scrolling _ _ _ _ _ E) as [Hs0 _].
    repeat split; try assumption.
    eexists. split; [|intros tm Hin _; rewrite Ht in Hin;
                       apply in_app_or in Hin;
                       destruct Hin as [Hin|[<-|[]]];
                       [left; exact Hin|right; reflexivity]].
    reflexivity.
Qed.

(** A pointer update is calm or fires. *)
Lemma handleDragOverColumn_step now X idx b :
  let b' := fst (handleDragOverColumn now X idx b) in
  Calm b b' \/ exists x, Fired now x b b'.
Proof.
  cbv zeta. unfold handleDragOverColumn.
  set (scan := scanBoard X b).
  set (near := nearRightEdge X || nearLeftEdge X).
  set (b1 := if cardIsOverColumnCenter scan && negb near then _ else b).
  assert (C1 : Calm b b1).
  { subst b1. destruct (cardIsOverColumnCenter scan && negb near);
      [|apply Calm_refl].
    destruct (negb (isScrollingRef (refs b))).
    - eapply Calm_trans; [apply Calm_forget|apply Calm_clearScrollTimeout].
    - apply Calm_clearScrollTimeout. }
  clearbody b1.
  set (b2 := if near && negb (isScrollingRef (refs b1)) then _ else _).
  assert (C2 : Calm b1 b2 \/ exists x, Fired now x b1 b2).
  { subst b2. destruct (near && negb (isScrollingRef (refs b1)));
      [|left; apply Calm_clearScrollTimeout].
    set (b1' := scrollBasedOnScreenPosition now X idx b1).
    assert (C3 : forall c, Calm c
              (setScrollTimeoutRef
                 (Some (nextTimerId
                          match scrollTimeoutRef (refs c) with
                          | Some id => clearTimeout id c
                          | None => c
                          end))
                 (setTimeout now 550 (RecheckEdge idx)
                    match scrollTimeoutRef (refs c) with
                    | Some id => clearTimeout id c
                    | None => c
                    end))).
    { intros c. eapply Calm_trans; [|apply Calm_setScrollTimeoutRef].
      eapply Calm_trans; [|apply Calm_recheck].
      destruct (scrollTimeoutRef (refs c));
        [apply Calm_clearTimeout|apply Calm_refl]. }
    destruct (scrollBasedOnScreenPosition_step now X idx b1) as [C|[x F]].
    - left. eapply Calm_trans; [exact C|apply C3].
    - right. exists x. eapply Fired_then_Calm; [exact F|apply C3]. }
  clearbody b2.
  assert (C4 : forall v,
             Calm b2 (setDraggedProductTargetCategory v
                        (setDragTargetCategory v b2))).
  { intros v. repeat split; auto. }
  assert (R : forall v,
             Calm b (setDraggedProductTargetCategory v
                        (setDragTargetCategory v b2))
             \/ exists x, Fired now x b
                            (setDraggedProductTargetCategory v
                               (setDragTargetCategory v b2))).
  { intros v. destruct C2 as [C|[x F]].
    - left. eapply Calm_trans; [exact C1|].
      eapply Calm_trans; [exact C|apply C4].
    - right. exists x. eapply Calm_then_Fired; [exact C1|].
      eapply Fired_then_Calm; [exact F|apply C4]. }
  repeat match goal with
         | |- context [if ?c then _ else _] => destruct c
         end; cbn [fst]; apply R.
Qed.

Lemma Separated_snoc log now x :
  Separated log ->
  (forall t y, In (t, ScrollTo y) log -> t + 500 <= now) ->
  Separated (log ++ [(now, ScrollTo x)]).
Proof.
  intros Hs Hold i j t1 x1 t2 x2 Hij Hi Hj.
  assert (Hjlen : (j < List.length (log ++ [(now, ScrollTo x)]))%nat)
    by (apply nth_error_Some; congruence).
  rewrite length_app in Hjlen. simpl in Hjlen.
  assert (Hi' : nth_error log i = Some (t1, ScrollTo x1))
    by (rewrite nth_error_app1 in Hi by lia; exact Hi).
  destruct (Nat.eq_dec j (List.length log)) as [->|Hne].
  - rewrite nth_error_app2, Nat.sub_diag in Hj by lia.
    simpl in Hj. injection Hj as <- _.
    apply (Hold t1 x1). eapply nth_error_In; eassumption.
  - rewrite nth_error_app1 in Hj by lia.
    exact (Hs i j t1 x1 t2 x2 Hij Hi' Hj).
Qed.

Lemma Cooling_calm clock now b b' log :
  Cooling clock b log -> clock <= now -> Calm b b' -> Cooling now b' log.
Proof.
  intros (I1 & I2 & I3 & I4 & I5) Hle (E & S & T).
  split; [|split; [|split; [|split]]].
  - intros t e Hin. specialize (I1 t e Hin). lia.
  - intros Hs. rewrite S in Hs. destruct (I2 Hs) as [Hn Ho]. split.
    + intros tm Hin. destruct (isReset tm) eqn:Er; [|reflexivity].
      pose proof (Hn tm (T tm Hin Er)). congruence.
    + intros t x Hin. specialize (Ho t x Hin). lia.
  - intros tm Hin Hr. apply I3; auto.
  - intros t1 t2 H1 H2 R1 R2. apply I4; auto.
  - exact I5.
Qed.

Lemma Cooling_fired clock now x b b' log :
  Cooling clock b log -> clock <= now -> Fired now x b b' ->
  Cooling now b' (log ++ [(now, ScrollTo x)]).
Proof.
  intros (I1 & I2 & I3 & I4 & I5) Hle (E & S0 & S1 & new & Hd & Hn).
  destruct (I2 S0) as [Hnone Hold].
  assert (Hnew : forall tm, In tm (timers b') -> isReset tm = true ->
                            tm = new).
  { intros tm Hin Hr. destruct (Hn tm Hin Hr) as [Hb|]; [|assumption].
    rewrite (Hnone tm Hb) in Hr. discriminate. }
  split; [|split; [|split; [|split]]].
  - intros t e Hin. apply in_app_or in Hin.
    destruct Hin as [Hin|[[= <- <-]|[]]]; [|lia].
    specialize (I1 t e Hin). lia.
  - intros Hs. congruence.
  - intros tm Hin Hr t y Hin'. rewrite (Hnew tm Hin Hr), Hd.
    apply in_app_or in Hin'. destruct Hin' as [Hin'|[[= <- <-]|[]]]; [|lia].
    specialize (I1 _ _ Hin'). lia.
  - intros t1 t2 H1 H2 R1 R2.
    now rewrite (Hnew t1 H1 R1), (Hnew t2 H2 R2).
  - apply Separated_snoc; [exact I5|].
    intros t y Hin. specialize (Hold t y Hin). lia.
Qed.

(** A timer that fires leaves the run cooling. *)
Lemma Cooling_fireTimer clock now id b b' log :
  Cooling clock b log -> clock <= now ->
  fireTimer now id b = Some b' ->
  Cooling now b' (log ++ map (pair now) (newEffects b b')).
Proof.
  intros HC Hle. unfold fireTimer, findTimer.
  destruct (find _ (timers b)) as [tm|] eqn:Ef; [|discriminate].
  apply find_some in Ef. destruct Ef as [Hin Hid].
  apply Nat.eqb_eq in Hid.
  destruct (due tm <=? now) eqn:Ed; [|discriminate].
  apply Z.leb_le in Ed. intros [= <-].
  destruct (callback tm) eqn:Ecb; cbn [runCallback].
  - (* the flag is lowered *)
    rewrite newEffects_same by reflexivity. cbn [map]. rewrite app_nil_r.
    destruct HC as (I1 & I2 & I3 & I4 & I5).
    assert (Hr : isReset tm = true) by (unfold isReset; now rewrite Ecb).
    split; [|split; [|split; [|split]]].
    + intros t e Hin'. specialize (I1 t e Hin'). lia.
    + intros _. split.
      * intros tm' Hin'. cbn in Hin'. apply filter_In in Hin'.
        destruct Hin' as [Hin' Hne].
        destruct (isReset tm') eqn:Er; [|reflexivity].
        rewrite (I4 tm' tm Hin' Hin Er Hr), Hid, Nat.eqb_refl in Hne.
        discriminate.
      * intros t x Hin'. specialize (I3 tm Hin Hr t x Hin'). lia.
    + intros tm' Hin' Hr'. cbn in Hin'. apply filter_In in Hin'.
      apply I3; tauto.
    + intros t1 t2 H1 H2. cbn in H1, H2.
      apply filter_In in H1, H2. apply I4; tauto.
    + exact I5.
  - (* the pointer is looked at again *)
    pose proof (Calm_clearTimeout id b) as C0.
    destruct (negb (isScrollingRef (refs (clearTimeout id b))));
      [|rewrite newEffects_same by reflexivity; cbn [map];
        rewrite app_nil_r; eapply Cooling_calm; eauto].
    destruct (nearRightEdge _ || nearLeftEdge _);
      [|rewrite newEffects_same by reflexivity; cbn [map];
        rewrite app_nil_r; eapply Cooling_calm; eauto].
    match goal with
    | |- context [scrollBasedOnScreenPosition ?n ?x ?i ?c] =>
        destruct (scrollBasedOnScreenPosition_step n x i c) as [C|[x' F]]
    end.
    + pose proof (Calm_trans _ _ _ C0 C) as C'.
      rewrite newEffects_same by apply C'. cbn [map]. rewrite app_nil_r.
      eapply Cooling_calm; eauto.
    + pose proof (Calm_then_Fired _ _ _ _ _ C0 F) as F'.
      rewrite (newEffects_app _ _ [ScrollTo x']) by apply F'.
      eapply Cooling_fired; eauto.
Qed.

Lemma Cooling_step clock now ev b b' log :
  Cooling clock b log -> clock <= now ->
  dragStep now ev b = Some b' ->
  Cooling now b' (log ++ map (pair now) (newEffects b b')).
Proof.
  intros HC Hle. destruct ev as [x idx|position|x|id]; cbn [dragStep].
  - intros [= <-].
    destruct (handleDragOverColumn_step now x idx b) as [C|[x' F]].
    + rewrite newEffects_same by apply C. cbn [map]. rewrite app_nil_r.
      eapply Cooling_calm; eauto.
    + rewrite (newEffects_app _ _ [ScrollTo x']) by apply F.
      eapply Cooling_fired; eauto.
  - intros [= <-]. rewrite newEffects_same by reflexivity.
    cbn [map]. rewrite app_nil_r.
    apply (Cooling_calm clock now b _ log HC Hle). repeat split; auto.
  - intros [= <-]. rewrite newEffects_same by reflexivity.
    cbn [map]. rewrite app_nil_r.
    apply (Cooling_calm clock now b _ log HC Hle). repeat split; auto.
  - apply (Cooling_fireTimer clock); assumption.
Qed.

Lemma Cooling_run evs :
  forall clock b log b' log',
    Cooling clock b log ->
    dragRun evs clock b log = Some (b', log') ->
    exists clock', Cooling clock' b' log'.
Proof.
  induction evs as [|[now ev] evs IH]; intros clock b log b' log' HC.
  - intros [= <- <-]. eauto.
  - cbn [dragRun]. destruct (now <? clock) eqn:E; [discriminate|].
    apply Z.ltb_ge in E.
    destruct (dragStep now ev b) as [b1|] eqn:Es; [|discriminate].
    apply IH. eapply Cooling_step; eauto.
Qed.

Lemma quiet_Cooling clock b : quiet b -> Cooling clock b [].
Proof.
  intros [Hs Hn].
  assert (Hnone : forall tm, In tm (timers b) -> isReset tm = false).
  { intros tm Hin. destruct (isReset tm) eqn:Er; [|reflexivity].
    assert (existsb isReset (timers b) = true)
      by (apply existsb_exists; eauto).
    congruence. }
  split; [|split; [|split; [|split]]].
  - intros t e [].
  - intros _. split; [exact Hnone|intros t x []].
  - intros tm _ _ t x [].
  - intros t1 t2 H1 _ R1. rewrite (Hnone t1 H1) in R1. discriminate.
  - intros i j t1 x1 t2 x2 _ Hi. destruct i; discriminate.
Qed.

(** C6.  Take a board on which no scroll is under way, and any sequence
    of timed events of a drag: pointer updates, moves, scroll events and
    timers that fire when they are due, the clock never going back.  In
    the timed log of the run any two scrolls, one after the other, are
    at least 500ms apart.  The reset of the bookkeeping that a pointer
    update over the centre of a column makes is part of every pointer
    update of the run. *)
Theorem autoScroll_cooldown (evs : list (Z * DragEvent)) (clock : Z)
    (b b' : Board) (log : list (Z * Effect)) :
  quiet b ->
  dragRun evs clock b [] = Some (b', log) ->
  forall i j t1 x1 t2 x2,
    (i < j)%nat ->
    nth_error log i = Some (t1, ScrollTo x1) ->
    nth_error log j = Some (t2, ScrollTo x2) ->
    t1 + 500 <= t2.
Proof.
  intros Hq Hrun.
  destruct (Cooling_run evs clock b [] b' log (quiet_Cooling clock b Hq) Hrun)
    as (clock' & _ & _ & _ & _ & Hsep).
  exact Hsep.
Qed.

End Cooldown.

(** A drag that goes over the centre of a column between two scrolls:
    the update at 1100ms finds the flag up and resets nothing, the one at
    1510ms resets the bookkeeping, and the next scroll is at 1520ms. *)
Example reset_between_scrolls :
  option_map snd
    (@dragRun Sample.phone
       [(1000, PointerOver 380 0); (1100, PointerOver 200 0);
        (1300, PointerOver 10 0); (1500, Timeout 0%nat);
        (1510, PointerOver 200 0); (1520, PointerOver 10 0)]
       0 Sample.twoColumns [])
  = Some [(1000, ScrollTo (1180 # 4)); (1520, ScrollTo 0)].
Proof. vm_compute. reflexivity. Qed.

(** The timer that lowers the flag cannot fire before it is due. *)
Example timer_not_before_due :
  @dragRun Sample.phone [(1000, PointerOver 380 0); (1499, Timeout 0%nat)]
    0 Sample.twoColumns []
  = None.
Proof. vm_compute. reflexivity. Qed.

(** C6 on a phone: the two scrolls of [Sample.edgeToEdge] are 500ms
    apart. *)
Lemma autoScroll_cooldown_witness :
  quiet Sample.twoColumns
  /\ exists b' log x1 x2,
       @dragRun Sample.phone Sample.edgeToEdge 0 Sample.twoColumns []
       = Some (b', log)
       /\ nth_error log 0 = Some (1000, ScrollTo x1)
       /\ nth_error log 1 = Some (1500, ScrollTo x2)
       /\ 1000 + 500 <= 1500.
Proof.
  assert (Hq : quiet Sample.twoColumns) by (split; reflexivity).
  split; [exact Hq|].
  destruct (@dragRun Sample.phone Sample.edgeToEdge 0 Sample.twoColumns [])
    as [[b' log]|] eqn:E; [|vm_compute in E; discriminate].
  assert (E' := E). vm_compute in E'. injection E' as _ El.
  exists b', log, (1180 # 4)%Q, 0%Q.
  assert (H0 : nth_error log 0 = Some (1000, ScrollTo (1180 # 4)))
    by (rewrite <- El; reflexivity).
  assert (H1 : nth_error log 1 = Some (1500, ScrollTo 0))
    by (rewrite <- El; reflexivity).
  repeat split; try assumption.
  exact (@autoScroll_cooldown Sample.phone Sample.edgeToEdge 0
           Sample.twoColumns b' log Hq E 0%nat 1%nat 1000 _ 1500 _
           (Nat.lt_0_succ 0) H0 H1).
Defined.

(** ** Sorting *)

Section SortFacts.
Context {A : Type} (cmp : A -> A -> Z).

Lemma insert_perm (x : A) (l : list A) :
  Permutation (Js.insert cmp x l) (x :: l).
Proof.
  induction l as [|y l IH]; simpl; [reflexivity|].
  destruct (cmp x y <=? 0); [reflexivity|].
  rewrite IH. apply perm_swap.
Qed.

Lemma sort_perm (l : list A) : Permutation (Js.sort cmp l) l.
Proof.
  induction l as [|x l IH]; simpl; [reflexivity|].
  rewrite insert_perm. now apply perm_skip.
Qed.

(** On a list whose comparator is the difference of a key, greater key
    first, the sort orders by descending key and keeps apart the
    elements of each key in the order they had. *)
Variable key : A -> Z.
Variable P : A -> Prop.
Hypothesis cmp_key : forall x y, P x -> P y -> cmp x y = key y - key x.

Let desc (a b : A) : Prop := key b <= key a.

Lemma insert_Forall (Q : A -> Prop) x l :
  Q x -> Forall Q l -> Forall Q (Js.insert cmp x l).
Proof.
  intros Hx Hl.
  apply (Permutation_Forall (Permutation_sym (insert_perm x l))).
  now constructor.
Qed.

Lemma sort_Forall (Q : A -> Prop) l : Forall Q l -> Forall Q (Js.sort cmp l).
Proof.
  intros Hl. apply (Permutation_Forall (Permutation_sym (sort_perm l))).
  exact Hl.
Qed.

Lemma insert_sorted x l :
  P x -> Forall P l -> StronglySorted desc l ->
  StronglySorted desc (Js.insert cmp x l).
Proof.
  intros Hx Hl Hs. induction Hs as [|y l Hs IH Hy]; simpl.
  - constructor; constructor.
  - inversion Hl as [|? ? Py Pl]; subst.
    destruct (cmp x y <=? 0) eqn:E.
    + apply Z.leb_le in E. rewrite (cmp_key _ _ Hx Py) in E.
      constructor; [constructor; assumption|].
      constructor; [unfold desc; lia|].
      eapply Forall_impl; [|exact Hy]. unfold desc. intros z Hz. lia.
    + apply Z.leb_gt in E. rewrite (cmp_key _ _ Hx Py) in E.
      constructor; [apply IH; assumption|].
      apply insert_Forall; [unfold desc; lia|assumption].
Qed.

Lemma sort_sorted l : Forall P l -> StronglySorted desc (Js.sort cmp l).
Proof.
  induction l as [|x l IH]; intros Hl; simpl; [constructor|].
  inversion Hl; subst.
  apply insert_sorted; auto. now apply sort_Forall.
Qed.

Lemma insert_filter_key (t : Z) x l :
  P x -> Forall P l ->
  filter (fun a => key a =? t) (Js.insert cmp x l)
  = filter (fun a => key a =? t) (x :: l).
Proof.
  intros Hx Hl. induction Hl as [|y l Py Pl IH]; [reflexivity|].
  simpl. destruct (cmp x y <=? 0) eqn:E; [reflexivity|].
  apply Z.leb_gt in E. rewrite (cmp_key _ _ Hx Py) in E.
  simpl. rewrite IH. simpl.
  destruct (key x =? t) eqn:Ex, (key y =? t) eqn:Ey; try reflexivity.
  apply Z.eqb_eq in Ex, Ey. lia.
Qed.

Lemma sort_filter_key (t : Z) l :
  Forall P l ->
  filter (fun a => key a =? t) (Js.sort cmp l)
  = filter (fun a => key a =? t) l.
Proof.
  induction l as [|x l IH]; intros Hl; [reflexivity|].
  inversion Hl; subst. simpl Js.sort.
  rewrite insert_filter_key by (auto using sort_Forall).
  simpl. now rewrite IH.
Qed.

End SortFacts.

(** ** The products of a column *)

Lemma filterProductsBySearch_matches (l : list SavedProduct) (q : string) :
  filterProductsBySearch l q = filter (matchesSearch q) l.
Proof.
  unfold filterProductsBySearch, matchesSearch.
  destruct (Js.trim q); [|reflexivity].
  induction l as [|p l IH]; simpl; congruence.
Qed.

Lemma getFilteredProducts_passes (b : Board) :
  getFilteredProducts b = filter (passesFilters b) (products (state b)).
Proof.
  unfold getFilteredProducts, passesFilters. cbv zeta.
  assert (E : forall l,
             match Js.trim (searchQuery (state b)) with
             | EmptyString => l
             | String _ _ => filterProductsBySearch l (searchQuery (state b))
             end = filter (matchesSearch (searchQuery (state b))) l).
  { intros l. rewrite filterProductsBySearch_matches.
    unfold matchesSearch. destruct (Js.trim (searchQuery (state b)));
      [|reflexivity].
    induction l as [|p l IH]; simpl; congruence. }
  rewrite E. clear E.
  assert (F : match selectedCategory (state b) with
              | Some (String c r) =>
                  filter (fun p => String.eqb (categoryOf p) (String c r))
                         (products (state b))
              | _ => products (state b)
              end
              = filter (matchesSelected (selectedCategory (state b)))
                       (products (state b))).
  { unfold matchesSelected.
    destruct (selectedCategory (state b)) as [[|c r]|]; try reflexivity;
      induction (products (state b)) as [|p l IH]; simpl; congruence. }
  rewrite F. clear F.
  induction (products (state b)) as [|p l IH]; [reflexivity|].
  simpl. destruct (matchesSelected _ p); simpl;
    [destruct (matchesSearch _ p); simpl; congruence|assumption].
Qed.

Lemma column_filter (b : Board) (cat : string) :
  filter (fun p => String.eqb (categoryOf p) cat) (getFilteredProducts b)
  = columnProducts b cat.
Proof.
  rewrite getFilteredProducts_passes. unfold columnProducts.
  induction (products (state b)) as [|p l IH]; [reflexivity|].
  simpl. destruct (passesFilters b p); simpl.
  - rewrite andb_true_r. destruct (String.eqb (categoryOf p) cat);
      simpl; congruence.
  - rewrite andb_false_r. assumption.
Qed.

Lemma compareProducts_created (p q : SavedProduct) :
  hasCreatedAt p -> hasCreatedAt q -> compareProducts p q = timeOf q - timeOf p.
Proof.
  unfold hasCreatedAt, compareProducts, timeOf.
  destruct (createdAt p), (createdAt q); congruence.
Qed.

(** C3, as amended.  The list rendered for a column holds exactly the
    products whose category ("Uncategorized" when empty or missing) is
    the name of the column and that pass the search and category
    filters.  When each of them has a [createdAt], the list is in
    descending order of [createdAt] and the products of equal [createdAt]
    stand in the order they have in the product list; the barcode takes
    no part in the order. *)
Theorem getProductsByCategory_column (b : Board) (cat : string) :
  Permutation (getProductsByCategory b cat) (columnProducts b cat)
  /\ (Forall hasCreatedAt (columnProducts b cat) ->
      StronglySorted (fun p q => timeOf q <= timeOf p)
                     (getProductsByCategory b cat)
      /\ forall t,
           filter (fun p => timeOf p =? t) (getProductsByCategory b cat)
           = filter (fun p => timeOf p =? t) (columnProducts b cat)).
Proof.
  unfold getProductsByCategory. rewrite column_filter.
  split; [apply sort_perm|].
  intros Hc. split.
  - apply (sort_sorted compareProducts timeOf hasCreatedAt
             compareProducts_created _ Hc).
  - intros t.
    apply (sort_filter_key compareProducts timeOf hasCreatedAt
             compareProducts_created t _ Hc).
Qed.

(** The amended C3 on two snacks created at the same time. *)
Lemma getProductsByCategory_column_witness :
  Forall hasCreatedAt
    (columnProducts (Sample.boardWith Sample.sameTime EmptyString)
       Sample.Snacks)
  /\ StronglySorted (fun p q => timeOf q <= timeOf p)
       (getProductsByCategory (Sample.boardWith Sample.sameTime EmptyString)
          Sample.Snacks).
Proof.
  assert (Hc : Forall hasCreatedAt
                 (columnProducts
                    (Sample.boardWith Sample.sameTime EmptyString)
                    Sample.Snacks)).
  { repeat constructor; discriminate. }
  split; [exact Hc|].
  exact (proj1 (proj2 (getProductsByCategory_column
                         (Sample.boardWith Sample.sameTime EmptyString)
                         Sample.Snacks) Hc)).
Defined.

(** C3 as it is written fails: of two snacks created at the same time the
    column shows first the one that is first in the product list, here
    the one with the greater barcode. *)
Lemma getProductsByCategory_ties_not_by_barcode :
  getProductsByCategory (Sample.boardWith Sample.sameTime EmptyString)
    Sample.Snacks
  = [Sample.snack "a" "222" (Some 100); Sample.snack "b" "111" (Some 100)]
  /\ Js.localeCompare "222" "111" = 1.
Proof. split; reflexivity. Qed.

(** ** Deleting a category *)

(** C8 at its failing input: the category "Snacks" holds two products,
    the search for "111" leaves one of them in the column, and the
    message that blocks the deletion names one product. *)
Lemma handleDeleteCategory_counts_the_column :
  let b := Sample.boardWith
             [Sample.snack "a" "111" (Some 1); Sample.snack "b" "222" (Some 2)]
             "111" in
  List.length
    (filter (fun p => String.eqb (categoryOf p) Sample.Snacks)
            (products (state b))) = 2%nat
  /\ handleDeleteCategory Sample.Snacks b
     = Done (perform
               (Alert "Cannot Delete" (cannotDeleteMessage 1 Sample.Snacks))
               b).
Proof. split; reflexivity. Qed.

(** Without a search and without a selected category the count of the
    message is the number of products of the category, and a category
    that holds a product is not deleted. *)
Lemma handleDeleteCategory_unfiltered (b : Board) (cat : string) :
  Js.trim (searchQuery (state b)) = EmptyString ->
  Js.truthy (selectedCategory (state b)) = false ->
  cat <> Uncategorized ->
  let held := filter (fun p => String.eqb (categoryOf p) cat)
                     (products (state b)) in
  held <> [] ->
  handleDeleteCategory cat b
  = Done (perform
            (Alert "Cannot Delete" (cannotDeleteMessage (List.length held) cat))
            b).
Proof.
  intros Hq Hs Hc held Hne. unfold handleDeleteCategory.
  destruct (String.eqb_spec cat Uncategorized) as [|_]; [contradiction|].
  assert (E : List.length (getProductsByCategory b cat) = List.length held).
  { apply Permutation_length.
    unfold getProductsByCategory. rewrite column_filter, sort_perm.
    unfold columnProducts, passesFilters, matchesSearch, matchesSelected.
    rewrite Hq.
    replace (filter _ (products (state b))) with held; [reflexivity|].
    subst held. apply filter_ext. intros p.
    destruct (selectedCategory (state b)) as [[|c r]|];
      try discriminate; now rewrite andb_true_r. }
  rewrite E.
  destruct held as [|p l]; [contradiction|]. reflexivity.
Qed.

(** ** Dropping a product on a category *)

(** [handleDragEnd] touches the drag state, the scroll bookkeeping and
    the scroll timer, and nothing else. *)
Lemma handleDragEnd_frame (b : Board) :
  let b' := handleDragEnd b in
  products (state b') = products (state b)
  /\ categories (state b') = categories (state b)
  /\ loading (state b') = loading (state b)
  /\ refreshing (state b') = refreshing (state b)
  /\ updating (state b') = updating (state b)
  /\ searchQuery (state b') = searchQuery (state b)
  /\ selectedCategory (state b') = selectedCategory (state b)
  /\ boardScrollRef (refs b') = boardScrollRef (refs b)
  /\ currentScrollXRef (refs b') = currentScrollXRef (refs b)
  /\ effects b' = effects b.
Proof.
  cbv zeta. unfold handleDragEnd, clearScrollTimeout. cbv zeta.
  match goal with
  | |- context [match scrollTimeoutRef (refs ?x) with _ => _ end] =>
      destruct (scrollTimeoutRef (refs x))
  end; cbn; repeat split; reflexivity.
Qed.

Lemma handleDragEnd_clears (b : Board) :
  let b' := handleDragEnd b in
  dragTargetCategory (state b') = None
  /\ draggedProduct (state b') = None
  /\ dragPosition (state b') = None
  /\ draggedProductTargetCategory (state b') = None.
Proof.
  cbv zeta. unfold handleDragEnd, clearScrollTimeout. cbv zeta.
  match goal with
  | |- context [match scrollTimeoutRef (refs ?x) with _ => _ end] =>
      destruct (scrollTimeoutRef (refs x))
  end; cbn; repeat split; reflexivity.
Qed.

Lemma products_setUpdating v (b : Board) :
  products (state (setUpdating v b)) = products (state b).
Proof. reflexivity. Qed.

(** C4.  A drop whose target category is the category of the product,
    "Uncategorized" standing for an empty or missing one, ends at once
    with [handleDragEnd]: whatever the backend would answer, no request
    is issued; the products, the categories and every other part of the
    board but the drag state are as before, and nothing is shown or
    scrolled. *)
Theorem handleProductDrop_same_category (product : SavedProduct)
    (newCategory : string) (b : Board) (net : Request -> Response)
    (press : bool) :
  categoryOf product = Js.orElse (Some newCategory) Uncategorized ->
  handleProductDrop product newCategory b = Done (handleDragEnd b)
  /\ complete net press (handleProductDrop product newCategory b)
     = (handleDragEnd b, [])
  /\ products (state (handleDragEnd b)) = products (state b)
  /\ categories (state (handleDragEnd b)) = categories (state b)
  /\ updating (state (handleDragEnd b)) = updating (state b)
  /\ effects (handleDragEnd b) = effects b
  /\ dragTargetCategory (state (handleDragEnd b)) = None
  /\ draggedProduct (state (handleDragEnd b)) = None.
Proof.
  intros E.
  assert (Hd : handleProductDrop product newCategory b = Done (handleDragEnd b)).
  { unfold handleProductDrop. cbv zeta. rewrite E, String.eqb_refl.
    reflexivity. }
  pose proof (handleDragEnd_frame b) as F. cbv zeta in F.
  pose proof (handleDragEnd_clears b) as C. cbv zeta in C.
  rewrite Hd. cbn [complete]. intuition.
Qed.

(** C4 on a product without a category dropped on "Uncategorized". *)
Lemma handleProductDrop_same_category_witness :
  categoryOf Sample.tea = Js.orElse (Some Uncategorized) Uncategorized
  /\ handleProductDrop Sample.tea Uncategorized Sample.teaBoard
     = Done (handleDragEnd Sample.teaBoard).
Proof.
  split; [reflexivity|].
  exact (proj1 (handleProductDrop_same_category Sample.tea Uncategorized
                  Sample.teaBoard Sample.offline false eq_refl)).
Defined.

(** C2, as amended.  A drop of a product that has an id on another
    category first issues the PATCH and suspends with the product list as
    it was.  The list shows the new category only once the PATCH has
    succeeded; when the PATCH fails the handler leaves the list as it is
    and asks the backend for the products again. *)
Theorem handleProductDrop_waits_for_patch (product : SavedProduct)
    (newCategory : string) (b : Board) (c : ascii) (r : string) :
  let target := Js.orElse (Some newCategory) Uncategorized in
  _id product = Some (String c r) ->
  categoryOf product <> target ->
  handleProductDrop product newCategory b
  = Await (UpdateProductCategory (String c r) target)
          (setUpdating (Some (String c r)) b) (afterPatch product target)
  /\ products (state (setUpdating (Some (String c r)) b))
     = products (state b)
  /\ (forall v b',
        products (state (boardOf (afterPatch product target (Resolved v) b')))
        = moveProduct product target (products (state b')))
  /\ (forall m b',
        exists k',
          afterPatch product target (Rejected m) b'
          = Await GetAllProducts
                  (boardOf (afterPatch product target (Rejected m) b')) k'
          /\ products
               (state (boardOf (afterPatch product target (Rejected m) b')))
             = products (state b')).
Proof.
  intros target Hid Hne. split; [|split; [|split]].
  - unfold handleProductDrop. cbv zeta. fold target. rewrite Hid.
    destruct (String.eqb_spec (categoryOf product) target) as [|_];
      [contradiction|reflexivity].
  - reflexivity.
  - intros v b'. reflexivity.
  - intros m b'. unfold afterPatch. cbv zeta. cbn [boardOf].
    eexists. split; [reflexivity|].
    rewrite products_setUpdating.
    match goal with
    | |- context [handleDragEnd ?x] =>
        pose proof (handleDragEnd_frame x) as F
    end.
    cbv zeta in F. destruct F as (F & _).
    rewrite F. reflexivity.
Qed.

(** The amended C2 on a product without a category dropped on "Snacks". *)
Lemma handleProductDrop_waits_for_patch_witness :
  _id Sample.tea = Some "p1"%string
  /\ categoryOf Sample.tea <> Js.orElse (Some Sample.Snacks) Uncategorized
  /\ handleProductDrop Sample.tea Sample.Snacks Sample.teaBoard
     = Await (UpdateProductCategory "p1" Sample.Snacks)
             (setUpdating (Some "p1"%string) Sample.teaBoard)
             (afterPatch Sample.tea Sample.Snacks).
Proof.
  split; [reflexivity|]. split; [discriminate|].
  exact (proj1 (handleProductDrop_waits_for_patch Sample.tea Sample.Snacks
                  Sample.teaBoard "p" "1" eq_refl ltac:(discriminate))).
Defined.

(** C2 as it is written fails: after the drop of a product without a
    category on "Snacks" the handler is suspended at the PATCH, and the
    product list of the board still shows the product as
    "Uncategorized"; with a backend that answers with errors the list
    shows it so when the handler has run to its end. *)
Lemma handleProductDrop_not_optimistic :
  (exists k b,
     handleProductDrop Sample.tea Sample.Snacks Sample.teaBoard
     = Await (UpdateProductCategory "p1" Sample.Snacks) b k
     /\ map categoryOf (products (state b)) = [Uncategorized])
  /\ map categoryOf
       (products
          (state
             (fst (complete Sample.offline false
                     (handleProductDrop Sample.tea Sample.Snacks
                        Sample.teaBoard)))))
     = [Uncategorized].
Proof.
  split; [|reflexivity].
  eexists. eexists. split; reflexivity.
Qed.

(** ** Fetching the categories *)

Lemma sortCategories_once (l : list string) :
  exists rest,
    sortCategories l = Uncategorized :: rest
    /\ ~ In Uncategorized rest.
Proof.
  unfold sortCategories, Js.arrayIncludes.
  destruct (existsb (String.eqb Uncategorized) l) eqn:E.
  - eexists. split; [reflexivity|].
    intros Hin. apply filter_In in Hin. destruct Hin as [_ Hne].
    rewrite String.eqb_refl in Hne. discriminate.
  - exists l. split; [reflexivity|].
    intros Hin.
    assert (existsb (String.eqb Uncategorized) l = true).
    { apply existsb_exists. exists Uncategorized.
      split; [assumption|apply String.eqb_refl]. }
    congruence.
Qed.

(** C10.  [fetchCategories] awaits [getAllCategories].  When the call
    fails, the categories of the board become exactly ["Uncategorized"],
    whatever they were.  When it succeeds, "Uncategorized" is the first
    category of the board and occurs once. *)
Theorem fetchCategories_outcomes (b : Board) :
  fetchCategories Done b = Await GetAllCategories b (afterCategories Done)
  /\ (forall message b',
        categories (state (boardOf (afterCategories Done (Rejected message) b')))
        = [Uncategorized])
  /\ (forall fetched b',
        exists rest,
          categories
            (state (boardOf (afterCategories Done
                               (Resolved (VCategories fetched)) b')))
          = Uncategorized :: rest
          /\ ~ In Uncategorized rest).
Proof.
  split; [reflexivity|]. split.
  - intros message b'. reflexivity.
  - intros fetched b'. cbn. apply sortCategories_once.
Qed.

(** ** Scanning *)

(** From the catalog fetch on, for the scanner and for the manual input:
    a check that throws goes on to the catalog fetch for the same code
    and shows nothing; a fetched product goes on to the save as
    "Uncategorized"; and when the save throws the handler ends with the
    fetched product on display, its category "Uncategorized", and one
    more alert, the warning. *)
Lemma scan_degrades (manual : bool) (code : string) :
  (forall message s,
     Scanner.afterCheck manual code (Scanner.Throws message) s
     = Scanner.AwaitFetch code
         (Scanner.setFlags true (Scanner.saving s) false s)
         (Scanner.afterFetch manual)
     /\ Scanner.alerts (Scanner.setFlags true (Scanner.saving s) false s)
        = Scanner.alerts s)
  /\ (forall p s,
        Scanner.afterFetch manual (Scanner.Resolves p) s
        = Scanner.AwaitSave p Uncategorized
            (Scanner.setFlags false true (Scanner.checking s) s)
            (Scanner.afterSave manual p))
  /\ (forall p message s,
        exists s',
          Scanner.afterSave manual p (Scanner.Throws message) s
          = Scanner.Done s'
          /\ Scanner.displayed s' = Some (withCategory p Uncategorized)
          /\ category (withCategory p Uncategorized) = Some Uncategorized
          /\ Scanner.alerts s'
             = Scanner.alerts s ++ [("Warning"%string, Scanner.saveWarning)]).
Proof.
  split; [|split].
  - intros message s. split; reflexivity.
  - intros p s. reflexivity.
  - intros p message s. eexists. split; [reflexivity|].
    destruct manual; repeat split; reflexivity.
Qed.

(** C9.  A barcode that the scanner accepts (nothing is under way and
    the code is made of digits) and a barcode entered by hand (not blank)
    both start with the backend check.  If the check throws, the handler
    goes on to the catalog fetch for the same code without an alert.  If
    the catalog answers and the save throws, the handler ends with the
    fetched product on display, its category "Uncategorized", and the
    warning alert. *)
Theorem scan_result_never_lost :
  (forall data s,
     Scanner.scanned s || Scanner.loading s || Scanner.saving s
       || Scanner.checking s = false ->
     Scanner.isBarcode data = true ->
     Scanner.handleBarCodeScanned data s
     = Scanner.AwaitCheck data (Scanner.begin true s)
         (Scanner.afterCheck false data)
     /\ (forall message s1,
           Scanner.afterCheck false data (Scanner.Throws message) s1
           = Scanner.AwaitFetch data
               (Scanner.setFlags true (Scanner.saving s1) false s1)
               (Scanner.afterFetch false)
           /\ Scanner.alerts
                (Scanner.setFlags true (Scanner.saving s1) false s1)
              = Scanner.alerts s1)
     /\ (forall p s2,
           Scanner.afterFetch false (Scanner.Resolves p) s2
           = Scanner.AwaitSave p Uncategorized
               (Scanner.setFlags false true (Scanner.checking s2) s2)
               (Scanner.afterSave false p))
     /\ (forall p message s3,
           exists s',
             Scanner.afterSave false p (Scanner.Throws message) s3
             = Scanner.Done s'
             /\ Scanner.displayed s' = Some (withCategory p Uncategorized)
             /\ category (withCategory p Uncategorized) = Some Uncategorized
             /\ Scanner.alerts s'
                = Scanner.alerts s3
                  ++ [("Warning"%string, Scanner.saveWarning)]))
  /\ (forall s,
        Js.trim (Scanner.manualBarcode s) <> EmptyString ->
        let code := Js.trim (Scanner.manualBarcode s) in
        Scanner.handleManualSubmit s
        = Scanner.AwaitCheck code (Scanner.begin false s)
            (Scanner.afterCheck true code)
        /\ (forall message s1,
              Scanner.afterCheck true code (Scanner.Throws message) s1
              = Scanner.AwaitFetch code
                  (Scanner.setFlags true (Scanner.saving s1) false s1)
                  (Scanner.afterFetch true)
              /\ Scanner.alerts
                   (Scanner.setFlags true (Scanner.saving s1) false s1)
                 = Scanner.alerts s1)
        /\ (forall p s2,
              Scanner.afterFetch true (Scanner.Resolves p) s2
              = Scanner.AwaitSave p Uncategorized
                  (Scanner.setFlags false true (Scanner.checking s2) s2)
                  (Scanner.afterSave true p))
        /\ (forall p message s3,
              exists s',
                Scanner.afterSave true p (Scanner.Throws message) s3
                = Scanner.Done s'
                /\ Scanner.displayed s' = Some (withCategory p Uncategorized)
                /\ category (withCategory p Uncategorized)
                   = Some Uncategorized
                /\ Scanner.alerts s'
                   = Scanner.alerts s3
                     ++ [("Warning"%string, Scanner.saveWarning)])).
Proof.
  split.
  - intros data s Hidle Hcode.
    split; [|exact (scan_degrades false data)].
    unfold Scanner.handleBarCodeScanned. rewrite Hidle, Hcode. reflexivity.
  - intros s Hcode code. subst code.
    split; [|exact (scan_degrades true _)].
    unfold Scanner.handleManualSubmit.
    destruct (Js.trim (Scanner.manualBarcode s)); [congruence|reflexivity].
Qed.

(** C9 on the barcode 8901012116340, scanned and entered by hand, with a
    backend that throws at the check and at the save. *)
Lemma scan_result_never_lost_witness :
  Scanner.isBarcode "8901012116340" = true
  /\ Js.trim (Scanner.manualBarcode Sample.idleScanner) <> EmptyString
  /\ Scanner.handleBarCodeScanned "8901012116340" Sample.idleScanner
     = Scanner.AwaitCheck "8901012116340"
         (Scanner.begin true Sample.idleScanner)
         (Scanner.afterCheck false "8901012116340")
  /\ Scanner.handleManualSubmit Sample.idleScanner
     = Scanner.AwaitCheck "8901012116340"
         (Scanner.begin false Sample.idleScanner)
         (Scanner.afterCheck true "8901012116340").
Proof.
  assert (Hm : Js.trim (Scanner.manualBarcode Sample.idleScanner)
               <> EmptyString) by (vm_compute; discriminate).
  split; [reflexivity|]. split; [exact Hm|]. split.
  - exact (proj1 (proj1 scan_result_never_lost "8901012116340"%string
                    Sample.idleScanner eq_refl eq_refl)).
  - exact (proj1 (proj2 scan_result_never_lost Sample.idleScanner Hm)).
Defined.

(** A run of the scanner to its end with a backend that throws at the
    check and at the save: the calls are the check, the fetch and the
    save, and the fetched product is on display as "Uncategorized". *)
Example scan_offline_backend :
  let services :=
    {| Scanner.getProductByBarcode := fun _ => Scanner.Throws None;
       Scanner.fetchProductByBarcode :=
         fun _ => Scanner.Resolves Sample.catalogTea;
       Scanner.saveProductToDatabase := fun _ _ => Scanner.Throws None |} in
  let (s, calls) :=
    Scanner.complete services
      (Scanner.handleBarCodeScanned "8901012116340" Sample.idleScanner) in
  calls = [Scanner.Check "8901012116340"; Scanner.Fetch "8901012116340";
           Scanner.Save Sample.catalogTea Uncategorized]
  /\ Scanner.displayed s = Some (withCategory Sample.catalogTea Uncategorized)
  /\ Scanner.alerts s = [("Warning"%string, Scanner.saveWarning)].
Proof. vm_compute. repeat split; reflexivity. Qed.

(** ** The end of a drag *)

Lemma handleDragClear_clearedDrag (b : Board) : clearedDrag (handleDragClear b).
Proof. repeat split; reflexivity. Qed.

Lemma handleDragEnd_clearedDrag (b : Board) : clearedDrag (handleDragEnd b).
Proof.
  pose proof (handleDragEnd_clears b) as C. cbv zeta in C.
  unfold clearedDrag. tauto.
Qed.

Lemma setUpdating_clearedDrag v (b : Board) :
  clearedDrag b -> clearedDrag (setUpdating v b).
Proof. intros C. exact C. Qed.

Lemma Keeps_fetchCategories (k : Board -> Async) (b : Board) :
  (forall b', (clearedDrag b' -> clearedDrag (boardOf (k b'))) /\ Keeps (k b')) ->
  Keeps (fetchCategories k b).
Proof.
  intros Hk resp b'. unfold afterCategories.
  destruct resp as [[| |]|];
    match goal with
    | |- context [k ?x] => destruct (Hk x) as [H1 H2]
    end; (split; [intros C; apply H1; exact C|exact H2]).
Qed.

Lemma Keeps_afterPatch (product : SavedProduct) (target : string) :
  forall resp b,
    (clearedDrag b -> clearedDrag (boardOf (afterPatch product target resp b)))
    /\ Keeps (afterPatch product target resp b).
Proof.
  intros resp b. destruct resp as [v|m]; unfold afterPatch; cbv zeta.
  - split; [intros C; exact C|].
    apply Keeps_fetchCategories. intros b'. split; [|exact I].
    intros _. cbn [boardOf]. apply setUpdating_clearedDrag.
    apply handleDragEnd_clearedDrag.
  - split.
    + intros _. cbn [boardOf]. apply setUpdating_clearedDrag.
      apply handleDragEnd_clearedDrag.
    + intros resp b'. split; [|exact I].
      intros C. unfold fetchProductsResume.
      destruct resp as [[| |]|]; exact C.
Qed.

(** Whatever the drop does, it leaves a board without a drag that way,
    now and when its requests are answered. *)
Lemma handleProductDrop_keeps (product : SavedProduct) (cat : string)
    (b : Board) :
  (clearedDrag b -> clearedDrag (boardOf (handleProductDrop product cat b)))
  /\ Keeps (handleProductDrop product cat b).
Proof.
  unfold handleProductDrop. cbv zeta.
  destruct (String.eqb _ _).
  - split; [|exact I]. intros _. apply handleDragEnd_clearedDrag.
  - destruct (_id product) as [[|c r]|].
    + split; [|exact I]. intros _. cbn [boardOf].
      apply setUpdating_clearedDrag. apply handleDragEnd_clearedDrag.
    + split; [intros C; exact C|]. intros resp b'. apply Keeps_afterPatch.
    + split; [|exact I]. intros _. cbn [boardOf].
      apply setUpdating_clearedDrag. apply handleDragEnd_clearedDrag.
Qed.

Section Gesture.
Context `{Window}.
Variable product : SavedProduct.
Variable categoryIndex : Z.

Lemma scrollBasedOnScreenPosition_state now X idx (b : Board) :
  state (scrollBasedOnScreenPosition now X idx b) = state b.
Proof.
  destruct (scrollBasedOnScreenPosition_cases now X idx b)
    as [[_ ->]|(t & d & _ & _ & _ & E & _)]; [reflexivity|exact E].
Qed.

Lemma fireTimer_state now id (b b' : Board) :
  fireTimer now id b = Some b' -> state b' = state b.
Proof.
  unfold fireTimer. destruct (findTimer id b) as [tm|]; [|discriminate].
  destruct (due tm <=? now); [|discriminate]. intros [= <-].
  destruct (callback tm); cbn [runCallback]; [reflexivity|].
  destruct (negb _); [|reflexivity].
  destruct (_ || _); [|reflexivity].
  rewrite scrollBasedOnScreenPosition_state. reflexivity.
Qed.

(** [handleDragOver] and the reaction leave the gesture flags and the
    transform of the card alone; on a card that is not dragging the
    reaction leaves the target and the board alone as well. *)
Lemma handleDragOver_card now x (s : Session) :
  let s' := handleDragOver categoryIndex now x s in
  isDragging (card s') = isDragging (card s)
  /\ dragEnabled (card s') = dragEnabled (card s)
  /\ dragging (card s') = dragging (card s)
  /\ readyToDrag (card s') = readyToDrag (card s)
  /\ translateX (card s') = translateX (card s)
  /\ translateY (card s') = translateY (card s)
  /\ scale (card s') = scale (card s)
  /\ opacity (card s') = opacity (card s)
  /\ panActive s' = panActive s
  /\ longPressActive s' = longPressActive s
  /\ inflight s' = inflight s.
Proof.
  cbv zeta. unfold handleDragOver.
  destruct (handleDragOverColumn now x categoryIndex (board s)) as [b' nc].
  cbn. repeat split; reflexivity.
Qed.

Lemma reaction_card now (s : Session) :
  let s' := reaction categoryIndex now s in
  isDragging (card s') = isDragging (card s)
  /\ dragEnabled (card s') = dragEnabled (card s)
  /\ dragging (card s') = dragging (card s)
  /\ readyToDrag (card s') = readyToDrag (card s)
  /\ translateX (card s') = translateX (card s)
  /\ translateY (card s') = translateY (card s)
  /\ scale (card s') = scale (card s)
  /\ opacity (card s') = opacity (card s)
  /\ panActive s' = panActive s
  /\ longPressActive s' = longPressActive s
  /\ inflight s' = inflight s
  /\ (isDragging (card s) = false ->
      targetCategoryRef (card s') = targetCategoryRef (card s)
      /\ targetCategory (card s') = targetCategory (card s)
      /\ board s' = board s).
Proof.
  cbv zeta. unfold reaction. cbv zeta.
  destruct (samePrepared _ _); [repeat split; reflexivity|].
  unfold prepared.
  destruct (isDragging (card s)) eqn:Ed; cbn [negb orb];
    [|cbn; repeat split; reflexivity].
  destruct (dragEnabled (card s)) eqn:Ee; cbn [negb];
    [|cbn; repeat split; try reflexivity; discriminate].
  destruct (frameCounter (card s) + 1 >=? 3).
  - match goal with
    | |- context [handleDragOver _ _ _ ?t] =>
        pose proof (handleDragOver_card now (dragAbsoluteX (card s)) t) as F
    end.
    cbv zeta in F. cbn [card withCard isDragging dragEnabled dragging
                        readyToDrag translateX translateY scale opacity
                        panActive longPressActive inflight] in F.
    destruct F as (F1 & F2 & F3 & F4 & F5 & F6 & F7 & F8 & F9 & F10 & F11).
    repeat split; try assumption; discriminate.
  - cbn. repeat split; try assumption; try reflexivity; discriminate.
Qed.

Ltac fields :=
  cbn [card board panActive longPressActive inflight withCard withBoard
       setPanActive setLongPressActive started released
       isDragging dragEnabled dragging readyToDrag translateX translateY
       scale opacity targetCategoryRef targetCategory] in *.

Lemma Keeps_board r b b' k : Keeps (Await r b k) -> Keeps (Await r b' k).
Proof. intros K. exact K. Qed.

Lemma Forall_Keeps_board (b b' : Board) l :
  Forall (fun rk => Keeps (Await (fst rk) b (snd rk))) l ->
  Forall (fun rk => Keeps (Await (fst rk) b' (snd rk))) l.
Proof. intros F. exact F. Qed.

Lemma Settled_reaction now (s : Session) :
  Settled s -> Settled (reaction categoryIndex now s).
Proof.
  intros (I1 & I2 & I3 & I4).
  pose proof (reaction_card now s) as R. cbv zeta in R.
  destruct R as (R1 & R2 & R3 & R4 & R5 & R6 & R7 & R8 & R9 & R10 & R11 & R12).
  unfold Settled. rewrite R1, R2, R3, R4, R5, R6, R7, R8, R9, R10, R11.
  split; [exact I1|]. split; [|split].
  - intros Hd. destruct (R12 Hd) as (T1 & T2 & T3).
    rewrite T1, T2, T3. exact (I2 Hd).
  - exact I3.
  - apply (Forall_Keeps_board (board s)). exact I4.
Qed.

(** A board handler that leaves the state of the board alone. *)
Lemma Settled_sameState (s : Session) (b' : Board) :
  state b' = state (board s) -> Settled s -> Settled (withBoard b' s).
Proof.
  intros E (I1 & I2 & I3 & I4). unfold Settled, clearedDrag. fields.
  rewrite E. split; [exact I1|]. split; [exact I2|]. split; [exact I3|].
  apply (Forall_Keeps_board (board s)). exact I4.
Qed.

Lemma Settled_longPressOnStart (s : Session) :
  Settled s -> Settled (longPressOnStart (setLongPressActive true s)).
Proof.
  intros (I1 & I2 & I3 & I4). unfold Settled, longPressOnStart. fields.
  split; [exact I1|]. split; [exact I2|]. split; [discriminate|].
  apply (Forall_Keeps_board (board s)). exact I4.
Qed.

Lemma Settled_longPressOnEnd (s : Session) :
  Settled s -> Settled (longPressOnEnd (setLongPressActive false s)).
Proof.
  intros (I1 & I2 & I3 & I4). unfold Settled, longPressOnEnd. fields.
  destruct (isDragging (card s)) eqn:Ed; cbn [negb]; fields;
    rewrite ?Ed in *.
  - split; [exact I1|]. split; [discriminate|].
    split; [discriminate|].
    apply (Forall_Keeps_board (board s)). exact I4.
  - split; [exact I1|]. split; [exact I2|].
    split; [auto|].
    apply (Forall_Keeps_board (board s)). exact I4.
Qed.

Lemma Settled_panOnStart now e (s : Session) :
  panActive s = false ->
  Settled s -> Settled (panOnStart product categoryIndex now e
                          (setPanActive true s)).
Proof.
  intros Hp (I1 & I2 & I3 & I4). unfold panOnStart. cbv zeta. fields.
  destruct (dragEnabled (card s)) eqn:Ee; cbn [negb].
  - match goal with
    | |- Settled (withBoard _ (handleDragOver _ _ _ ?t)) =>
        pose proof (handleDragOver_card now (absoluteX e) t) as F;
        set (s1 := handleDragOver categoryIndex now (absoluteX e) t) in *
    end.
    cbv zeta in F. fields.
    destruct F as (F1 & F2 & F3 & F4 & F5 & F6 & F7 & F8 & F9 & F10 & F11).
    unfold Settled. fields. rewrite F1, F9, F11.
    split; [reflexivity|]. split; [discriminate|]. split; [discriminate|].
    apply (Forall_Keeps_board (board s)). exact I4.
  - unfold Settled. fields. rewrite ?Ee in *.
    split; [reflexivity|]. split; [exact I2|]. split; [exact I3|].
    apply (Forall_Keeps_board (board s)). exact I4.
Qed.

Lemma Settled_panOnUpdate e (s : Session) :
  Settled s -> Settled (panOnUpdate e s).
Proof.
  intros HS. unfold panOnUpdate. cbv zeta.
  destruct (isDragging (card s)) eqn:Ed; cbn [negb orb]; [|exact HS].
  destruct (dragEnabled (card s)) eqn:Ee; cbn [negb]; [|exact HS].
  destruct HS as (I1 & I2 & I3 & I4).
  unfold Settled. fields.
  split; [intros _; apply I1; exact Ed|].
  split; [intros Hx; congruence|].
  split; [intros Hx; congruence|].
  apply (Forall_Keeps_board (board s)). exact I4.
Qed.

(** The pan ends on a card that is dragging: [onEnd] clears the card and
    the board, whether or not a target is set. *)
Lemma panOnEnd_clears (s : Session) :
  isDragging (card s) = true ->
  Forall (fun rk => Keeps (Await (fst rk) (board s) (snd rk))) (inflight s) ->
  let s' := panOnEnd product s in
  sessionCleared s'
  /\ panActive s' = panActive s
  /\ longPressActive s' = longPressActive s
  /\ Forall (fun rk => Keeps (Await (fst rk) (board s') (snd rk)))
            (inflight s').
Proof.
  intros Hd I4. cbv zeta. unfold panOnEnd. rewrite Hd. cbn [negb]. cbv zeta.
  unfold handleDrop. fields.
  destruct (targetCategoryRef (card s)) as [[|c r]|].
  - unfold sessionCleared, neutral. fields.
    repeat split; try reflexivity; try apply handleDragEnd_clearedDrag.
    apply (Forall_Keeps_board (board s)). exact I4.
  - destruct (handleProductDrop_keeps product (String c r)
                (handleDragClear (board s))) as [K1 K2].
    specialize (K1 (handleDragClear_clearedDrag (board s))).
    set (a := handleProductDrop product (String c r)
                (handleDragClear (board s))) in *.
    unfold sessionCleared, neutral. fields.
    repeat split; try reflexivity; try apply K1.
    apply Forall_app. split.
    + apply (Forall_Keeps_board (board s)). exact I4.
    + destruct a; [constructor|constructor; [exact K2|constructor]
                   |constructor].
  - unfold sessionCleared, neutral. fields.
    repeat split; try reflexivity; try apply handleDragEnd_clearedDrag.
    apply (Forall_Keeps_board (board s)). exact I4.
Qed.

Lemma sessionCleared_Settled (s : Session) :
  sessionCleared s ->
  Forall (fun rk => Keeps (Await (fst rk) (board s) (snd rk))) (inflight s) ->
  Settled s.
Proof.
  intros (C1 & C2 & C3 & C4 & C5 & C6 & (N1 & N2 & N3 & N4) & C7) I4.
  unfold Settled. rewrite C1.
  split; [discriminate|]. split; [tauto|]. split; [tauto|exact I4].
Qed.

Lemma panOnFinalize_idle (s : Session) :
  isDragging (card s) = false -> panOnFinalize s = s.
Proof. intros E. unfold panOnFinalize. now rewrite E. Qed.

Lemma Settled_panEnd (s : Session) :
  Settled s ->
  Settled (panOnFinalize (panOnEnd product (setPanActive false s))).
Proof.
  intros (I1 & I2 & I3 & I4).
  destruct (isDragging (card s)) eqn:Ed.
  - destruct (panOnEnd_clears (setPanActive false s) Ed I4)
      as (C & _ & _ & K).
    rewrite panOnFinalize_idle by apply C.
    apply sessionCleared_Settled; assumption.
  - assert (E : panOnEnd product (setPanActive false s) = setPanActive false s).
    { unfold panOnEnd. fields. now rewrite Ed. }
    rewrite E, panOnFinalize_idle by exact Ed.
    unfold Settled. fields. rewrite Ed.
    split; [discriminate|]. split; [exact I2|]. split; [exact I3|].
    apply (Forall_Keeps_board (board s)). exact I4.
Qed.

Lemma Settled_settles resp r k rest (s : Session) :
  inflight s = (r, k) :: rest ->
  Settled s ->
  Settled (started (k resp (board s))
             {| card := card s; board := board s; panActive := panActive s;
                longPressActive := longPressActive s; inflight := rest |}).
Proof.
  intros Ei (I1 & I2 & I3 & I4). rewrite Ei in I4.
  inversion I4 as [|? ? K Krest]; subst. cbn [fst snd] in K.
  destruct (K resp (board s)) as [K1 K2].
  unfold Settled, started. fields.
  split; [exact I1|]. split; [|split; [exact I3|]].
  - intros Hd. destruct (I2 Hd) as (A1 & A2 & A3 & A4 & A5 & A6 & A7).
    repeat split; try assumption; apply K1; exact A7.
  - apply Forall_app. split.
    + apply (Forall_Keeps_board (board s)). exact Krest.
    + destruct (k resp (board s));
        [constructor|constructor; [exact K2|constructor]|constructor].
Qed.

(** Every event keeps the session settled. *)
Lemma Settled_step now ev (s s' : Session) :
  Settled s -> step product categoryIndex now ev s = Some s' -> Settled s'.
Proof.
  intros HS. destruct ev; cbn [step].
  - destruct (negb (isUpdating product s) && negb (longPressActive s));
      [|discriminate].
    intros [= <-]. apply Settled_reaction, Settled_longPressOnStart, HS.
  - destruct (longPressActive s); [|discriminate].
    intros [= <-]. apply Settled_reaction, Settled_longPressOnEnd, HS.
  - destruct (isUpdating product s); [discriminate|].
    destruct (panActive s) eqn:Ep; [discriminate|]. cbn [negb andb].
    intros [= <-]. apply Settled_reaction, Settled_panOnStart; assumption.
  - destruct (panActive s); [|discriminate].
    intros [= <-]. apply Settled_reaction, Settled_panOnUpdate, HS.
  - destruct (panActive s); [|discriminate].
    intros [= <-]. apply Settled_reaction, Settled_panEnd, HS.
  - destruct (panActive s) eqn:Ep; [discriminate|]. cbn [negb].
    intros [= <-]. apply Settled_reaction.
    rewrite panOnFinalize_idle; [exact HS|].
    destruct HS as (I1 & _). destruct (isDragging (card s)); [|reflexivity].
    rewrite I1 in Ep by reflexivity. discriminate.
  - destruct (fireTimer now id (board s)) as [b'|] eqn:Ef; [|discriminate].
    intros [= <-]. apply Settled_sameState; [|exact HS].
    eapply fireTimer_state; eassumption.
  - intros [= <-]. apply Settled_sameState; [reflexivity|exact HS].
  - destruct (inflight s) as [|[r k] rest] eqn:Ei; [discriminate|].
    intros [= <-]. eapply Settled_settles; eassumption.
Qed.

Lemma Settled_run evs :
  forall s s', Settled s -> run product categoryIndex evs s = Some s' ->
               Settled s'.
Proof.
  induction evs as [|[now ev] evs IH]; intros s s' HS; cbn [run].
  - intros [= <-]. exact HS.
  - destruct (step product categoryIndex now ev s) as [s1|] eqn:Es;
      [|discriminate].
    apply IH. eapply Settled_step; eassumption.
Qed.

Lemma mounted_Settled (s : Session) : mounted s -> Settled s.
Proof.
  intros (Ec & Ep & El & Ei & Cb). unfold Settled. rewrite Ec, Ei.
  cbn. repeat split; try discriminate; try reflexivity; try apply Cb.
  constructor.
Qed.

(** [onFinalize] taken alone on a card that is dragging puts the card
    back and clears the dragged product of the board, and leaves the
    target of the card as it is.  Under the contract of the gesture
    handlers it does not run on such a card: [onEnd] has run before it
    and the card is no longer dragging. *)
Lemma panOnFinalize_dragging (s : Session) :
  isDragging (card s) = true ->
  let s' := panOnFinalize s in
  isDragging (card s') = false
  /\ dragEnabled (card s') = false
  /\ neutral (card s')
  /\ clearedDrag (board s')
  /\ targetCategoryRef (card s') = targetCategoryRef (card s).
Proof.
  intros Hd. cbv zeta. unfold panOnFinalize. rewrite Hd. cbv zeta.
  unfold neutral. fields.
  repeat split; try reflexivity; apply handleDragClear_clearedDrag.
Qed.

(** C7.  The gesture system ends an active pan, whether the finger is
    lifted or the gesture is cancelled or interrupted, by [onEnd] followed
    by [onFinalize], and ends a long press by its [onEnd].  On a card that
    is dragging the end of the pan clears the session at once, with or
    without a target: the dragging and armed flags are down, the target
    category is null, the transform is neutral (translation 0, scale 1,
    opacity 1) and the board shows no dragged product, no drag position
    and no target for it.  And in every state that a card mounted on such
    a board reaches by any sequence of gesture, timer, scroll and backend
    events, once neither gesture is active the session is cleared. *)
Theorem gesture_end_clears_session :
  (forall now (s s' : Session),
     isDragging (card s) = true ->
     step product categoryIndex now PanEnd s = Some s' ->
     sessionCleared s' /\ panActive s' = false)
  /\ (forall evs (s0 s : Session),
        mounted s0 ->
        run product categoryIndex evs s0 = Some s ->
        panActive s = false ->
        longPressActive s = false ->
        sessionCleared s).
Proof.
  split.
  - intros now s s' Hd. cbn [step].
    destruct (panActive s); [|discriminate]. intros [= <-].
    pose proof (reaction_card now
                  (panOnFinalize
                     (panOnEnd product (setPanActive false s)))) as R.
    cbv zeta in R.
    destruct R as (R1 & R2 & R3 & R4 & R5 & R6 & R7 & R8 & R9 & _ & _ & R12).
    assert (C : sessionCleared (panOnEnd product (setPanActive false s))
                /\ panActive (panOnEnd product (setPanActive false s)) = false).
    { unfold panOnEnd. fields. rewrite Hd. cbn [negb]. cbv zeta.
      unfold handleDrop. fields.
      destruct (targetCategoryRef (card s)) as [[|c r]|];
        unfold sessionCleared, neutral; fields;
        repeat split; try reflexivity;
        try apply handleDragEnd_clearedDrag;
        apply (proj1 (handleProductDrop_keeps product (String c r)
                        (handleDragClear (board s))));
        apply handleDragClear_clearedDrag. }
    destruct C as [C Cp].
    rewrite panOnFinalize_idle in * by apply C.
    destruct C as (C1 & C2 & C3 & C4 & C5 & C6 & (N1 & N2 & N3 & N4) & C7).
    destruct (R12 C1) as (T1 & T2 & T3).
    unfold sessionCleared, neutral.
    rewrite R1, R2, R3, R4, R5, R6, R7, R8, R9, T1, T2, T3.
    repeat split; try assumption; apply C7.
  - intros evs s0 s Hm Hrun Hp Hl.
    destruct (Settled_run evs s0 s (mounted_Settled s0 Hm) Hrun)
      as (I1 & I2 & I3 & _).
    assert (Hd : isDragging (card s) = false).
    { destruct (isDragging (card s)); [|reflexivity].
      rewrite I1 in Hp by reflexivity. discriminate. }
    destruct (I2 Hd) as (A1 & A2 & A3 & A4 & A5 & A6 & A7).
    destruct (I3 Hd Hl) as (B1 & B2 & B3).
    unfold sessionCleared, neutral. repeat split; try assumption; apply A7.
Qed.

End Gesture.

(** C7 on the tablet: after [Sample.dragToSnacks] the session of the card
    is cleared. *)
Lemma gesture_end_clears_session_witness :
  mounted Sample.restingCard
  /\ exists s,
       @run Sample.tablet Sample.tea 0 Sample.dragToSnacks Sample.restingCard
       = Some s
       /\ panActive s = false
       /\ longPressActive s = false
       /\ sessionCleared s.
Proof.
  assert (Hm : mounted Sample.restingCard) by (repeat split; reflexivity).
  split; [exact Hm|].
  destruct (@run Sample.tablet Sample.tea 0 Sample.dragToSnacks
              Sample.restingCard) as [s|] eqn:E;
    [|vm_compute in E; discriminate].
  assert (E' := E). vm_compute in E'. injection E' as Es.
  assert (Hp : panActive s = false) by (rewrite <- Es; reflexivity).
  assert (Hl : longPressActive s = false) by (rewrite <- Es; reflexivity).
  exists s. split; [reflexivity|]. split; [exact Hp|]. split; [exact Hl|].
  exact (proj2 (@gesture_end_clears_session Sample.tablet Sample.tea 0)
           Sample.dragToSnacks Sample.restingCard s Hm E Hp Hl).
Defined.

(** * Further properties *)

(** ** The resolver on the whole board *)

Section Geometry.
Context `{Window}.

Lemma COLUMN_WIDTH_cases :
  COLUMN_WIDTH = 260%Q \/ COLUMN_WIDTH = 300%Q \/ COLUMN_WIDTH = 320%Q.
Proof.
  unfold COLUMN_WIDTH. destruct Theme.isSmallDevice; [auto|].
  destruct Theme.isTablet; auto.
Qed.

Lemma columnSpacing_pos : (0 < columnSpacing)%Q.
Proof.
  unfold columnSpacing, Theme.spacing_sm.
  destruct COLUMN_WIDTH_cases as [-> | [-> | ->]]; reflexivity.
Qed.

Lemma tolerance_nonneg : (0 <= tolerance)%Q.
Proof.
  unfold tolerance.
  destruct COLUMN_WIDTH_cases as [-> | [-> | ->]]; discriminate.
Qed.

Lemma scanColumns_range (scrollX X : Q) (n : nat) :
  forall (i : Z) (s : Scan),
    0 <= i ->
    -1 <= closestColumnIndex s < i ->
    -1 <= closestColumnIndex (scanColumns scrollX X n i s) < i + Z.of_nat n.
Proof.
  induction n as [|n IH]; intros i s Hi Hs; [simpl; lia|].
  cbn [scanColumns]. destruct (inWidenedSpan scrollX X i); [cbn; lia|].
  match goal with
  | |- context [scanColumns _ _ n (i + 1) ?t] =>
      specialize (IH (i + 1) t ltac:(lia))
  end.
  replace (i + Z.of_nat (S n)) with (i + 1 + Z.of_nat n) by lia.
  apply IH.
  destruct (closestColumnIndex s =? -1); [|lia].
  destruct (minDistance s) as [m|]; [destruct (Js.ltb _ m)|]; cbn; lia.
Qed.

Lemma scanColumns_found (scrollX X : Q) (n : nat) :
  forall (i : Z) (s : Scan),
    0 <= i -> 0 <= closestColumnIndex s ->
    0 <= closestColumnIndex (scanColumns scrollX X n i s).
Proof.
  induction n as [|n IH]; intros i s Hi Hs; [exact Hs|].
  cbn [scanColumns]. destruct (inWidenedSpan scrollX X i); [exact Hi|].
  apply IH; [lia|].
  destruct (closestColumnIndex s =? -1) eqn:E; [|exact Hs].
  apply Z.eqb_eq in E. lia.
Qed.

(** X1.  On a board that shows at least one column the loop of
    [handleDragOverColumn] always settles on an index of the board; on a
    board that shows none it leaves [-1]. *)
Theorem columnUnderPointer_on_board (b : Board) (X : Q) :
  (0 < visibleCount b -> 0 <= columnUnderPointer X b < visibleCount b)
  /\ (visibleCount b = 0 -> columnUnderPointer X b = -1).
Proof.
  unfold columnUnderPointer, scanBoard, visibleCount.
  destruct (List.length (getFilteredCategories b)) as [|n].
  - split; [intros Hn; simpl in Hn; lia|reflexivity].
  - split; [intros _|intros Hn; lia].
    pose proof (scanColumns_range (currentScrollXRef (refs b)) X (S n) 0
                  scanStart ltac:(lia) ltac:(cbn; lia)) as Hr.
    split; [|lia].
    cbn [scanColumns].
    destruct (inWidenedSpan (currentScrollXRef (refs b)) X 0); [cbn; lia|].
    cbn [scanStart closestColumnIndex minDistance Z.eqb Pos.eqb].
    apply scanColumns_found; cbn; lia.
Qed.

Lemma columnStartOnScreen_next (scrollX : Q) (i j : Z) :
  j < i ->
  (columnEndOnScreen scrollX j <= columnStartOnScreen scrollX i)%Q.
Proof.
  intros Hji. unfold columnEndOnScreen, columnStartOnScreen.
  assert (Hq : (inject_Z j + 1 <= inject_Z i)%Q).
  { assert (E : (inject_Z (j + 1) <= inject_Z i)%Q)
      by (rewrite <- Zle_Qle; lia).
    rewrite inject_Z_plus in E. exact E. }
  pose proof columnSpacing_pos as Hp.
  assert (Hm : ((inject_Z j + 1) * columnSpacing
                <= inject_Z i * columnSpacing)%Q)
    by (apply Qmult_le_compat_r; [exact Hq|apply Qlt_le_weak; exact Hp]).
  lra.
Qed.

(** X2.  The part of the screen that answers column [i]: for the first
    column its whole widened span; for every other column [i] of the
    board the pointer positions more than half a column width to the
    right of the start of the column, up to half a column width beyond
    its end. *)
Theorem columnUnderPointer_region (b : Board) (X : Q) (i : Z) :
  let scrollX := currentScrollXRef (refs b) in
  0 <= i < visibleCount b ->
  (i = 0 /\ (columnStartOnScreen scrollX 0 - tolerance <= X)%Q
   \/ 0 < i /\ (columnStartOnScreen scrollX i + tolerance < X)%Q) ->
  (X <= columnEndOnScreen scrollX i + tolerance)%Q ->
  columnUnderPointer X b = i.
Proof.
  intros scrollX Hi Hleft Hright.
  pose proof tolerance_nonneg as Ht.
  unfold columnUnderPointer, scanBoard. unfold visibleCount in Hi.
  fold scrollX.
  rewrite (scanColumns_first_hit _ _ _ 0 scanStart (Z.to_nat i)).
  - lia.
  - lia.
  - replace (0 + Z.of_nat (Z.to_nat i)) with i by lia.
    unfold inWidenedSpan. rewrite andb_true_iff, !leb_le.
    split; [|exact Hright].
    destruct Hleft as [[-> Hl]|[_ Hl]]; [exact Hl|lra].
  - intros j Hj.
    replace (0 + Z.of_nat j) with (Z.of_nat j) by lia.
    destruct Hleft as [[-> _]|[_ Hl]]; [lia|].
    pose proof (columnStartOnScreen_next scrollX i (Z.of_nat j) ltac:(lia))
      as Hn.
    unfold inWidenedSpan.
    destruct (Js.leb X (columnEndOnScreen scrollX (Z.of_nat j) + tolerance))
      eqn:E; [|apply andb_false_r].
    apply leb_le in E. lra.
Qed.

End Geometry.

(** X2 on a phone: at offset 0 the pointer at 485 is more than half a
    column width into column 1, which starts at 332. *)
Lemma columnUnderPointer_region_witness :
  0 <= 1 < visibleCount Sample.twoColumns
  /\ @columnUnderPointer Sample.phone 485 Sample.twoColumns = 1.
Proof.
  split; [vm_compute; split; [discriminate|reflexivity]|].
  apply (@columnUnderPointer_region Sample.phone Sample.twoColumns 485 1).
  - vm_compute. split; [discriminate|reflexivity].
  - right. split; [lia|vm_compute; reflexivity].
  - vm_compute. discriminate.
Defined.

(** X1 on a phone with two columns. *)
Lemma columnUnderPointer_on_board_witness :
  0 < visibleCount Sample.twoColumns
  /\ 0 <= @columnUnderPointer Sample.phone 900 Sample.twoColumns
     < visibleCount Sample.twoColumns.
Proof.
  assert (Hn : 0 < visibleCount Sample.twoColumns) by reflexivity.
  split; [exact Hn|].
  exact (proj1 (@columnUnderPointer_on_board Sample.phone Sample.twoColumns
                  900) Hn).
Defined.

(** ** Scrolling to a column *)

Section ScrollTo.
Context `{Window}.

Lemma centredOffset_nonneg (i : Z) : (0 <= centredOffset i)%Q.
Proof. unfold centredOffset. apply Q.le_max_l. Qed.

Lemma scrollToCategory_scrolls (i : Z) (b : Board) :
  boardScrollRef (refs b) = true -> 0 <= i < visibleCount b ->
  scrollToCategory i b
  = setCurrentScrollXRef (centredOffset i)
      (perform (ScrollTo (centredOffset i)) b).
Proof.
  intros Hm [Hlo Hhi]. unfold scrollToCategory. rewrite Hm.
  destruct (i <? 0) eqn:E1; [apply Z.ltb_lt in E1; lia|].
  destruct (i >=? visibleCount b) eqn:E2;
    [rewrite Z.geb_leb in E2; apply Z.leb_le in E2; lia|].
  reflexivity.
Qed.

(** X3.  [scrollToCategory] does nothing when the scroll view is not
    mounted or the index is not a column of the board.  Otherwise it
    scrolls once, to the offset that centres the column or to 0 when that
    offset would be negative, records the same offset as the position of
    the board, and touches neither the state nor the timers. *)
Theorem scrollToCategory_effect (i : Z) (b : Board) :
  (boardScrollRef (refs b) = false \/ i < 0 \/ visibleCount b <= i ->
   scrollToCategory i b = b)
  /\ (boardScrollRef (refs b) = true -> 0 <= i < visibleCount b ->
      effects (scrollToCategory i b)
      = effects b ++ [ScrollTo (centredOffset i)]
      /\ currentScrollXRef (refs (scrollToCategory i b)) = centredOffset i
      /\ (0 <= currentScrollXRef (refs (scrollToCategory i b)))%Q
      /\ state (scrollToCategory i b) = state b
      /\ timers (scrollToCategory i b) = timers b).
Proof.
  unfold scrollToCategory. split.
  - intros [Hm|[Hi|Hi]].
    + rewrite Hm. reflexivity.
    + apply Z.ltb_lt in Hi. rewrite Hi, orb_true_r. reflexivity.
    + apply Z.geb_le in Hi. rewrite Hi, orb_true_r. reflexivity.
  - intros Hm Hi. fold (scrollToCategory i b).
    rewrite (scrollToCategory_scrolls i b Hm Hi).
    cbn. repeat split; try reflexivity. apply centredOffset_nonneg.
Qed.

Lemma half_spacing :
  (Theme.spacing_sm + COLUMN_WIDTH / 2 == columnSpacing / 2)%Q.
Proof.
  unfold columnSpacing, Theme.spacing_sm.
  destruct COLUMN_WIDTH_cases as [-> | [-> | ->]]; reflexivity.
Qed.

(** The centre of the screen, in the content of the board scrolled to
    the offset that centres column [i], lies at or beyond the middle of
    the column; at the middle when the offset is not cut at 0. *)
Lemma centred_ratio (i : Z) :
  let x := ((centredOffset i + screenCenter - boardPadding) / columnSpacing)%Q in
  (inject_Z i + (1 # 2) <= x)%Q
  /\ ((screenCenter
       <= boardPadding + inject_Z i * columnSpacing + Theme.spacing_sm
          + COLUMN_WIDTH / 2)%Q ->
      (x == inject_Z i + (1 # 2))%Q).
Proof.
  cbv zeta. pose proof columnSpacing_pos as Hp. pose proof half_spacing as Hh.
  set (t := (boardPadding + inject_Z i * columnSpacing + Theme.spacing_sm
             + COLUMN_WIDTH / 2 - screenCenter)%Q).
  assert (Hmid : ((inject_Z i + (1 # 2)) * columnSpacing
                  == t + screenCenter - boardPadding)%Q).
  { unfold t. unfold Qdiv in Hh.
    setoid_replace ((inject_Z i + (1 # 2)) * columnSpacing)%Q
      with (inject_Z i * columnSpacing + columnSpacing * / 2)%Q
      by (change (/ 2)%Q with (1 # 2)%Q; ring).
    rewrite <- Hh. unfold Qdiv. ring. }
  split.
  - apply Qle_shift_div_l; [exact Hp|]. rewrite Hmid.
    assert (Hge : (t <= centredOffset i)%Q) by apply Q.le_max_r.
    lra.
  - intros Hc.
    assert (Ht : (0 <= t)%Q) by (unfold t; lra).
    assert (He : (centredOffset i == t)%Q) by (apply Q.max_r; exact Ht).
    rewrite He, <- Hmid. field. intros Hz. rewrite Hz in Hp.
    discriminate.
Qed.

(** X4.  After [scrollToCategory] has scrolled to a column of the board,
    the centred column that [getCenteredCategoryIndex] reads off the
    position is that column, provided the offset that centres it is not
    negative; when the offset is cut at 0 the centred column is that
    column or a column to its right. *)
Theorem scrollToCategory_centres (i : Z) (b : Board) :
  boardScrollRef (refs b) = true ->
  0 <= i < visibleCount b ->
  i <= getCenteredCategoryIndex (scrollToCategory i b)
  /\ ((screenCenter
       <= boardPadding + inject_Z i * columnSpacing + Theme.spacing_sm
          + COLUMN_WIDTH / 2)%Q ->
      getCenteredCategoryIndex (scrollToCategory i b) = i).
Proof.
  intros Hm Hi.
  assert (Hx : currentScrollXRef (refs (scrollToCategory i b))
               = centredOffset i)
    by (rewrite (scrollToCategory_scrolls i b Hm Hi); reflexivity).
  assert (Hs : state (scrollToCategory i b) = state b)
    by (rewrite (scrollToCategory_scrolls i b Hm Hi); reflexivity).
  unfold getCenteredCategoryIndex. cbv zeta.
  assert (Hv : visibleCount (scrollToCategory i b) = visibleCount b).
  { unfold visibleCount, getFilteredCategories, getFilteredProducts.
    rewrite Hs. reflexivity. }
  rewrite Hv, Hx.
  destruct (centred_ratio i) as [Hle Heq]. cbv zeta in Hle, Heq.
  set (x := ((centredOffset i + screenCenter - boardPadding)
             / columnSpacing)%Q) in *.
  unfold Js.floor.
  assert (Hf : i <= Qfloor x).
  { rewrite <- (Qfloor_Z i). apply Qfloor_resp_le. lra. }
  split; [lia|].
  intros Hc. specialize (Heq Hc).
  assert (Hu : Qfloor x < i + 1).
  { rewrite Zlt_Qlt. eapply Qle_lt_trans; [apply Qfloor_le|].
    rewrite Heq, inject_Z_plus. change (inject_Z 1) with 1%Q. lra. }
  lia.
Qed.

End ScrollTo.

(** X3 and X4 on a phone: scrolling to column 1 of two puts the board at
    offset 295, and column 1 is then the centred one. *)
Lemma scrollToCategory_centres_witness :
  boardScrollRef (refs Sample.twoColumns) = true
  /\ 0 <= 1 < visibleCount Sample.twoColumns
  /\ @getCenteredCategoryIndex Sample.phone
       (@scrollToCategory Sample.phone 1 Sample.twoColumns) = 1.
Proof.
  split; [reflexivity|]. split; [split; [discriminate|reflexivity]|].
  apply (@scrollToCategory_centres Sample.phone 1 Sample.twoColumns
           eq_refl).
  - split; [discriminate|reflexivity].
  - vm_compute. discriminate.
Defined.

Lemma scrollToCategory_effect_witness :
  boardScrollRef (refs Sample.twoColumns) = true
  /\ 0 <= 1 < visibleCount Sample.twoColumns
  /\ effects (@scrollToCategory Sample.phone 1 Sample.twoColumns)
     = effects Sample.twoColumns ++ [ScrollTo (@centredOffset Sample.phone 1)].
Proof.
  split; [reflexivity|]. split; [split; [discriminate|reflexivity]|].
  apply (proj2 (@scrollToCategory_effect Sample.phone 1 Sample.twoColumns)
           eq_refl).
  split; [discriminate|reflexivity].
Defined.

(** On a tablet 1024 wide column 0 cannot be centred: after the board
    has scrolled to it, the centred column is column 1. *)
Example tablet_first_column_not_centred :
  @getCenteredCategoryIndex Sample.tablet
    (@scrollToCategory Sample.tablet 0 Sample.twoColumns) = 1.
Proof. vm_compute. reflexivity. Qed.

(** ** The target of a pointer update *)

Section Target.
Context `{Window}.

Lemma getFilteredCategories_state (b1 b2 : Board) :
  state b1 = state b2 -> getFilteredCategories b1 = getFilteredCategories b2.
Proof.
  intros E. unfold getFilteredCategories, getFilteredProducts.
  rewrite E. reflexivity.
Qed.

Lemma clearScrollTimeout_state (b : Board) :
  state (clearScrollTimeout b) = state b.
Proof.
  unfold clearScrollTimeout. destruct (scrollTimeoutRef (refs b)); reflexivity.
Qed.

Lemma scrollBased_state now X idx (b : Board) :
  state (scrollBasedOnScreenPosition now X idx b) = state b.
Proof.
  destruct (scrollBasedOnScreenPosition_cases now X idx b)
    as [[_ ->]|(t & d & _ & _ & _ & E & _)]; [reflexivity|exact E].
Qed.

(** [handleDragOverColumn] as a board that has the state of the one it
    was given, on which the two target fields are set to the answer. *)
Lemma handleDragOverColumn_shape now X idx (b : Board) :
  exists b2 r,
    state b2 = state b
    /\ handleDragOverColumn now X idx b
       = (setDraggedProductTargetCategory r (setDragTargetCategory r b2), r)
    /\ (forall t, r = Some t ->
          let cats := getFilteredCategories b in
          0 <= columnUnderPointer X b < Z.of_nat (List.length cats)
          /\ t = at_ cats (columnUnderPointer X b)
          /\ Js.truthy (Some t) = true
          /\ 0 <= idx < Z.of_nat (List.length cats)
          /\ String.eqb t (at_ cats idx) = false).
Proof.
  unfold handleDragOverColumn, columnUnderPointer.
  set (scan := scanBoard X b).
  set (near := nearRightEdge X || nearLeftEdge X).
  set (b1 := if cardIsOverColumnCenter scan && negb near then _ else b).
  assert (S1 : state b1 = state b).
  { subst b1. destruct (cardIsOverColumnCenter scan && negb near);
      [|reflexivity].
    rewrite clearScrollTimeout_state.
    destruct (negb (isScrollingRef (refs b))); reflexivity. }
  clearbody b1.
  set (b2 := if near && negb (isScrollingRef (refs b1)) then _ else _).
  assert (S2 : state b2 = state b).
  { subst b2. destruct (near && negb (isScrollingRef (refs b1))).
    - match goal with
      | |- state (setScrollTimeoutRef _ (setTimeout _ _ _ ?c)) = _ =>
          change (state c = state b)
      end.
      destruct (scrollTimeoutRef _);
        [change (state (scrollBasedOnScreenPosition now X idx b1) = state b)|];
        rewrite scrollBased_state; exact S1.
    - rewrite clearScrollTimeout_state. exact S1. }
  clearbody b2. cbv zeta.
  rewrite (getFilteredCategories_state b2 b S2).
  set (cats := getFilteredCategories b).
  set (c := closestColumnIndex scan).
  exists b2.
  destruct (c <? 0) eqn:E1; cbn [orb].
  { exists None. split; [exact S2|]. split; [reflexivity|discriminate]. }
  destruct (c >=? Z.of_nat (List.length cats)) eqn:E2.
  { exists None. split; [exact S2|]. split; [reflexivity|discriminate]. }
  apply Z.ltb_ge in E1. rewrite Z.geb_leb in E2. apply Z.leb_gt in E2.
  destruct (idx >=? 0) eqn:E3; cbn [andb].
  - destruct (idx <? Z.of_nat (List.length cats)) eqn:E4.
    + destruct (Js.truthy (Some (at_ cats c))) eqn:E5; cbn [andb].
      * destruct (Js.truthy (Some (at_ cats idx))) eqn:E6; cbn [andb].
        -- assert (Eo : Js.orElse (Some (at_ cats idx)) EmptyString
                        = at_ cats idx).
           { unfold Js.orElse. destruct (at_ cats idx); reflexivity. }
           rewrite Eo.
           destruct (String.eqb (at_ cats c) (at_ cats idx)) eqn:E7;
             cbn [negb].
           ++ exists None. split; [exact S2|]. split; [reflexivity|discriminate].
           ++ exists (Some (at_ cats c)). split; [exact S2|].
              split; [reflexivity|]. intros t [= <-]. cbv zeta.
              apply Z.geb_le in E3. apply Z.ltb_lt in E4.
              repeat split; try assumption; lia.
        -- exists None. split; [exact S2|]. split; [reflexivity|discriminate].
      * exists None. split; [exact S2|]. split; [reflexivity|discriminate].
    + rewrite andb_false_r.
      exists None. split; [exact S2|]. split; [reflexivity|discriminate].
  - rewrite andb_false_r.
    exists None. split; [exact S2|]. split; [reflexivity|discriminate].
Qed.

Lemma at_In (l : list string) (i : Z) :
  0 <= i < Z.of_nat (List.length l) -> In (at_ l i) l.
Proof. intros Hi. unfold at_. apply nth_In. lia. Qed.

(** X5.  What [handleDragOverColumn] answers is what it stores as the
    drag target of the board and of the dragged card, and it leaves the
    products, the categories and the filters alone.  An answer that is
    not null is the name of the visible column that the loop settled on;
    it is not empty, [currentIndex] is a column of the board, and the
    answer is not the name of that column. *)
Theorem handleDragOverColumn_target now X idx (b : Board) :
  let r := handleDragOverColumn now X idx b in
  let cats := getFilteredCategories b in
  dragTargetCategory (state (fst r)) = snd r
  /\ draggedProductTargetCategory (state (fst r)) = snd r
  /\ products (state (fst r)) = products (state b)
  /\ categories (state (fst r)) = categories (state b)
  /\ searchQuery (state (fst r)) = searchQuery (state b)
  /\ selectedCategory (state (fst r)) = selectedCategory (state b)
  /\ (forall t, snd r = Some t ->
        t = at_ cats (columnUnderPointer X b)
        /\ In t cats
        /\ t <> EmptyString
        /\ 0 <= idx < visibleCount b
        /\ t <> at_ cats idx).
Proof.
  cbv zeta.
  destruct (handleDragOverColumn_shape now X idx b) as (b2 & r & S2 & E & Hr).
  rewrite E. cbn [fst snd].
  split; [reflexivity|]. split; [reflexivity|].
  split; [cbn; now rewrite S2|]. split; [cbn; now rewrite S2|].
  split; [cbn; now rewrite S2|]. split; [cbn; now rewrite S2|].
  intros t Ht. destruct (Hr t Ht) as (Hc & Et & Htr & Hi & Hne).
  cbv zeta in *. split; [exact Et|]. split; [rewrite Et; now apply at_In|].
  split; [intros ->; discriminate|]. split; [exact Hi|].
  intros Heq. rewrite <- Heq, String.eqb_refl in Hne. discriminate.
Qed.

Lemma indexOf_range (l : list string) (s : string) :
  -1 <= Columns.indexOf l s < Z.of_nat (List.length l).
Proof.
  induction l as [|x l IH]; [simpl; lia|].
  cbn [Columns.indexOf List.length]. destruct (String.eqb x s); [lia|].
  destruct (Columns.indexOf l s) as [|q|q] eqn:E; try lia.
  destruct q; lia.
Qed.

Lemma indexOf_at (l : list string) (s : string) :
  In s l ->
  0 <= Columns.indexOf l s /\ at_ l (Columns.indexOf l s) = s.
Proof.
  induction l as [|x l IH]; [intros []|].
  intros Hin. cbn [Columns.indexOf].
  destruct (String.eqb_spec x s) as [->|Hne]; [split; [lia|reflexivity]|].
  destruct Hin as [Hx|Hin]; [contradiction|].
  destruct (IH Hin) as [Hlo Hat].
  pose proof (indexOf_range l s) as Hr.
  assert (Hi : match Columns.indexOf l s with
               | -1 => -1
               | i => i + 1
               end = Columns.indexOf l s + 1).
  { destruct (Columns.indexOf l s) as [|q|q]; try reflexivity.
    destruct q; try reflexivity; lia. }
  rewrite Hi. split; [lia|].
  unfold at_ in *.
  replace (Z.to_nat (Columns.indexOf l s + 1))
    with (S (Z.to_nat (Columns.indexOf l s))) by lia.
  exact Hat.
Qed.

Lemma getProductsByCategory_In (b : Board) (cat : string) (p : SavedProduct) :
  In p (getProductsByCategory b cat) -> categoryOf p = cat.
Proof.
  unfold getProductsByCategory. intros Hin.
  apply (Permutation_in _ (sort_perm compareProducts _)) in Hin.
  apply filter_In in Hin. destruct Hin as [_ E].
  now apply String.eqb_eq.
Qed.

(** X6.  A card is rendered in the column of a visible category [cat]
    with [categoryIndex] the index of [cat] among the visible categories.
    Whatever target a pointer update of that card answers, it is not the
    category of the product of the card: a drag never ends in a drop of
    a product on its own category. *)
Theorem rendered_card_never_targets_own_category now X (b : Board)
    (cat : string) (p : SavedProduct) (t : string) :
  In cat (getFilteredCategories b) ->
  In p (getProductsByCategory b cat) ->
  snd (handleDragOverColumn now X (Columns.categoryIndexOf b cat) b) = Some t ->
  t <> categoryOf p
  /\ categoryOf p <> Js.orElse (Some t) Uncategorized.
Proof.
  intros Hcat Hp Ht.
  destruct (handleDragOverColumn_shape now X
              (Columns.categoryIndexOf b cat) b) as (b2 & r & _ & E & Hr).
  rewrite E in Ht. cbn [snd] in Ht.
  destruct (Hr t Ht) as (_ & _ & Htr & _ & Hdiff). cbv zeta in Hdiff.
  unfold Columns.categoryIndexOf in Hdiff.
  rewrite (proj2 (indexOf_at _ _ Hcat)) in Hdiff.
  apply String.eqb_neq in Hdiff.
  rewrite (getProductsByCategory_In b cat p Hp).
  split; [exact Hdiff|].
  unfold Js.orElse. destruct t; [discriminate|]. congruence.
Qed.

End Target.

(** X5 and X6 on the tablet: the card of [Sample.tea], rendered in the
    first column, with the pointer at 600 over "Snacks". *)
Lemma handleDragOverColumn_target_witness :
  snd (@handleDragOverColumn Sample.tablet 0 600 0 Sample.teaBoard)
  = Some Sample.Snacks
  /\ In Sample.Snacks (getFilteredCategories Sample.teaBoard)
  /\ Sample.Snacks <> at_ (getFilteredCategories Sample.teaBoard) 0.
Proof.
  assert (E : snd (@handleDragOverColumn Sample.tablet 0 600 0
                     Sample.teaBoard) = Some Sample.Snacks)
    by (vm_compute; reflexivity).
  split; [exact E|].
  pose proof (@handleDragOverColumn_target Sample.tablet 0 600 0
                Sample.teaBoard) as T.
  cbv zeta in T. destruct T as (_ & _ & _ & _ & _ & _ & T).
  destruct (T Sample.Snacks E) as (_ & Hin & _ & _ & Hne).
  split; assumption.
Defined.

Lemma rendered_card_never_targets_own_category_witness :
  In Uncategorized (getFilteredCategories Sample.teaBoard)
  /\ In Sample.tea (getProductsByCategory Sample.teaBoard Uncategorized)
  /\ Sample.Snacks <> categoryOf Sample.tea.
Proof.
  assert (Hc : In Uncategorized (getFilteredCategories Sample.teaBoard))
    by (left; reflexivity).
  assert (Hp : In Sample.tea
                 (getProductsByCategory Sample.teaBoard Uncategorized))
    by (left; reflexivity).
  split; [exact Hc|]. split; [exact Hp|].
  apply (proj1 (@rendered_card_never_targets_own_category Sample.tablet
                  0 600 Sample.teaBoard Uncategorized Sample.tea
                  Sample.Snacks Hc Hp ltac:(vm_compute; reflexivity))).
Defined.

(** ** What the board shows *)

Lemma column_nonempty_iff (b : Board) (cat : string) :
  getProductsByCategory b cat <> []
  <-> existsb (String.eqb cat) (map categoryOf (getFilteredProducts b)) = true.
Proof.
  unfold getProductsByCategory.
  set (l := filter _ (getFilteredProducts b)).
  assert (Hs : Js.sort compareProducts l <> [] <-> l <> []).
  { pose proof (sort_perm compareProducts l) as Hp. split; intros Hn E.
    - rewrite E in Hn. now apply Hn.
    - rewrite E in Hp. apply Permutation_nil in Hp. contradiction. }
  rewrite Hs. subst l. rewrite existsb_exists. split.
  - intros Hn.
    destruct (filter _ (getFilteredProducts b)) as [|p l] eqn:E;
      [contradiction|].
    assert (Hin : In p (filter (fun p => String.eqb (categoryOf p) cat)
                               (getFilteredProducts b)))
      by (rewrite E; left; reflexivity).
    apply filter_In in Hin. destruct Hin as [Hin Hc].
    exists (categoryOf p). split; [now apply in_map|].
    now rewrite String.eqb_sym.
  - intros (c & Hin & Hc) E. apply in_map_iff in Hin.
    destruct Hin as (p & <- & Hin).
    assert (Hp : In p (filter (fun p => String.eqb (categoryOf p) cat)
                              (getFilteredProducts b))).
    { apply filter_In. split; [exact Hin|]. now rewrite String.eqb_sym. }
    rewrite E in Hp. exact Hp.
Qed.

Lemma getFilteredCategories_cases (b : Board) :
  (Js.trim (searchQuery (state b)) = EmptyString
   /\ Js.truthy (selectedCategory (state b)) = false
   /\ getFilteredCategories b = categories (state b))
  \/ ((Js.trim (searchQuery (state b)) <> EmptyString
       \/ Js.truthy (selectedCategory (state b)) = true)
      /\ getFilteredCategories b
         = filter (fun cat =>
                     existsb (String.eqb cat)
                       (map categoryOf (getFilteredProducts b)))
                  (categories (state b))).
Proof.
  unfold getFilteredCategories.
  destruct (Js.trim (searchQuery (state b))) eqn:Et,
           (Js.truthy (selectedCategory (state b))) eqn:Es.
  - right. split; [right|]; reflexivity.
  - left. repeat split; reflexivity.
  - right. split; [left; discriminate|reflexivity].
  - right. split; [left; discriminate|reflexivity].
Qed.

(** X7.  Without a search and without a selected category every
    category is a column of the board.  With a search or a selected
    category the columns are, in the order of the categories, the
    categories whose column holds a product: a category is shown exactly
    when it is a category of the board and its column is not empty. *)
Theorem visible_categories (b : Board) :
  (Js.trim (searchQuery (state b)) = EmptyString ->
   Js.truthy (selectedCategory (state b)) = false ->
   getFilteredCategories b = categories (state b))
  /\ (Js.trim (searchQuery (state b)) <> EmptyString
      \/ Js.truthy (selectedCategory (state b)) = true ->
      getFilteredCategories b
      = filter (fun cat =>
                  negb (Nat.eqb (List.length (getProductsByCategory b cat)) 0))
               (categories (state b))
      /\ forall cat,
           In cat (getFilteredCategories b)
           <-> In cat (categories (state b))
               /\ getProductsByCategory b cat <> []).
Proof.
  destruct (getFilteredCategories_cases b) as [(Et & Es & E)|([Hn|Hn] & E)].
  - split; [intros _ _; exact E|].
    intros [Hn|Hn]; [contradiction|congruence].
  - split; [intros Et; contradiction|]. intros _.
    assert (Ef : forall cat,
               existsb (String.eqb cat)
                 (map categoryOf (getFilteredProducts b))
               = negb (Nat.eqb (List.length (getProductsByCategory b cat)) 0)).
    { intros cat. pose proof (column_nonempty_iff b cat) as Hc.
      destruct (getProductsByCategory b cat) as [|p l]; cbn.
      - destruct (existsb _ _); [|reflexivity].
        exfalso. now apply (proj2 Hc).
      - apply Hc. discriminate. }
    split.
    + rewrite E. apply filter_ext. exact Ef.
    + intros cat. rewrite E, filter_In, <- column_nonempty_iff. tauto.
  - split; [intros _ Es; congruence|]. intros _.
    assert (Ef : forall cat,
               existsb (String.eqb cat)
                 (map categoryOf (getFilteredProducts b))
               = negb (Nat.eqb (List.length (getProductsByCategory b cat)) 0)).
    { intros cat. pose proof (column_nonempty_iff b cat) as Hc.
      destruct (getProductsByCategory b cat) as [|p l]; cbn.
      - destruct (existsb _ _); [|reflexivity].
        exfalso. now apply (proj2 Hc).
      - apply Hc. discriminate. }
    split.
    + rewrite E. apply filter_ext. exact Ef.
    + intros cat. rewrite E, filter_In, <- column_nonempty_iff. tauto.
Qed.

Lemma filter_disjoint_app {A : Type} (f g : A -> bool) (l : list A) :
  (forall x, In x l -> f x = true -> g x = false) ->
  Permutation (filter f l ++ filter g l) (filter (fun x => f x || g x) l).
Proof.
  induction l as [|a l IH]; intros Hd; [reflexivity|].
  assert (IH' := IH (fun x Hx => Hd x (or_intror Hx))).
  cbn [filter]. destruct (f a) eqn:Ef.
  - rewrite (Hd a (or_introl eq_refl) Ef). cbn. now apply perm_skip.
  - destruct (g a); cbn.
    + rewrite <- IH'. symmetry. apply Permutation_middle.
    + exact IH'.
Qed.

Lemma columns_cover (P : list SavedProduct) (l : list string) :
  NoDup l ->
  Permutation
    (flat_map (fun c => filter (fun p => String.eqb (categoryOf p) c) P) l)
    (filter (fun p => existsb (String.eqb (categoryOf p)) l) P).
Proof.
  induction 1 as [|c l Hc Hl IH]; cbn [flat_map existsb].
  - induction P as [|p P IHP]; [reflexivity|exact IHP].
  - rewrite IH.
    erewrite (filter_ext (fun p => String.eqb (categoryOf p) c
                                  || existsb (String.eqb (categoryOf p)) l)).
    + apply filter_disjoint_app.
      intros p _ Hp. apply String.eqb_eq in Hp.
      destruct (existsb (String.eqb (categoryOf p)) l) eqn:E; [|reflexivity].
      apply existsb_exists in E. destruct E as (x & Hx & Ex).
      apply String.eqb_eq in Ex. subst. contradiction.
    + intros p. reflexivity.
Qed.

Lemma flat_map_perm {A B : Type} (f g : A -> list B) (l : list A) :
  (forall a, Permutation (f a) (g a)) ->
  Permutation (flat_map f l) (flat_map g l).
Proof.
  intros Hp. induction l as [|a l IH]; [reflexivity|].
  cbn. now apply Permutation_app.
Qed.

Lemma flat_map_filter_nil {A B : Type} (f : A -> list B) (h : A -> bool)
    (l : list A) :
  (forall a, h a = false -> f a = []) ->
  flat_map f (filter h l) = flat_map f l.
Proof.
  intros Hn. induction l as [|a l IH]; [reflexivity|].
  cbn. destruct (h a) eqn:E; cbn; [now rewrite IH|].
  now rewrite (Hn a E).
Qed.

Lemma flat_map_snd_map {A B : Type} (f : A -> list B) (l : list A) :
  flat_map snd (map (fun a => (a, f a)) l) = flat_map f l.
Proof.
  induction l as [|a l IH]; [reflexivity|]. cbn. now rewrite IH.
Qed.

(** X8.  When the categories of the board are distinct and every
    product that passes the filters has its category among them, the
    columns that the board renders hold, taken together, exactly the
    products that pass the filters, each as often as it is in the
    product list: no product is missing and none is shown in two
    columns. *)
Theorem board_shows_each_product_once (b : Board) :
  NoDup (categories (state b)) ->
  (forall p, In p (getFilteredProducts b) ->
             In (categoryOf p) (categories (state b))) ->
  Permutation (flat_map snd (Columns.renderedColumns b))
              (getFilteredProducts b).
Proof.
  intros Hnd Hall. unfold Columns.renderedColumns.
  rewrite flat_map_snd_map.
  assert (Hvis : flat_map (getProductsByCategory b) (getFilteredCategories b)
                 = flat_map (getProductsByCategory b) (categories (state b))).
  { destruct (getFilteredCategories_cases b) as [(_ & _ & ->)|(_ & ->)];
      [reflexivity|].
    apply flat_map_filter_nil. intros cat Hc.
    destruct (getProductsByCategory b cat) as [|p l] eqn:E; [reflexivity|].
    assert (Hne : getProductsByCategory b cat <> [])
      by (rewrite E; discriminate).
    apply column_nonempty_iff in Hne. congruence. }
  rewrite Hvis.
  rewrite (flat_map_perm (getProductsByCategory b)
             (fun c => filter (fun p => String.eqb (categoryOf p) c)
                              (getFilteredProducts b)))
    by (intros c; apply sort_perm).
  rewrite (columns_cover _ _ Hnd).
  erewrite filter_ext_in; [rewrite filter_true; reflexivity|].
  intros p Hp. cbn. apply existsb_exists.
  exists (categoryOf p). split; [now apply Hall|apply String.eqb_refl].
Qed.

(** X7 on a board searched for "111": only "Snacks" is shown. *)
Lemma visible_categories_witness :
  Js.trim (searchQuery (state Sample.searched)) <> EmptyString
  /\ getFilteredCategories Sample.searched
     = filter (fun cat =>
                 negb (Nat.eqb
                         (List.length
                            (getProductsByCategory Sample.searched cat)) 0))
              (categories (state Sample.searched)).
Proof.
  assert (Hq : Js.trim (searchQuery (state Sample.searched)) <> EmptyString)
    by (vm_compute; discriminate).
  split; [exact Hq|].
  exact (proj1 (proj2 (visible_categories Sample.searched) (or_introl Hq))).
Defined.

(** X8 on the board of two snacks. *)
Lemma board_shows_each_product_once_witness :
  NoDup (categories (state (Sample.boardWith Sample.twoSnacks EmptyString)))
  /\ Permutation
       (flat_map snd
          (Columns.renderedColumns
             (Sample.boardWith Sample.twoSnacks EmptyString)))
       (getFilteredProducts (Sample.boardWith Sample.twoSnacks EmptyString)).
Proof.
  assert (Hn : NoDup (categories
                        (state (Sample.boardWith Sample.twoSnacks
                                  EmptyString)))).
  { constructor; [intros [E|[]]; discriminate|].
    constructor; [intros []|constructor]. }
  split; [exact Hn|].
  apply (board_shows_each_product_once _ Hn).
  intros p [<-|[<-|[]]]; right; left; reflexivity.
Defined.

(** ** Searching *)

Lemma isWhite_lowerChar (c : ascii) : Js.isWhite (Js.lowerChar c) = Js.isWhite c.
Proof.
  destruct c as [[] [] [] [] [] [] [] []]; reflexivity.
Qed.

Lemma toLowerCase_trimStart (s : string) :
  Js.trimStart (Js.toLowerCase s) = Js.toLowerCase (Js.trimStart s).
Proof.
  induction s as [|c s IH]; [reflexivity|].
  cbn [Js.toLowerCase Js.trimStart]. rewrite isWhite_lowerChar.
  destruct (Js.isWhite c); [exact IH|reflexivity].
Qed.

Lemma toLowerCase_trimEnd (s : string) :
  Js.trimEnd (Js.toLowerCase s) = Js.toLowerCase (Js.trimEnd s).
Proof.
  induction s as [|c s IH]; [reflexivity|].
  cbn [Js.toLowerCase Js.trimEnd]. rewrite IH, isWhite_lowerChar.
  destruct (Js.trimEnd s); cbn [Js.toLowerCase];
    [destruct (Js.isWhite c)|]; reflexivity.
Qed.

Lemma toLowerCase_trim (s : string) :
  Js.trim (Js.toLowerCase s) = Js.toLowerCase (Js.trim s).
Proof.
  unfold Js.trim. now rewrite toLowerCase_trimStart, toLowerCase_trimEnd.
Qed.

Lemma toLowerCase_empty (s : string) :
  Js.toLowerCase s = EmptyString <-> s = EmptyString.
Proof. destruct s; cbn; split; congruence. Qed.

(** X9.  The search looks at the query only through its lower-case
    form without the white space around it: two queries with the same
    such form find the same products.  So the case of the query and the
    spaces around it make no difference. *)
Theorem search_depends_on_normal_form (l : list SavedProduct)
    (q1 q2 : string) :
  Js.trim (Js.toLowerCase q1) = Js.trim (Js.toLowerCase q2) ->
  filterProductsBySearch l q1 = filterProductsBySearch l q2.
Proof.
  intros E. unfold filterProductsBySearch.
  assert (Hb : Js.trim q1 = EmptyString <-> Js.trim q2 = EmptyString).
  { rewrite <- (toLowerCase_empty (Js.trim q1)),
            <- (toLowerCase_empty (Js.trim q2)), <- !toLowerCase_trim, E.
    reflexivity. }
  rewrite E.
  destruct (Js.trim q1) eqn:E1, (Js.trim q2) eqn:E2; try reflexivity.
  - assert (X : String a s = EmptyString) by (apply Hb; reflexivity).
    discriminate.
  - assert (X : String a s = EmptyString) by (apply Hb; reflexivity).
    discriminate.
Qed.

Lemma toLowerCase_idem (s : string) :
  Js.toLowerCase (Js.toLowerCase s) = Js.toLowerCase s.
Proof.
  induction s as [|c s IH]; [reflexivity|].
  cbn [Js.toLowerCase]. rewrite IH. f_equal.
  destruct c as [[] [] [] [] [] [] [] []]; reflexivity.
Qed.

Lemma prefix_refl (s : string) : String.prefix s s = true.
Proof.
  induction s as [|c s IH]; [reflexivity|].
  cbn. destruct (ascii_dec c c); [exact IH|contradiction].
Qed.

Lemma includes_refl (s : string) : Js.includes s s = true.
Proof.
  destruct s; [reflexivity|]. cbn [Js.includes].
  rewrite prefix_refl. reflexivity.
Qed.

(** X10.  A product is found by its own barcode: when the barcode is
    not blank and has no white space around it, the search for it keeps
    the product, whatever the case of its letters. *)
Theorem search_finds_own_barcode (l : list SavedProduct) (p : SavedProduct) :
  In p l ->
  Js.trim (barcode p) = barcode p ->
  barcode p <> EmptyString ->
  In p (filterProductsBySearch l (barcode p)).
Proof.
  intros Hin Ht Hne. unfold filterProductsBySearch.
  rewrite toLowerCase_trim, Ht.
  destruct (barcode p) eqn:E; [contradiction|]. rewrite <- E.
  apply filter_In. split; [exact Hin|].
  cbv zeta. rewrite includes_refl, orb_true_r. reflexivity.
Qed.

(** X9 on two spellings of a query, and X10 on a snack of the board. *)
Lemma search_depends_on_normal_form_witness :
  Js.trim (Js.toLowerCase " CRISPS ") = Js.trim (Js.toLowerCase "crisps")
  /\ filterProductsBySearch Sample.twoSnacks " CRISPS "
     = filterProductsBySearch Sample.twoSnacks "crisps".
Proof.
  split; [reflexivity|].
  exact (search_depends_on_normal_form Sample.twoSnacks " CRISPS " "crisps"
           eq_refl).
Defined.

Lemma search_finds_own_barcode_witness :
  In (Sample.snack "a" "111" (Some 1)) Sample.twoSnacks
  /\ In (Sample.snack "a" "111" (Some 1))
        (filterProductsBySearch Sample.twoSnacks "111").
Proof.
  assert (Hin : In (Sample.snack "a" "111" (Some 1)) Sample.twoSnacks)
    by (left; reflexivity).
  split; [exact Hin|].
  exact (search_finds_own_barcode Sample.twoSnacks
           (Sample.snack "a" "111" (Some 1)) Hin eq_refl
           ltac:(discriminate)).
Defined.

(** ** Categories *)

(** X11.  The categories that [fetchCategories] keeps of a fetched list
    are "Uncategorized" followed by the other fetched names in their
    order: every fetched name is kept, none is added but
    "Uncategorized", and sorting a sorted list changes nothing. *)
Theorem sortCategories_shape (l : list string) :
  sortCategories l
  = Uncategorized :: filter (fun c => negb (String.eqb c Uncategorized)) l
  /\ sortCategories (sortCategories l) = sortCategories l
  /\ forall c, In c (sortCategories l) <-> c = Uncategorized \/ In c l.
Proof.
  assert (E : sortCategories l
              = Uncategorized
                  :: filter (fun c => negb (String.eqb c Uncategorized)) l).
  { unfold sortCategories, Js.arrayIncludes.
    destruct (existsb (String.eqb Uncategorized) l) eqn:Ex; [reflexivity|].
    f_equal. symmetry.
    rewrite (filter_ext_in _ (fun _ => true)); [apply filter_true|].
    intros c Hc.
    destruct (String.eqb_spec c Uncategorized) as [->|]; [|reflexivity].
    assert (existsb (String.eqb Uncategorized) l = true)
      by (apply existsb_exists; exists Uncategorized;
          split; [exact Hc|apply String.eqb_refl]).
    congruence. }
  split; [exact E|]. split.
  - rewrite E. unfold sortCategories at 1.
    cbn [Js.arrayIncludes existsb]. rewrite String.eqb_refl.
    cbn [orb filter]. rewrite String.eqb_refl. cbn [negb]. f_equal.
    clear E. induction l as [|x l IH]; [reflexivity|].
    cbn [filter]. destruct (negb (String.eqb x Uncategorized)) eqn:Ex;
      [cbn [filter]; rewrite Ex; f_equal|]; exact IH.
  - intros c. rewrite E. cbn [In]. rewrite filter_In. split.
    + intros [<-|[Hin _]]; auto.
    + intros [->|Hin]; [auto|].
      destruct (String.eqb_spec c Uncategorized) as [->|Hn]; [auto|].
      right. split; [exact Hin|reflexivity].
Qed.

(** ** Moving a product *)

Lemma sameId_refl (i : option string) : sameId i i = true.
Proof. destruct i; [apply String.eqb_refl|reflexivity]. Qed.

(** X12.  The update of the product list after a move keeps the length
    and the order of the list and the ids, barcodes and times of its
    products; every product with another id than the moved one is
    untouched, every product with its id ends in the target category,
    and a second update with the same target changes nothing. *)
Theorem moveProduct_frame (product : SavedProduct) (target : string)
    (l : list SavedProduct) :
  map _id (moveProduct product target l) = map _id l
  /\ map barcode (moveProduct product target l) = map barcode l
  /\ map createdAt (moveProduct product target l) = map createdAt l
  /\ filter (fun q => negb (sameId (_id q) (_id product)))
            (moveProduct product target l)
     = filter (fun q => negb (sameId (_id q) (_id product))) l
  /\ (forall q, In q (moveProduct product target l) ->
                sameId (_id q) (_id product) = true ->
                category q = Some target)
  /\ moveProduct product target (moveProduct product target l)
     = moveProduct product target l.
Proof.
  unfold moveProduct. repeat split.
  - rewrite map_map. apply map_ext. intros q.
    destruct (sameId (_id q) (_id product)); reflexivity.
  - rewrite map_map. apply map_ext. intros q.
    destruct (sameId (_id q) (_id product)); reflexivity.
  - rewrite map_map. apply map_ext. intros q.
    destruct (sameId (_id q) (_id product)); reflexivity.
  - induction l as [|q l IH]; [reflexivity|].
    cbn [map filter]. destruct (sameId (_id q) (_id product)) eqn:E.
    + cbn [_id withCategory]. rewrite E. exact IH.
    + rewrite E. cbn [negb]. now rewrite IH.
  - intros q Hin Hid. apply in_map_iff in Hin.
    destruct Hin as (q0 & <- & _).
    destruct (sameId (_id q0) (_id product)) eqn:E; [reflexivity|].
    congruence.
  - rewrite map_map. apply map_ext. intros q.
    destruct (sameId (_id q) (_id product)) eqn:E.
    + cbn [_id withCategory]. rewrite E. reflexivity.
    + rewrite E. reflexivity.
Qed.

(** X12 on the board of two snacks, the first moved to "Uncategorized". *)
Lemma moveProduct_frame_witness :
  In (withCategory (Sample.snack "a" "111" (Some 1)) Uncategorized)
     (moveProduct (Sample.snack "a" "111" (Some 1)) Uncategorized
        Sample.twoSnacks)
  /\ category (withCategory (Sample.snack "a" "111" (Some 1)) Uncategorized)
     = Some Uncategorized.
Proof.
  assert (Hin : In (withCategory (Sample.snack "a" "111" (Some 1))
                      Uncategorized)
                   (moveProduct (Sample.snack "a" "111" (Some 1))
                      Uncategorized Sample.twoSnacks))
    by (left; reflexivity).
  split; [exact Hin|].
  destruct (moveProduct_frame (Sample.snack "a" "111" (Some 1)) Uncategorized
              Sample.twoSnacks) as (_ & _ & _ & _ & Hc & _).
  exact (Hc _ Hin eq_refl).
Defined.

(** ** A drop, run to its end *)

Ltac open_board b :=
  let st := fresh "st" in
  let rf := fresh "rf" in
  destruct b as [st rf ? ? ?]; destruct st, rf;
  match goal with
  | o : option nat |- _ => destruct o
  end.

(** X13.  A drop of a product without an id on another category shows
    the alert "Product ID is missing", issues no request, and leaves the
    products and the categories as they are, with no product marked as
    updating and no drag shown. *)
Theorem handleProductDrop_missing_id (product : SavedProduct)
    (newCategory : string) (b : Board) (net : Request -> Response)
    (press : bool) :
  Js.truthy (_id product) = false ->
  categoryOf product <> Js.orElse (Some newCategory) Uncategorized ->
  let b' := fst (complete net press (handleProductDrop product newCategory b)) in
  snd (complete net press (handleProductDrop product newCategory b)) = []
  /\ effects b' = effects b ++ [Alert "Error" "Product ID is missing"]
  /\ products (state b') = products (state b)
  /\ categories (state b') = categories (state b)
  /\ updating (state b') = None
  /\ clearedDrag b'.
Proof.
  intros Hid Hne. cbv zeta. unfold handleProductDrop. cbv zeta.
  destruct (String.eqb_spec (categoryOf product)
              (Js.orElse (Some newCategory) Uncategorized)) as [|_];
    [contradiction|].
  unfold clearedDrag.
  destruct (_id product) as [[|c r]|]; try discriminate;
    open_board b; repeat split; vm_compute; reflexivity.
Qed.

(** X14.  A drop of a product with an id on another category whose
    PATCH succeeds issues the PATCH and then the request for the
    categories, and nothing else.  At the end the product list is the one
    before with the product moved, the categories are those that
    [fetchCategories] makes of the answer, no product is marked as
    updating, no drag is shown and no alert was raised. *)
Theorem handleProductDrop_success (product : SavedProduct)
    (newCategory : string) (b : Board) (net : Request -> Response)
    (press : bool) (c : ascii) (r : string) (v : Value) :
  let target := Js.orElse (Some newCategory) Uncategorized in
  _id product = Some (String c r) ->
  categoryOf product <> target ->
  net (UpdateProductCategory (String c r) target) = Resolved v ->
  let b' := fst (complete net press (handleProductDrop product newCategory b)) in
  snd (complete net press (handleProductDrop product newCategory b))
  = [UpdateProductCategory (String c r) target; GetAllCategories]
  /\ products (state b') = moveProduct product target (products (state b))
  /\ categories (state b')
     = match net GetAllCategories with
       | Resolved (VCategories fetched) => sortCategories fetched
       | _ => [Uncategorized]
       end
  /\ updating (state b') = None
  /\ clearedDrag b'
  /\ effects b' = effects b.
Proof.
  intros target Hid Hne Hnet. cbv zeta. unfold handleProductDrop. cbv zeta.
  fold target. rewrite Hid.
  destruct (String.eqb_spec (categoryOf product) target) as [|_];
    [contradiction|].
  cbn [complete]. rewrite Hnet. cbn [afterPatch].
  unfold fetchCategories. cbn [complete afterCategories].
  unfold clearedDrag.
  destruct (net GetAllCategories) as [[| fetched |]|m];
    cbn [complete fst snd]; open_board b; repeat split;
    vm_compute; reflexivity.
Qed.

(** X15.  A drop of a product with an id on another category whose
    PATCH fails issues the PATCH and then the request for the products,
    and nothing else.  It shows the alert "Failed to update product
    category".  At the end the product list is the list fetched, or the
    list as it was, with one more alert, when that request fails too; the
    categories are as they were, nothing is loading, refreshing or
    updating, and no drag is shown. *)
Theorem handleProductDrop_failure (product : SavedProduct)
    (newCategory : string) (b : Board) (net : Request -> Response)
    (press : bool) (c : ascii) (r : string) (m : option string) :
  let target := Js.orElse (Some newCategory) Uncategorized in
  _id product = Some (String c r) ->
  categoryOf product <> target ->
  net (UpdateProductCategory (String c r) target) = Rejected m ->
  let b' := fst (complete net press (handleProductDrop product newCategory b)) in
  snd (complete net press (handleProductDrop product newCategory b))
  = [UpdateProductCategory (String c r) target; GetAllProducts]
  /\ products (state b')
     = match net GetAllProducts with
       | Resolved (VProducts fetched) => fetched
       | _ => products (state b)
       end
  /\ effects b'
     = effects b
       ++ Alert "Error" "Failed to update product category"
          :: match net GetAllProducts with
             | Resolved (VProducts _) => []
             | _ => [Alert "Error" "Failed to load products"]
             end
  /\ categories (state b') = categories (state b)
  /\ loading (state b') = false
  /\ refreshing (state b') = false
  /\ updating (state b') = None
  /\ clearedDrag b'.
Proof.
  intros target Hid Hne Hnet. cbv zeta. unfold handleProductDrop. cbv zeta.
  fold target. rewrite Hid.
  destruct (String.eqb_spec (categoryOf product) target) as [|_];
    [contradiction|].
  cbn [complete]. rewrite Hnet. cbn [afterPatch complete].
  unfold clearedDrag.
  destruct (net GetAllProducts) as [[| |fetched]|m'];
    cbn [complete fst snd]; open_board b; repeat split;
    try (vm_compute; reflexivity);
    cbv [effects fetchProductsResume fetchProductsStart perform setUpdating
         handleDragEnd setRefreshing setLoading setProducts withState
         withRefs clearScrollTimeout setScrollTimeoutRef clearTimeout
         setDragTargetCategory setDraggedProduct setDragPosition
         setDraggedProductTargetCategory setLastScrollDirectionRef
         setIsScrollingRef setLastScrollTimeRef setLastScrolledToIndexRef
         setCurrentDragXRef refs scrollTimeoutRef state timers nextTimerId];
    rewrite <- ?app_assoc; reflexivity.
Qed.

(** ** Loading the products *)

(** X16.  [fetchProducts] issues one request for the products.  While
    it waits, the board is loading when the loader was asked for and
    refreshing otherwise.  At the end it is neither; the product list is
    the list fetched, or, when the request fails, the list as it was
    with the alert "Failed to load products". *)
Theorem fetchProducts_outcomes (showLoader : bool) (b : Board)
    (net : Request -> Response) (press : bool) :
  let a := fetchProducts showLoader Done b in
  let b' := fst (complete net press a) in
  snd (complete net press a) = [GetAllProducts]
  /\ loading (state (boardOf a))
     = (if showLoader then true else loading (state b))
  /\ refreshing (state (boardOf a))
     = (if showLoader then refreshing (state b) else true)
  /\ products (state (boardOf a)) = products (state b)
  /\ loading (state b') = false
  /\ refreshing (state b') = false
  /\ products (state b')
     = match net GetAllProducts with
       | Resolved (VProducts fetched) => fetched
       | _ => products (state b)
       end
  /\ effects b'
     = effects b
       ++ match net GetAllProducts with
          | Resolved (VProducts _) => []
          | _ => [Alert "Error" "Failed to load products"]
          end
  /\ categories (state b') = categories (state b).
Proof.
  cbv zeta. unfold fetchProducts. cbn [complete boardOf].
  destruct (net GetAllProducts) as [[| |fetched]|m];
    destruct showLoader; cbn [complete fst snd]; rewrite ?app_nil_r;
    repeat split; reflexivity.
Qed.

(** X13, X14 and X15 on [Sample.teaBoard]. *)
Lemma handleProductDrop_missing_id_witness :
  Js.truthy (_id Sample.noId) = false
  /\ snd (complete Sample.accepting false
            (handleProductDrop Sample.noId Sample.Snacks Sample.teaBoard))
     = [].
Proof.
  split; [reflexivity|].
  exact (proj1 (handleProductDrop_missing_id Sample.noId Sample.Snacks
                  Sample.teaBoard Sample.accepting false eq_refl
                  ltac:(discriminate))).
Defined.

Lemma handleProductDrop_success_witness :
  Sample.accepting (UpdateProductCategory "p1" Sample.Snacks)
  = Resolved VUnit
  /\ snd (complete Sample.accepting false
            (handleProductDrop Sample.tea Sample.Snacks Sample.teaBoard))
     = [UpdateProductCategory "p1" Sample.Snacks; GetAllCategories].
Proof.
  split; [reflexivity|].
  exact (proj1 (handleProductDrop_success Sample.tea Sample.Snacks
                  Sample.teaBoard Sample.accepting false "p" "1" VUnit
                  eq_refl ltac:(discriminate) eq_refl)).
Defined.

Lemma handleProductDrop_failure_witness :
  Sample.refusing (UpdateProductCategory "p1" Sample.Snacks) = Rejected None
  /\ snd (complete Sample.refusing false
            (handleProductDrop Sample.tea Sample.Snacks Sample.teaBoard))
     = [UpdateProductCategory "p1" Sample.Snacks; GetAllProducts].
Proof.
  split; [reflexivity|].
  exact (proj1 (handleProductDrop_failure Sample.tea Sample.Snacks
                  Sample.teaBoard Sample.refusing false "p" "1" None
                  eq_refl ltac:(discriminate) eq_refl)).
Defined.

(** ** Deleting a category, to the end *)


(** X18.  A deletion of another category than "Uncategorized" whose
    column is empty, once confirmed, asks the backend to delete that
    category.  When the backend accepts, the categories are fetched again
    and set as [fetchCategories] sets them; when it refuses, no further
    request is made, the categories stay, and the message of the error is
    shown, or "Failed to delete category" when it has none.  The products
    are never touched. *)
Theorem handleDeleteCategory_confirmed (cat : string) (b : Board)
    (net : Request -> Response) :
  cat <> Uncategorized ->
  getProductsByCategory b cat = [] ->
  let r := complete net true (handleDeleteCategory cat b) in
  products (state (fst r)) = products (state b)
  /\ match net (DeleteCategory cat) with
     | Resolved _ =>
         snd r = [DeleteCategory cat; GetAllCategories]
         /\ categories (state (fst r))
            = match net GetAllCategories with
              | Resolved (VCategories fetched) => sortCategories fetched
              | _ => [Uncategorized]
              end
         /\ effects (fst r) = effects b
     | Rejected message =>
         snd r = [DeleteCategory cat]
         /\ categories (state (fst r)) = categories (state b)
         /\ effects (fst r)
            = effects b
              ++ [Alert "Error"
                    (match message with
                     | Some m => m
                     | None => "Failed to delete category"%string
                     end)]
     end.
Proof.
  intros Hne He. cbv zeta. unfold handleDeleteCategory.
  destruct (String.eqb_spec cat Uncategorized) as [E|_]; [contradiction|].
  rewrite He. cbn [List.length Nat.ltb Nat.leb complete].
  destruct (net (DeleteCategory cat)) as [v|message].
  - unfold fetchCategories. cbn [complete afterCategories].
    destruct (net GetAllCategories) as [[| fetched |]|m];
      cbn [complete fst snd]; repeat split; reflexivity.
  - cbn [complete fst snd]. repeat split; reflexivity.
Qed.


Lemma handleDeleteCategory_confirmed_witness :
  Sample.Snacks <> Uncategorized
  /\ getProductsByCategory Sample.teaBoard Sample.Snacks = []
  /\ products
       (state (fst (complete Sample.refusing true
                      (handleDeleteCategory Sample.Snacks Sample.teaBoard))))
     = products (state Sample.teaBoard).
Proof.
  split; [discriminate|]. split; [reflexivity|].
  exact (proj1 (handleDeleteCategory_confirmed Sample.Snacks Sample.teaBoard
                  Sample.refusing ltac:(discriminate) eq_refl)).
Defined.

(** ** Adding a category *)

Lemma arrayIncludes_In (l : list string) (s : string) :
  Js.arrayIncludes l s = true <-> In s l.
Proof.
  unfold Js.arrayIncludes. rewrite existsb_exists. split.
  - intros (x & Hin & E). apply String.eqb_eq in E. now subst.
  - intros Hin. exists s. split; [exact Hin|apply String.eqb_refl].
Qed.

(** X19.  [handleAddCategory] asks the backend to create a category
    only for a name that, without the white space around it, is not
    empty and is not yet a category of the board, and the name it sends
    is the name without that white space.  A name it refuses costs one
    alert and leaves the dialog and the board as they are. *)
Theorem handleAddCategory_validates (f : AddCategory.Form) (b : Board)
    (create : string -> Response) (fetch : Response) :
  let name := Js.trim (AddCategory.newCategoryName f) in
  let r := AddCategory.complete create fetch
             (AddCategory.handleAddCategory f b) in
  (name = EmptyString \/ In name (categories (state b)) ->
   snd r = []
   /\ fst (fst r) = f
   /\ state (snd (fst r)) = state b
   /\ effects (snd (fst r))
      = effects b
        ++ [Alert "Error"
              (if String.eqb name EmptyString
               then "Category name cannot be empty"%string
               else "Category already exists"%string)])
  /\ (name <> EmptyString -> ~ In name (categories (state b)) ->
      snd r = [name]).
Proof.
  cbv zeta. unfold AddCategory.handleAddCategory.
  destruct (Js.trim (AddCategory.newCategoryName f)) as [|c n] eqn:En.
  - cbn [AddCategory.complete fst snd String.eqb].
    split; [intros _; repeat split; reflexivity|intros Hn; contradiction].
  - destruct (Js.arrayIncludes (categories (state b)) (String c n)) eqn:Ei.
    + apply arrayIncludes_In in Ei.
      cbn [AddCategory.complete fst snd String.eqb].
      split; [intros _; repeat split; reflexivity|intros _ Hn; contradiction].
    + assert (Hn : ~ In (String c n) (categories (state b))).
      { intros Hin. apply arrayIncludes_In in Hin. congruence. }
      split; [intros [Hx|Hx]; [discriminate|contradiction]|].
      intros _ _. cbn [AddCategory.complete].
      unfold AddCategory.afterCreate.
      destruct (create (String c n)); cbn [AddCategory.complete];
        reflexivity.
Qed.

(** X20.  When the backend has created the category, the dialog is
    emptied and closed and the categories of the board are those that
    [fetchCategories] makes of the fetched list, so that "Uncategorized"
    stays first.  When the backend refuses, the dialog stays open with
    the name typed, the categories stay, and the message of the error is
    shown, or "Failed to create category" when it has none. *)
Theorem handleAddCategory_outcomes (f : AddCategory.Form) (b : Board)
    (create : string -> Response) (fetch : Response) (c : ascii) (n : string) :
  Js.trim (AddCategory.newCategoryName f) = String c n ->
  ~ In (String c n) (categories (state b)) ->
  let r := AddCategory.complete create fetch
             (AddCategory.handleAddCategory f b) in
  products (state (snd (fst r))) = products (state b)
  /\ match create (String c n) with
     | Resolved _ =>
         fst (fst r) = AddCategory.closed
         /\ categories (state (snd (fst r)))
            = match fetch with
              | Resolved (VCategories fetched) => sortCategories fetched
              | _ => [Uncategorized]
              end
         /\ effects (snd (fst r)) = effects b
     | Rejected message =>
         fst (fst r) = f
         /\ categories (state (snd (fst r))) = categories (state b)
         /\ effects (snd (fst r))
            = effects b
              ++ [Alert "Error"
                    (match message with
                     | Some m => m
                     | None => "Failed to create category"%string
                     end)]
     end.
Proof.
  intros En Hn. cbv zeta. unfold AddCategory.handleAddCategory. rewrite En.
  destruct (Js.arrayIncludes (categories (state b)) (String c n)) eqn:Ei;
    [apply arrayIncludes_In in Ei; contradiction|].
  cbn [AddCategory.complete]. unfold AddCategory.afterCreate.
  destruct (create (String c n)) as [v|message];
    cbn [AddCategory.complete AddCategory.afterRefresh fst snd].
  - unfold afterCategories.
    destruct fetch as [[| fetched |]|m]; cbn [boardOf];
      repeat split; reflexivity.
  - repeat split; reflexivity.
Qed.

(** X19 and X20 on the board of [Sample.tea]: the name " Drinks " is
    sent as "Drinks". *)
Lemma handleAddCategory_validates_witness :
  Js.trim " Drinks " <> EmptyString
  /\ ~ In (Js.trim " Drinks ") (categories (state Sample.teaBoard))
  /\ snd (AddCategory.complete (fun _ => Resolved VUnit)
            (Resolved (VCategories [Sample.Snacks; "Drinks"%string]))
            (AddCategory.handleAddCategory
               {| AddCategory.newCategoryName := " Drinks ";
                  AddCategory.showAddCategory := true |}
               Sample.teaBoard))
     = ["Drinks"%string].
Proof.
  assert (H1 : Js.trim " Drinks " <> EmptyString) by (vm_compute; discriminate).
  assert (H2 : ~ In (Js.trim " Drinks ") (categories (state Sample.teaBoard))).
  { vm_compute. intros [E|[E|[]]]; discriminate. }
  split; [exact H1|]. split; [exact H2|].
  exact (proj2 (handleAddCategory_validates
                  {| AddCategory.newCategoryName := " Drinks ";
                     AddCategory.showAddCategory := true |}
                  Sample.teaBoard (fun _ => Resolved VUnit)
                  (Resolved (VCategories [Sample.Snacks; "Drinks"%string])))
           H1 H2).
Defined.

Lemma handleAddCategory_outcomes_witness :
  Js.trim " Drinks " = "Drinks"%string
  /\ products
       (state
          (snd (fst (AddCategory.complete (fun _ => Rejected None)
                       (Rejected None)
                       (AddCategory.handleAddCategory
                          {| AddCategory.newCategoryName := " Drinks ";
                             AddCategory.showAddCategory := true |}
                          Sample.teaBoard)))))
     = products (state Sample.teaBoard).
Proof.
  split; [reflexivity|].
  refine (proj1 (handleAddCategory_outcomes
                   {| AddCategory.newCategoryName := " Drinks ";
                      AddCategory.showAddCategory := true |}
                   Sample.teaBoard (fun _ => Rejected None) (Rejected None)
                   "D" "rinks" eq_refl _)).
  intros [E|[E|[]]]; discriminate.
Defined.

(** ** More on the gestures of a card *)

Section GestureMore.
Context `{Window}.
Variable product : SavedProduct.
Variable categoryIndex : Z.

Ltac parts :=
  cbn [card board panActive longPressActive inflight withCard withBoard
       setPanActive setLongPressActive started released
       isDragging dragEnabled dragging readyToDrag translateX translateY
       scale opacity targetCategoryRef targetCategory frameCounter
       reactionPrev dragAbsoluteX] in *.

Lemma reaction_at_rest now (s : Session) :
  card s = mountedCard -> reaction categoryIndex now s = s.
Proof. intros E. unfold reaction. rewrite E. reflexivity. Qed.

Lemma unarmed_step now ev (s0 s s' : Session) :
  ev <> LongPressStart ->
  unarmed s0 s ->
  step product categoryIndex now ev s = Some s' ->
  unarmed s0 s'.
Proof.
  intros Hev (Ec & El & Ei & Es). destruct ev; cbn [step].
  - contradiction.
  - rewrite El. discriminate.
  - destruct (negb (isUpdating product s) && negb (panActive s));
      [|discriminate].
    intros [= <-]. unfold panOnStart. parts. rewrite Ec.
    cbn [dragEnabled mountedCard negb].
    rewrite reaction_at_rest by exact Ec.
    repeat split; assumption.
  - destruct (panActive s); [|discriminate]. intros [= <-].
    unfold panOnUpdate. rewrite Ec. cbn [isDragging mountedCard negb orb].
    rewrite reaction_at_rest by exact Ec.
    repeat split; assumption.
  - destruct (panActive s); [|discriminate]. intros [= <-].
    unfold panOnEnd. parts. rewrite Ec. cbn [isDragging mountedCard negb].
    unfold panOnFinalize. parts. rewrite Ec. cbn [isDragging mountedCard].
    rewrite reaction_at_rest by exact Ec.
    repeat split; assumption.
  - destruct (negb (panActive s)); [|discriminate]. intros [= <-].
    unfold panOnFinalize. rewrite Ec. cbn [isDragging mountedCard].
    rewrite reaction_at_rest by exact Ec.
    repeat split; assumption.
  - destruct (fireTimer now id (board s)) as [b'|] eqn:Ef; [|discriminate].
    intros [= <-]. unfold unarmed. parts.
    rewrite (fireTimer_state now id _ _ Ef).
    repeat split; assumption.
  - intros [= <-]. repeat split; assumption.
  - rewrite Ei. discriminate.
Qed.

Lemma unarmed_run (evs : list (Z * Event)) (s0 s1 s : Session) :
  Forall (fun e => snd e <> LongPressStart) evs ->
  unarmed s0 s1 ->
  run product categoryIndex evs s1 = Some s ->
  unarmed s0 s.
Proof.
  intros Hevs. revert s1.
  induction Hevs as [|[now ev] evs Hev _ IH]; intros s1 U1 Hrun.
  - cbn in Hrun. injection Hrun as <-. exact U1.
  - cbn [run] in Hrun.
    destruct (step product categoryIndex now ev s1) as [s2|] eqn:Es;
      [|discriminate].
    apply (IH s2); [|exact Hrun]. eapply unarmed_step; eauto.
Qed.

(** X21.  Without a completed hold nothing is dragged: along every
    sequence of events in which the long press never starts, the card
    stays as it was mounted, no request is pending, and the state of the
    board (products, categories, drag fields) is the one it started
    with, however the pan starts, moves and ends. *)
Theorem no_hold_no_drag (evs : list (Z * Event)) (s0 s : Session) :
  mounted s0 ->
  Forall (fun e => snd e <> LongPressStart) evs ->
  run product categoryIndex evs s0 = Some s ->
  card s = mountedCard
  /\ isDragging (card s) = false
  /\ inflight s = []
  /\ state (board s) = state (board s0).
Proof.
  intros (Ec & _ & El & Ei & _) Hevs Hrun.
  assert (U : unarmed s0 s).
  { apply (unarmed_run evs s0 s0 s Hevs); [|exact Hrun].
    repeat split; assumption. }
  destruct U as (Uc & _ & Ui & Us).
  repeat split; try assumption. rewrite Uc. reflexivity.
Qed.

Lemma handleDragOver_counter now x (s : Session) :
  frameCounter (card (handleDragOver categoryIndex now x s))
  = frameCounter (card s).
Proof.
  unfold handleDragOver.
  destruct (handleDragOverColumn now x categoryIndex (board s)) as [b' nc].
  reflexivity.
Qed.

(** X22.  The reaction to the pointer position is throttled by a
    counter that stays between 0 and 2.  The reaction reaches the board
    only on the third new position since the last time it did: while
    the counter is below 2 it leaves the board and the target of the
    card as they are, and whenever it has changed the board the counter
    is back at 0. *)
Theorem reaction_throttled now (s : Session) :
  let s' := reaction categoryIndex now s in
  (0 <= frameCounter (card s) < 3 -> 0 <= frameCounter (card s') < 3)
  /\ (frameCounter (card s) < 2 ->
      board s' = board s
      /\ targetCategoryRef (card s') = targetCategoryRef (card s)
      /\ targetCategory (card s') = targetCategory (card s))
  /\ (board s' <> board s -> frameCounter (card s') = 0).
Proof.
  cbv zeta. unfold reaction. cbv zeta.
  destruct (samePrepared _ _);
    [split; [auto|]; split; [auto|]; intros X; now contradiction X|].
  destruct (prepared (card s)) as [x|];
    [|parts; split; [auto|]; split; [auto|];
      intros X; now contradiction X].
  destruct (frameCounter (card s) + 1 >=? 3) eqn:E.
  - rewrite Z.geb_leb in E. apply Z.leb_le in E.
    rewrite handleDragOver_counter. parts.
    split; [lia|]. split; [lia|]. reflexivity.
  - rewrite Z.geb_leb in E. apply Z.leb_gt in E. parts.
    split; [lia|]. split; [auto|]. intros X; now contradiction X.
Qed.

End GestureMore.

(** X21 and X22 on the tablet: [Sample.swipe] leaves the card of
    [Sample.tea] as mounted, and the third new position of a drag
    resets the counter. *)
Lemma no_hold_no_drag_witness :
  mounted Sample.restingCard
  /\ Forall (fun e => snd e <> LongPressStart) Sample.swipe
  /\ exists s,
       @run Sample.tablet Sample.tea 0 Sample.swipe Sample.restingCard
       = Some s
       /\ card s = mountedCard
       /\ inflight s = [].
Proof.
  assert (Hm : mounted Sample.restingCard) by (repeat split; reflexivity).
  assert (Hf : Forall (fun e => snd e <> LongPressStart) Sample.swipe)
    by (repeat constructor; discriminate).
  split; [exact Hm|]. split; [exact Hf|].
  destruct (@run Sample.tablet Sample.tea 0 Sample.swipe
              Sample.restingCard) as [s|] eqn:E;
    [|vm_compute in E; discriminate].
  exists s. split; [reflexivity|].
  pose proof (@no_hold_no_drag Sample.tablet Sample.tea 0 Sample.swipe
                Sample.restingCard s Hm Hf E) as (R1 & _ & R3 & _).
  split; assumption.
Defined.

Lemma reaction_throttled_witness :
  0 <= frameCounter (card (Sample.inDrag 600 None)) < 3
  /\ 0 <= frameCounter
            (card (@reaction Sample.tablet 0 40 (Sample.inDrag 600 None)))
     < 3.
Proof.
  assert (H0 : 0 <= frameCounter (card (Sample.inDrag 600 None)) < 3)
    by (cbn; lia).
  split; [exact H0|].
  exact (proj1 (@reaction_throttled Sample.tablet 0 40
                  (Sample.inDrag 600 None)) H0).
Defined.

(** ** The release of a card *)

Section Release.
Context `{Window}.
Variable product : SavedProduct.
Variable categoryIndex : Z.

Lemma handleDragClear_frame (b : Board) :
  products (state (handleDragClear b)) = products (state b)
  /\ categories (state (handleDragClear b)) = categories (state b)
  /\ updating (state (handleDragClear b)) = updating (state b)
  /\ effects (handleDragClear b) = effects b.
Proof. repeat split; reflexivity. Qed.

(** The release of a dragged card, up to the reaction that follows. *)
Lemma step_PanEnd_dragging now (s : Session) :
  panActive s = true ->
  isDragging (card s) = true ->
  exists s',
    step product categoryIndex now PanEnd s = Some s'
    /\ inflight s'
       = inflight
           (handleDrop product
              (withBoard (handleDragClear (board s))
                 (withCard (released (card s)) (setPanActive false s))))
    /\ board s'
       = board
           (handleDrop product
              (withBoard (handleDragClear (board s))
                 (withCard (released (card s)) (setPanActive false s)))).
Proof.
  intros Hp Hd. cbn [step]. rewrite Hp. eexists. split; [reflexivity|].
  set (d := handleDrop product
              (withBoard (handleDragClear (board s))
                 (withCard (released (card s)) (setPanActive false s)))).
  assert (Hi : isDragging (card d) = false).
  { unfold d, handleDrop.
    destruct (targetCategoryRef _) as [[|? ?]|]; reflexivity. }
  assert (E : panOnFinalize (panOnEnd product (setPanActive false s)) = d).
  { unfold panOnEnd. cbn [card setPanActive]. rewrite Hd. cbn [negb].
    change (handleDrop product _) with d.
    unfold panOnFinalize. rewrite Hi. reflexivity. }
  rewrite E.
  pose proof (reaction_card categoryIndex now d) as R. cbv zeta in R.
  destruct R as (_ & _ & _ & _ & _ & _ & _ & _ & _ & _ & Ri & Rb).
  split; [exact Ri|]. apply Rb. exact Hi.
Qed.

Lemma handleDrop_no_target (s : Session) :
  Js.truthy (targetCategoryRef (card s)) = false ->
  board (handleDrop product s) = handleDragEnd (board s)
  /\ inflight (handleDrop product s) = inflight s.
Proof.
  intros Ht. unfold handleDrop.
  destruct (targetCategoryRef (card s)) as [[|? ?]|];
    [|discriminate Ht|]; split; reflexivity.
Qed.

Lemma handleDrop_target (s : Session) (t : string) (c : ascii) (r : string) :
  targetCategoryRef (card s) = Some t ->
  t <> EmptyString ->
  _id product = Some (String c r) ->
  categoryOf product <> t ->
  board (handleDrop product s) = setUpdating (Some (String c r)) (board s)
  /\ inflight (handleDrop product s)
     = inflight s
       ++ [(UpdateProductCategory (String c r) t, afterPatch product t)].
Proof.
  intros Ht Hne Hid Hcat. unfold handleDrop. rewrite Ht.
  destruct t as [|tc tr]; [now contradiction Hne|].
  unfold handleProductDrop. cbv zeta. cbn [Js.orElse].
  destruct (String.eqb_spec (categoryOf product) (String tc tr)) as [E|_];
    [contradiction|].
  rewrite Hid. split; reflexivity.
Qed.

(** The session that [handleDrop] finds at the release of [s]. *)
Lemma before_drop (s : Session) :
  let s1 := withBoard (handleDragClear (board s))
              (withCard (released (card s)) (setPanActive false s)) in
  targetCategoryRef (card s1) = targetCategoryRef (card s)
  /\ board s1 = handleDragClear (board s)
  /\ inflight s1 = inflight s.
Proof. repeat split; reflexivity. Qed.

(** X23.  A dragged card released over no column asks the backend for
    nothing: no request joins the pending ones, the products, the
    categories and the card marked as updating stay as they are, nothing
    is shown or scrolled, and no column is highlighted any more. *)
Theorem release_without_target now (s : Session) :
  panActive s = true ->
  isDragging (card s) = true ->
  Js.truthy (targetCategoryRef (card s)) = false ->
  exists s',
    step product categoryIndex now PanEnd s = Some s'
    /\ inflight s' = inflight s
    /\ products (state (board s')) = products (state (board s))
    /\ categories (state (board s')) = categories (state (board s))
    /\ updating (state (board s')) = updating (state (board s))
    /\ effects (board s') = effects (board s)
    /\ dragTargetCategory (state (board s')) = None.
Proof.
  intros Hp Hd Ht.
  destruct (step_PanEnd_dragging now s Hp Hd) as (s' & Es & Ei & Eb).
  exists s'. split; [exact Es|].
  pose proof (before_drop s) as B. cbv zeta in B.
  destruct B as (B1 & B2 & B3).
  rewrite <- B1 in Ht.
  destruct (handleDrop_no_target _ Ht) as (D1 & D2).
  rewrite D1, B2 in Eb. rewrite D2, B3 in Ei.
  rewrite Ei, Eb.
  pose proof (handleDragEnd_frame (handleDragClear (board s))) as F.
  pose proof (handleDragEnd_clears (handleDragClear (board s))) as C.
  pose proof (handleDragClear_frame (board s)) as (G1 & G2 & G3 & G4).
  cbv zeta in F, C.
  destruct F as (F1 & F2 & _ & _ & F5 & _ & _ & _ & _ & F10).
  destruct C as (C1 & _).
  rewrite F1, F2, F5, F10, G1, G2, G3, G4, C1.
  split; [reflexivity|]. split; [reflexivity|]. split; [reflexivity|].
  split; [reflexivity|]. split; reflexivity.
Qed.

(** X24.  A dragged card released over another category sends one
    PATCH for it, marks the product as updating, and from then on the
    card takes no gesture: neither its long press nor its pan can start
    on the resulting session, at any time. *)
Theorem accepted_drop_disables_card now (s : Session) (t : string)
    (c : ascii) (r : string) :
  panActive s = true ->
  isDragging (card s) = true ->
  targetCategoryRef (card s) = Some t ->
  t <> EmptyString ->
  _id product = Some (String c r) ->
  categoryOf product <> t ->
  exists s',
    step product categoryIndex now PanEnd s = Some s'
    /\ inflight s'
       = inflight s
         ++ [(UpdateProductCategory (String c r) t, afterPatch product t)]
    /\ updating (state (board s')) = Some (String c r)
    /\ products (state (board s')) = products (state (board s))
    /\ forall now' e,
         step product categoryIndex now' LongPressStart s' = None
         /\ step product categoryIndex now' (PanStart e) s' = None.
Proof.
  intros Hp Hd Ht Hne Hid Hcat.
  destruct (step_PanEnd_dragging now s Hp Hd) as (s' & Es & Ei & Eb).
  exists s'. split; [exact Es|].
  pose proof (before_drop s) as B. cbv zeta in B.
  destruct B as (B1 & B2 & B3).
  rewrite <- B1 in Ht.
  destruct (handleDrop_target _ t c r Ht Hne Hid Hcat) as (D1 & D2).
  rewrite D1, B2 in Eb. rewrite D2, B3 in Ei.
  pose proof (handleDragClear_frame (board s)) as (G1 & _).
  assert (Eu : updating (state (board s')) = Some (String c r))
    by (rewrite Eb; reflexivity).
  split; [exact Ei|]. split; [exact Eu|].
  split; [rewrite Eb, products_setUpdating; exact G1|].
  intros now' e. cbn [step]. unfold isUpdating.
  rewrite Eu, Hid, String.eqb_refl. split; reflexivity.
Qed.

End Release.

(** X23 and X24 on the tablet: the card of [Sample.tea] released at
    x = 600 with no target, and with "Snacks" as its target. *)
Lemma release_without_target_witness :
  exists s',
    @step Sample.tablet Sample.tea 0 70 PanEnd (Sample.inDrag 600 None)
    = Some s'
    /\ inflight s' = [].
Proof.
  destruct (@release_without_target Sample.tablet Sample.tea 0 70
              (Sample.inDrag 600 None) eq_refl eq_refl eq_refl)
    as (s' & Es & Ei & _).
  exists s'. split; [exact Es|exact Ei].
Defined.

Lemma accepted_drop_disables_card_witness :
  exists s',
    @step Sample.tablet Sample.tea 0 70 PanEnd
      (Sample.inDrag 600 (Some Sample.Snacks))
    = Some s'
    /\ updating (state (board s')) = _id Sample.tea
    /\ @step Sample.tablet Sample.tea 0 80 LongPressStart s' = None.
Proof.
  assert (Hid : exists c r, _id Sample.tea = Some (String c r))
    by (vm_compute; eauto).
  destruct Hid as (c & r & Hid).
  assert (Hne : Sample.Snacks <> EmptyString) by discriminate.
  assert (Hcat : categoryOf Sample.tea <> Sample.Snacks)
    by (vm_compute; discriminate).
  destruct (@accepted_drop_disables_card Sample.tablet Sample.tea 0 70
              (Sample.inDrag 600 (Some Sample.Snacks)) Sample.Snacks c r
              eq_refl eq_refl eq_refl Hne Hid Hcat)
    as (s' & Es & _ & Eu & _ & Hg).
  exists s'. split; [exact Es|]. split; [rewrite Hid; exact Eu|].
  exact (proj1 (Hg 80 (Sample.pointerAt 0))).
Defined.

(** ** Sizes that follow the width of the window *)

Section Sizes.
Import Responsive.

Lemma Qmin_cases (x y : Q) :
  (Qmin x y == x /\ x <= y)%Q \/ (Qmin x y == y /\ y <= x)%Q.
Proof.
  destruct (Q.min_spec x y) as [[L E]|[L E]]; [left|right]; split;
    try exact E; lra.
Qed.

Lemma Qmax_cases (x y : Q) :
  (Qmax x y == y /\ x <= y)%Q \/ (Qmax x y == x /\ y <= x)%Q.
Proof.
  destruct (Q.max_spec x y) as [[L E]|[L E]]; [left|right]; split;
    try exact E; lra.
Qed.

Lemma isSmallDevice_spec `{Window} :
  (Theme.isSmallDevice = true /\ SCREEN_WIDTH < 375)%Q
  \/ (Theme.isSmallDevice = false /\ 375 <= SCREEN_WIDTH)%Q.
Proof.
  destruct Theme.isSmallDevice eqn:E; [left|right]; split; try reflexivity.
  - apply ltb_lt. exact E.
  - destruct (Qlt_le_dec SCREEN_WIDTH 375) as [L|L]; [|exact L].
    apply ltb_lt in L. unfold Theme.isSmallDevice in E. congruence.
Qed.

Lemma isTablet_spec `{Window} :
  (Theme.isTablet = true /\ 768 <= SCREEN_WIDTH)%Q
  \/ (Theme.isTablet = false /\ SCREEN_WIDTH < 768)%Q.
Proof.
  destruct Theme.isTablet eqn:E; [left|right]; split; try reflexivity.
  - apply leb_le. exact E.
  - destruct (Qlt_le_dec SCREEN_WIDTH 768) as [L|L]; [exact L|].
    apply leb_le in L. unfold Theme.isTablet in E. congruence.
Qed.

Lemma isLargeDevice_spec `{Window} :
  (isLargeDevice = true /\ 414 <= SCREEN_WIDTH)%Q
  \/ (isLargeDevice = false /\ SCREEN_WIDTH < 414)%Q.
Proof.
  destruct isLargeDevice eqn:E; [left|right]; split; try reflexivity.
  - apply leb_le. exact E.
  - destruct (Qlt_le_dec SCREEN_WIDTH 414) as [L|L]; [exact L|].
    apply leb_le in L. unfold isLargeDevice in E. congruence.
Qed.

(** The scan frame as a function of the width. *)
Lemma getScanFrameSize_cases `{Window} :
  (SCREEN_WIDTH < 375
   /\ getScanFrameSize = Qmin (SCREEN_WIDTH * (75 # 100)) 260)%Q
  \/ (375 <= SCREEN_WIDTH /\ SCREEN_WIDTH < 768
      /\ getScanFrameSize = Qmin (SCREEN_WIDTH * (8 # 10)) 320)%Q
  \/ (768 <= SCREEN_WIDTH
      /\ getScanFrameSize = Qmin (SCREEN_WIDTH * (1 # 2)) 400)%Q.
Proof.
  unfold getScanFrameSize.
  destruct isSmallDevice_spec as [[-> L]|[-> L]]; [left; split; auto|].
  destruct isTablet_spec as [[-> T]|[-> T]]; [right; right|right; left];
    repeat split; auto.
Qed.

(** X28.  The scan frame of the scanner fits the window and grows with
    it: on a window of positive width the frame is positive, at most
    four fifths of the width and at most 400; and of two windows the
    wider one never gets the smaller frame, although the three device
    classes compute it by different rules. *)
Theorem getScanFrameSize_fits_and_grows (narrow wide : Window) :
  (0 < @SCREEN_WIDTH narrow)%Q ->
  (@SCREEN_WIDTH narrow <= @SCREEN_WIDTH wide)%Q ->
  (0 < @getScanFrameSize narrow)%Q
  /\ (@getScanFrameSize narrow <= @SCREEN_WIDTH narrow * (8 # 10))%Q
  /\ (@getScanFrameSize narrow <= 400)%Q
  /\ (@getScanFrameSize narrow <= @getScanFrameSize wide)%Q.
Proof.
  intros Hpos Hle.
  destruct (@getScanFrameSize_cases narrow)
    as [(N & ->)|[(N1 & N2 & ->)|(N & ->)]];
  destruct (@getScanFrameSize_cases wide)
    as [(W & ->)|[(W1 & W2 & ->)|(W & ->)]];
  repeat match goal with
         | |- context [Qmin ?x ?y] =>
             let E := fresh "E" in
             let L := fresh "L" in
             destruct (Qmin_cases x y) as [[E L]|[E L]];
             rewrite E in *; clear E
         end;
  repeat split; lra.
Qed.

(** X29.  The responsive font size stays within 85 and 115 per cent of
    the size asked for, whatever the width of the window.  On a small
    device it is at most 90 per cent of it, and on a large device it is
    115 per cent of it: there the cap of [Math.min] is always the
    smaller argument.  (Sizes are rationals here.) *)
Theorem responsiveFontSize_bounds `{Window} (size : Q) :
  (0 <= SCREEN_WIDTH)%Q ->
  (0 <= size)%Q ->
  (size * (85 # 100) <= responsiveFontSize size)%Q
  /\ (responsiveFontSize size <= size * (115 # 100))%Q
  /\ (Theme.isSmallDevice = true ->
      (responsiveFontSize size <= size * (9 # 10))%Q)
  /\ (isLargeDevice = true ->
      (responsiveFontSize size == size * (115 # 100))%Q).
Proof.
  intros Hw Hs. unfold responsiveFontSize. cbv zeta.
  assert (Hscale : forall lo hi : Q,
             (lo * 375 <= SCREEN_WIDTH)%Q -> (SCREEN_WIDTH <= hi * 375)%Q ->
             (size * lo <= size * (SCREEN_WIDTH / 375)
              /\ size * (SCREEN_WIDTH / 375) <= size * hi)%Q).
  { intros lo hi L U.
    assert (L' : (lo <= SCREEN_WIDTH / 375)%Q)
      by (apply Qle_shift_div_l; lra).
    assert (U' : (SCREEN_WIDTH / 375 <= hi)%Q)
      by (apply Qle_shift_div_r; lra).
    split; rewrite !(Qmult_comm size); apply Qmult_le_compat_r; assumption. }
  destruct isSmallDevice_spec as [[-> S]|[-> S]].
  - destruct (Hscale 0%Q 1%Q) as [A B]; [lra|lra|].
    destruct (Qmax_cases (size * (SCREEN_WIDTH / 375) * (9 # 10))
                (size * (85 # 100))) as [[E L]|[E L]]; rewrite E.
    + repeat split; try lra. intros X.
      destruct isLargeDevice_spec as [[_ G]|[G _]]; [lra|congruence].
    + repeat split; try lra. intros X.
      destruct isLargeDevice_spec as [[_ G]|[G _]]; [lra|congruence].
  - destruct isLargeDevice_spec as [[-> G]|[-> G]].
    + destruct (Hscale (414 # 375) (SCREEN_WIDTH / 375)%Q) as [A _];
        [lra|field_simplify; lra|].
      destruct (Qmin_cases (size * (SCREEN_WIDTH / 375) * (11 # 10))
                  (size * (115 # 100))) as [[E L]|[E L]]; rewrite E;
        repeat split; try lra; discriminate.
    + destruct (Hscale 1%Q (414 # 375)) as [A B]; [lra|lra|].
      repeat split; try lra; discriminate.
Qed.

End Sizes.

(** X28 and X29 on the phone and the tablet of the examples. *)
Lemma getScanFrameSize_fits_and_grows_witness :
  (0 < @SCREEN_WIDTH Sample.phone)%Q
  /\ (@SCREEN_WIDTH Sample.phone <= @SCREEN_WIDTH Sample.tablet)%Q
  /\ (@Responsive.getScanFrameSize Sample.phone
      <= @Responsive.getScanFrameSize Sample.tablet)%Q.
Proof.
  assert (H1 : (0 < @SCREEN_WIDTH Sample.phone)%Q) by reflexivity.
  assert (H2 : (@SCREEN_WIDTH Sample.phone <= @SCREEN_WIDTH Sample.tablet)%Q)
    by (vm_compute; discriminate).
  split; [exact H1|]. split; [exact H2|].
  exact (proj2 (proj2 (proj2
           (getScanFrameSize_fits_and_grows Sample.phone Sample.tablet
              H1 H2)))).
Defined.

Lemma responsiveFontSize_bounds_witness :
  (0 <= @SCREEN_WIDTH Sample.tablet)%Q
  /\ (0 <= 20)%Q
  /\ (@Responsive.responsiveFontSize Sample.tablet 20 == 23)%Q.
Proof.
  assert (H1 : (0 <= @SCREEN_WIDTH Sample.tablet)%Q)
    by (vm_compute; discriminate).
  assert (H2 : (0 <= 20)%Q) by (vm_compute; discriminate).
  split; [exact H1|]. split; [exact H2|].
  rewrite (proj2 (proj2 (proj2
             (@responsiveFontSize_bounds Sample.tablet 20 H1 H2))) eq_refl).
  reflexivity.
Defined.

(** ** Runs of the scan handlers *)

Section Scans.
Import Scanner ScannerActions.

(** Splits a run of a scan handler by the answers of the services. *)
Ltac scan_cases sv code :=
  cbn [complete];
  destruct (getProductByBarcode sv code) as [[?p|]|?m];
  cbn [afterCheck fetchAndSave complete];
  try (destruct (fetchProductByBarcode sv code) as [?p|?m];
       cbn [afterFetch complete];
       try match goal with
           | |- context [saveProductToDatabase sv ?p ?c] =>
               destruct (saveProductToDatabase sv p c) as [?q|?m];
               cbn [afterSave complete]
           end).

(** X25.  The scanner takes one barcode at a time.  When a scan has
    been accepted and its handler has run to the end, whatever the
    services answered, the scanner is marked as scanned and nothing is
    under way; every further scan is then ignored, with no call and no
    change, until [handleScanAgain] or the button of the error alert
    resets the mark; [handleScanAgain] also takes the product off the
    screen. *)
Theorem scanner_latch (sv : Services) (data : string) (s : State) :
  scanned s || loading s || saving s || checking s = false ->
  isBarcode data = true ->
  let s' := fst (complete sv (handleBarCodeScanned data s)) in
  scanned s' = true
  /\ loading s' = false /\ saving s' = false /\ checking s' = false
  /\ (forall data', complete sv (handleBarCodeScanned data' s') = (s', []))
  /\ (forall data',
        isBarcode data' = true ->
        handleBarCodeScanned data' (handleScanAgain s')
        = AwaitCheck data' (begin true (handleScanAgain s'))
            (afterCheck false data')
        /\ handleBarCodeScanned data' (dismissError s')
           = AwaitCheck data' (begin true (dismissError s'))
               (afterCheck false data'))
  /\ displayed (handleScanAgain s') = None.
Proof.
  intros Hidle Hcode. cbv zeta.
  set (s' := fst (complete sv (handleBarCodeScanned data s))).
  assert (E : scanned s' = true /\ loading s' = false /\ saving s' = false
              /\ checking s' = false).
  { unfold s', handleBarCodeScanned. rewrite Hidle, Hcode. cbn [orb negb].
    scan_cases sv data; repeat split; reflexivity. }
  destruct E as (E1 & E2 & E3 & E4).
  split; [exact E1|]. split; [exact E2|]. split; [exact E3|].
  split; [exact E4|]. split; [|split].
  - intros data'. unfold handleBarCodeScanned. rewrite E1. reflexivity.
  - intros data' Hd. unfold handleBarCodeScanned.
    cbn [scanned loading saving checking handleScanAgain dismissError].
    rewrite E2, E3, E4, Hd. split; reflexivity.
  - unfold displayed. cbn [product handleScanAgain].
    destruct (_ && _); reflexivity.
Qed.

(** X26.  What an accepted scan ends with, by the answers of the
    services.  A product that the backend knows is shown as already in
    the database after the check alone.  Otherwise the catalog is asked:
    if it throws, nothing is shown and the error alert carries its
    message; if it answers, the product is saved as "Uncategorized" and
    shown under the badge of a saved product, the saved copy if the save
    succeeded, and else the fetched one with the warning alert.  No
    other call is made and no other alert is shown. *)
Theorem handleBarCodeScanned_outcomes (sv : Services) (data : string)
    (s : State) :
  scanned s || loading s || saving s || checking s = false ->
  isBarcode data = true ->
  let r := complete sv (handleBarCodeScanned data s) in
  let s' := fst r in
  match getProductByBarcode sv data with
  | Resolves (Some p) =>
      snd r = [Check data]
      /\ displayed s' = Some p
      /\ badge s' = Some AlreadyInDatabase
      /\ alerts s' = alerts s
  | _ =>
      match fetchProductByBarcode sv data with
      | Throws m =>
          snd r = [Check data; Fetch data]
          /\ displayed s' = None
          /\ alerts s' = alerts s ++ [("Error"%string, errorMessage m)]
      | Resolves p =>
          snd r = [Check data; Fetch data; Save p Uncategorized]
          /\ badge s' = Some Saved
          /\ match saveProductToDatabase sv p Uncategorized with
             | Resolves q => displayed s' = Some q /\ alerts s' = alerts s
             | Throws _ =>
                 displayed s' = Some (withCategory p Uncategorized)
                 /\ alerts s'
                    = alerts s ++ [("Warning"%string, saveWarning)]
             end
      end
  end.
Proof.
  intros Hidle Hcode. cbv zeta.
  unfold handleBarCodeScanned. rewrite Hidle, Hcode. cbn [orb negb].
  scan_cases sv data; repeat split; reflexivity.
Qed.

(** X27.  The manual input.  A blank input shows one alert and calls
    nothing.  Any other input is looked up by its trimmed text, whether
    or not a scan is under way, along the same path as a scan; the mark
    of the scanner is left as it is; the input is closed and emptied
    exactly when a product comes out, and stays open with its text when
    the catalog throws. *)
Theorem handleManualSubmit_outcomes (sv : Services) (s : State) :
  let code := Js.trim (manualBarcode s) in
  let r := complete sv (handleManualSubmit s) in
  let s' := fst r in
  (code = EmptyString ->
   r = (alert "Error" "Please enter a barcode" s, []))
  /\ (code <> EmptyString ->
      scanned s' = scanned s
      /\ match getProductByBarcode sv code with
         | Resolves (Some p) =>
             snd r = [Check code]
             /\ displayed s' = Some p
             /\ badge s' = Some AlreadyInDatabase
             /\ showManualInput s' = false
             /\ manualBarcode s' = EmptyString
         | _ =>
             match fetchProductByBarcode sv code with
             | Throws m =>
                 snd r = [Check code; Fetch code]
                 /\ displayed s' = None
                 /\ showManualInput s' = showManualInput s
                 /\ manualBarcode s' = manualBarcode s
                 /\ alerts s'
                    = alerts s ++ [("Error"%string, errorMessage m)]
             | Resolves p =>
                 snd r = [Check code; Fetch code; Save p Uncategorized]
                 /\ badge s' = Some Saved
                 /\ showManualInput s' = false
                 /\ manualBarcode s' = EmptyString
             end
         end).
Proof.
  cbv zeta. unfold handleManualSubmit.
  destruct (Js.trim (manualBarcode s)) as [|c code] eqn:Et.
  - split; [reflexivity|]. intros X. now contradiction X.
  - split; [discriminate|]. intros _.
    scan_cases sv (String c code); repeat split; reflexivity.
Qed.

End Scans.

(** X25, X26 and X27 on the barcode 8901012116340, scanned and entered
    by hand, with the backend down. *)
Lemma scanner_latch_witness :
  Scanner.isBarcode "8901012116340" = true
  /\ Scanner.complete Sample.catalogOnly
       (Scanner.handleBarCodeScanned "123"
          (fst (Scanner.complete Sample.catalogOnly
                  (Scanner.handleBarCodeScanned "8901012116340"
                     Sample.idleScanner))))
     = (fst (Scanner.complete Sample.catalogOnly
               (Scanner.handleBarCodeScanned "8901012116340"
                  Sample.idleScanner)), []).
Proof.
  split; [reflexivity|].
  exact (proj1 (proj2 (proj2 (proj2 (proj2
           (scanner_latch Sample.catalogOnly "8901012116340"
              Sample.idleScanner eq_refl eq_refl))))) "123"%string).
Defined.

Lemma handleBarCodeScanned_outcomes_witness :
  Scanner.isBarcode "8901012116340" = true
  /\ ScannerActions.badge
       (fst (Scanner.complete Sample.catalogOnly
               (Scanner.handleBarCodeScanned "8901012116340"
                  Sample.idleScanner)))
     = Some ScannerActions.Saved.
Proof.
  split; [reflexivity|].
  exact (proj1 (proj2
           (handleBarCodeScanned_outcomes Sample.catalogOnly
              "8901012116340" Sample.idleScanner eq_refl eq_refl))).
Defined.

Lemma handleManualSubmit_outcomes_witness :
  Js.trim (Scanner.manualBarcode Sample.idleScanner) <> EmptyString
  /\ Scanner.showManualInput
       (fst (Scanner.complete Sample.catalogOnly
               (Scanner.handleManualSubmit Sample.idleScanner)))
     = false.
Proof.
  assert (Hm : Js.trim (Scanner.manualBarcode Sample.idleScanner)
               <> EmptyString) by (vm_compute; discriminate).
  split; [exact Hm|].
  exact (proj1 (proj2 (proj2 (proj2
           (proj2 (handleManualSubmit_outcomes Sample.catalogOnly
                     Sample.idleScanner) Hm))))).
Defined.
